(** * Claims workflow, evaluator-optimizer loops and fan-out synthesis

    A shallow embedding of the control logic of the course repository:
    the validation gates and LangGraph nodes of the claims pipeline
    (course1), the evaluator-optimizer loops and the fan-in summary agents
    (course2-workflows).

    Modelling conventions
    - A Python [str] is a [string] of bytes; [lower] and [strip] act on the
      ASCII range.  The tokens tested by the code, "approved" and "yes", have
      no non-ASCII case variants; whitespace outside ASCII (such as a
      no-break space around a reply) is not modelled.
    - A Python exception is a class tag plus its [str()] text; [except C]
      handlers test the class, subclasses included.
    - The Completion Service is an oracle: the answer to the n-th call made
      in a run, given the request.  Every call is appended to the log
      [calls] of the [world]; [print] appends to [stdout].  [logger] calls
      are not modelled.
    - A Python [float] is finite (a rational), infinite or NaN; comparisons
      against [int] literals are exact in Python, and so here. *)

From Stdlib Require Import ZArith QArith Lia Ascii String.
From stdpp Require Import gmap strings list pretty.
From Equations Require Import Equations.

Local Open Scope string_scope.
Local Open Scope list_scope.
Local Open Scope Z_scope.

(** ** Python strings *)

Module PyStr.

Definition is_upper (c : ascii) : bool :=
  let n := nat_of_ascii c in (65 <=? n)%nat && (n <=? 90)%nat.

Definition lower_char (c : ascii) : ascii :=
  if is_upper c then ascii_of_nat (nat_of_ascii c + 32) else c.

(** [str.lower()] *)
Fixpoint lower (s : string) : string :=
  match s with
  | EmptyString => EmptyString
  | String c s' => String (lower_char c) (lower s')
  end.

(** The ASCII characters for which [str.isspace()] holds:
    tab, LF, VT, FF, CR, FS, GS, RS, US and space. *)
Definition is_space (c : ascii) : bool :=
  let n := nat_of_ascii c in
  ((9 <=? n)%nat && (n <=? 13)%nat) || ((28 <=? n)%nat && (n <=? 32)%nat).

Fixpoint lstrip (s : string) : string :=
  match s with
  | EmptyString => EmptyString
  | String c s' => if is_space c then lstrip s' else s
  end.

Fixpoint rstrip (s : string) : string :=
  match s with
  | EmptyString => EmptyString
  | String c s' =>
      match rstrip s' with
      | EmptyString => if is_space c then EmptyString else String c EmptyString
      | r => String c r
      end
  end.

(** [str.strip()] *)
Definition strip (s : string) : string := rstrip (lstrip s).

(** [s.startswith(tok)] *)
Definition startswith (s tok : string) : bool := String.prefix tok s.

(** [s[:n]] for [n >= 0] *)
Definition slice_to (n : nat) (s : string) : string := String.substring 0 n s.

(** Truthiness of a string: [if s:] *)
Definition truthy (s : string) : bool :=
  match s with EmptyString => false | _ => true end.

End PyStr.

(** ** Python exceptions *)

Inductive exn_class : Set :=
| ValueError | JSONDecodeError | ValidationError
| TypeError | KeyError | UnboundLocalError | AttributeError
| RuntimeError | RetryError | APIError.

Record exn : Set := Exn { exn_cls : exn_class; exn_str : string }.

(** [isinstance(e, ValueError)]: [json.JSONDecodeError] and pydantic's
    [ValidationError] derive from [ValueError]. *)
Definition is_ValueError (e : exn) : bool :=
  match exn_cls e with
  | ValueError | JSONDecodeError | ValidationError => true
  | _ => false
  end.

(** ** Python floats, as far as comparisons see them *)

Inductive pyfloat : Set :=
| Finite (q : Q)
| Infinity (negative : bool)
| NaN.

(** [i <= x] for an [int] [i] and a [float] [x] *)
Definition int_le_float (i : Z) (x : pyfloat) : bool :=
  match x with
  | Finite q => Qle_bool (inject_Z i) q
  | Infinity negative => negb negative
  | NaN => false
  end.

(** [i < x] *)
Definition int_lt_float (i : Z) (x : pyfloat) : bool :=
  match x with
  | Finite q => negb (Qle_bool q (inject_Z i))
  | Infinity negative => negb negative
  | NaN => false
  end.

(** [x <= i] *)
Definition float_le_int (x : pyfloat) (i : Z) : bool :=
  match x with
  | Finite q => Qle_bool q (inject_Z i)
  | Infinity negative => negative
  | NaN => false
  end.

(** ** The Completion Service and the effects of a run *)

Record message : Set := Message { role : string; content : string }.

Record request : Set := Request {
  req_model : string;
  req_messages : list message;
  req_temperature : Q;
  req_max_tokens : option Z
}.

(** What a run does to the outside: requests to the Completion Service and
    calls of an injected worker agent. *)
Inductive event : Set :=
| ApiCall (r : request)
| AgentCall (prompt : string).

Record world : Set := World {
  calls : list event;     (* every outside call so far, oldest first *)
  stdout : list string    (* every printed text so far, oldest first *)
}.

Inductive res (A : Type) : Type :=
| Ret (a : A)
| Raise (e : exn).
Arguments Ret {A} a.
Arguments Raise {A} e.

Definition M (A : Type) : Type := world -> res A * world.

Definition ret {A} (a : A) : M A := fun w => (Ret a, w).

Definition raise {A} (e : exn) : M A := fun w => (Raise e, w).

Definition bind {A B} (m : M A) (k : A -> M B) : M B :=
  fun w =>
    match m w with
    | (Ret a, w') => k a w'
    | (Raise e, w') => (Raise e, w')
    end.

(** [try: body  except Exception as e: handler e] *)
Definition try_except {A} (body : M A) (handler : exn -> M A) : M A :=
  fun w =>
    match body w with
    | (Ret a, w') => (Ret a, w')
    | (Raise e, w') => handler e w'
    end.

Notation "'let*' x ':=' m 'in' k" := (bind m (fun x => k))
  (at level 10, x name, m at level 100, k at level 200).
Notation "m ';;' k" := (bind m (fun _ => k))
  (at level 100, k at level 200, right associativity).

(** An outside collaborator: its answer to call number [n] of the run
    (counting every outside call), given what it is asked. *)
Definition oracle (I O : Type) : Type := nat -> I -> exn + O.

Definition ask {I O} (log : I -> event) (f : oracle I O) (i : I) : M O :=
  fun w =>
    let w' := {| calls := calls w ++ [log i]; stdout := stdout w |} in
    match f (length (calls w)) i with
    | inl e => (Raise e, w')
    | inr a => (Ret a, w')
    end.

(** An endpoint of the Completion Service, and a call to it. *)
Definition endpoint (A : Type) : Type := oracle request A.

Definition call {A} (api : endpoint A) (r : request) : M A := ask ApiCall api r.

Definition print (s : string) : M unit :=
  fun w => (Ret tt, {| calls := calls w; stdout := stdout w ++ [s] |}).

(** [range(n)] *)
Definition range (n : Z) : list Z := map Z.of_nat (seq 0 (Z.to_nat n)).

Definition new_line : string := String "010" EmptyString.

(** Lifting a pure, fallible computation (a gate, a subscript) into a run. *)
Definition lift {A} (r : exn + A) : M A :=
  match r with
  | inl e => raise e
  | inr a => ret a
  end.

(** [d[key]] on a TypedDict key that may be absent *)
Definition subscript {A} (key : string) (v : option A) : exn + A :=
  match v with
  | Some a => inr a
  | None => inl (Exn KeyError ("'" +:+ key +:+ "'"))
  end.

(** [a or b] on optional strings *)
Definition or_else (a : option string) (b : string) : string :=
  match a with
  | Some s => if PyStr.truthy s then s else b
  | None => b
  end.

(** ** course1/claims-workflow: state.py, gates.py, utils.py,
       agents/claims_processor.py *)

Module ClaimsWorkflow.

(** *** state.py *)

Record ClaimInformation : Set := {
  claim_id : string;
  policy_number : string;
  claimant_name : string;
  incident_date : string;
  incident_type : string;
  damage_description : string;
  location : string
}.

Inductive Severity : Set := Low | Medium | High.

Definition Severity_str (s : Severity) : string :=
  match s with Low => "Low" | Medium => "Medium" | High => "High" end.

Record SeverityAssessment : Set := {
  severity : Severity;
  est_cost : pyfloat;
  reasoning : string
}.

Inductive Queue : Set := queue_auto | queue_manual | queue_specialist.
Inductive Priority : Set := priority_low | priority_medium | priority_high.

Record ClaimRouting : Set := {
  queue : Queue;
  priority : Priority;
  routing_reasoning : string   (* field [reasoning] of ClaimRouting *)
}.

(** [ClaimState] is a TypedDict with [total=False]: every key may be
    absent.  The entry points create it with [fnol] and [model] only. *)
Record ClaimState : Set := {
  fnol : option string;
  model : option string;
  claim_info : option ClaimInformation;
  state_severity : option SeverityAssessment;   (* key "severity" *)
  routing : option ClaimRouting;
  errors : option (list string);
  status : option string
}.

(** The partial dict a node returns. *)
Record Update : Set := {
  upd_claim_info : option ClaimInformation;
  upd_severity : option SeverityAssessment;
  upd_routing : option ClaimRouting;
  upd_errors : option (list string);
  upd_status : option string
}.

Definition overwrite {A} (old new : option A) : option A :=
  match new with
  | Some a => Some a
  | None => old
  end.

(** How LangGraph folds a node's return value into the state: each key
    present in the update replaces the state's value (no reducers are
    declared on [ClaimState]). *)
Definition merge (s : ClaimState) (u : Update) : ClaimState :=
  {| fnol := fnol s;
     model := model s;
     claim_info := overwrite (claim_info s) (upd_claim_info u);
     state_severity := overwrite (state_severity s) (upd_severity u);
     routing := overwrite (routing s) (upd_routing u);
     errors := overwrite (errors s) (upd_errors u);
     status := overwrite (status s) (upd_status u) |}.

(** [state.get("errors", [])] *)
Definition get_errors (s : ClaimState) : list string :=
  match errors s with
  | Some l => l
  | None => []
  end.

Inductive node : Set := extract_claim | assess_severity | route_claim.

Inductive target : Set := Goto (n : node) | END.

Section Workflow.

(** The external libraries and the configuration the code relies on. *)
Variable chat : endpoint string.
(** [ClaimInformation( **json.loads(s))] and its siblings *)
Variable load_ClaimInformation : string -> exn + ClaimInformation.
Variable load_SeverityAssessment : string -> exn + SeverityAssessment.
Variable load_ClaimRouting : string -> exn + ClaimRouting.
(** [model_dump_json()] and [json.dumps(routing_input, indent=2)] *)
Variable model_dump_json : ClaimInformation -> string.
Variable dumps_routing_input : ClaimInformation -> SeverityAssessment -> string.
(** [f"{cost}"] for a float *)
Variable format_float : pyfloat -> string.
(** prompts.py and the MODEL environment default *)
Variable INFO_EXTRACTION_PROMPT : string.
Variable SEVERITY_ASSESSMENT_PROMPT : string.
Variable QUEUE_ROUTING_PROMPT : string.
Variable DEFAULT_MODEL : string.

(** *** utils.py *)

Definition get_completion
    (messages : option (list message)) (system_prompt user_prompt : option string)
    (model : option string) (temperature : Q) (max_tokens : Z) : M string :=
  let messages_list := match messages with Some l => l | None => [] end in
  let messages_list :=
    match system_prompt with
    | Some p => if PyStr.truthy p
                then {| role := "system"; content := p |} :: messages_list
                else messages_list
    | None => messages_list
    end in
  let messages_list :=
    match user_prompt with
    | Some p => if PyStr.truthy p
                then messages_list ++ [{| role := "user"; content := p |}]
                else messages_list
    | None => messages_list
    end in
  match messages_list with
  | [] => raise (Exn ValueError "Must provide messages, system_prompt, or user_prompt")
  | _ =>
      try_except
        (call chat {| req_model := or_else model DEFAULT_MODEL;
                      req_messages := messages_list;
                      req_temperature := temperature;
                      req_max_tokens := Some max_tokens |})
        (fun e => raise (Exn RuntimeError ("OpenAI API error: " +:+ exn_str e)))
  end.

(** *** gates.py *)

Definition gate1_validate_claims_info (claim_info_json : string)
    : exn + ClaimInformation :=
  match load_ClaimInformation claim_info_json with
  | inr c => inr c
  | inl e => inl (Exn ValueError ("Invalid claim information format: " +:+ exn_str e))
  end.

Definition cost_ranges (sev : Severity) : Z * Z :=
  match sev with
  | Low => (100, 1000)
  | Medium => (1000, 5000)
  | High => (5000, 50000)
  end.

Definition out_of_range_message
    (cost : pyfloat) (sev : Severity) (min_cost max_cost : Z) : string :=
  "Cost $" +:+ format_float cost +:+ " out of range for " +:+ Severity_str sev
  +:+ " severity ($" +:+ pretty min_cost +:+ "-$" +:+ pretty max_cost +:+ ")".

(** The body of the [try] block of [gate2_cost_range_ok]. *)
Definition gate2_body (severity_json : string) : exn + SeverityAssessment :=
  match load_SeverityAssessment severity_json with
  | inl e => inl e
  | inr validated =>
      let cost := est_cost validated in
      let sev := severity validated in
      let '(min_cost, max_cost) := cost_ranges sev in
      match sev with
      | Low =>
          if negb (int_le_float min_cost cost && float_le_int cost max_cost)
          then inl (Exn ValueError (out_of_range_message cost sev min_cost max_cost))
          else inr validated
      | _ =>
          if negb (int_lt_float min_cost cost && float_le_int cost max_cost)
          then inl (Exn ValueError (out_of_range_message cost sev min_cost max_cost))
          else inr validated
      end
  end.

Definition gate2_cost_range_ok (severity_json : string)
    : exn + SeverityAssessment :=
  match gate2_body severity_json with
  | inr v => inr v
  | inl e =>
      if is_ValueError e
      then inl e                                            (* except ValueError: raise *)
      else inl (Exn ValueError ("Invalid severity assessment format: " +:+ exn_str e))
  end.

Definition gate3_validate_routing (routing_json : string) : exn + ClaimRouting :=
  match load_ClaimRouting routing_json with
  | inr r => inr r
  | inl e => inl (Exn ValueError ("Invalid claim routing format: " +:+ exn_str e))
  end.

(** *** agents/claims_processor.py *)

Definition no_update : Update :=
  {| upd_claim_info := None; upd_severity := None; upd_routing := None;
     upd_errors := None; upd_status := None |}.

Definition failure_update (s : ClaimState) (label : string) (e : exn) : Update :=
  {| upd_claim_info := None; upd_severity := None; upd_routing := None;
     upd_errors := Some (get_errors s ++ [label +:+ exn_str e]);
     upd_status := Some "failed" |}.

Definition extract_claim_node (state : ClaimState) : M Update :=
  try_except
    (let* user_text := lift (subscript "fnol" (fnol state)) in
     let messages := [ {| role := "system"; content := INFO_EXTRACTION_PROMPT |};
                       {| role := "user"; content := user_text |} ] in
     let* m := lift (subscript "model" (model state)) in
     let* response := get_completion (Some messages) None None (Some m) 0 500 in
     let* info := lift (gate1_validate_claims_info response) in
     ret {| upd_claim_info := Some info; upd_severity := None; upd_routing := None;
            upd_errors := None; upd_status := Some "claim_extracted" |})
    (fun e => ret (failure_update state "Extraction error: " e)).

Definition assess_severity_node (state : ClaimState) : M Update :=
  (* the log line before the [try] reads state['claim_info'].claim_id *)
  let* _ := lift (subscript "claim_info" (claim_info state)) in
  try_except
    (let* info := lift (subscript "claim_info" (claim_info state)) in
     let claim_json := model_dump_json info in
     let messages := [ {| role := "system"; content := SEVERITY_ASSESSMENT_PROMPT |};
                       {| role := "user"; content := claim_json |} ] in
     let* m := lift (subscript "model" (model state)) in
     let* response := get_completion (Some messages) None None (Some m) 0 500 in
     let* sev := lift (gate2_cost_range_ok response) in
     ret {| upd_claim_info := None; upd_severity := Some sev; upd_routing := None;
            upd_errors := None; upd_status := Some "severity_assessed" |})
    (fun e => ret (failure_update state "Severity error: " e)).

Definition route_claim_node (state : ClaimState) : M Update :=
  let* _ := lift (subscript "claim_info" (claim_info state)) in
  try_except
    (let* info := lift (subscript "claim_info" (claim_info state)) in
     let* sev := lift (subscript "severity" (state_severity state)) in
     let messages := [ {| role := "system"; content := QUEUE_ROUTING_PROMPT |};
                       {| role := "user"; content := dumps_routing_input info sev |} ] in
     let* m := lift (subscript "model" (model state)) in
     let* response := get_completion (Some messages) None None (Some m) 0 500 in
     let* r := lift (gate3_validate_routing response) in
     ret {| upd_claim_info := None; upd_severity := None; upd_routing := Some r;
            upd_errors := None; upd_status := Some "completed" |})
    (fun e => ret (failure_update state "Routing error: " e)).

Definition should_continue (state : ClaimState) : exn + string :=
  match subscript "status" (status state) with
  | inl e => inl e
  | inr st => if String.eqb st "failed" then inr "end" else inr "continue"
  end.

(** [build_graph]: the function behind each node name, and the edge that
    leaves it.  A conditional edge looks the result of [should_continue] up
    in its path map. *)
Definition node_function (n : node) : ClaimState -> M Update :=
  match n with
  | extract_claim => extract_claim_node
  | assess_severity => assess_severity_node
  | route_claim => route_claim_node
  end.

Definition START : node := extract_claim.

Definition path_map (on_continue : node) (decision : string) : exn + target :=
  if String.eqb decision "continue" then inr (Goto on_continue)
  else if String.eqb decision "end" then inr END
  else inl (Exn KeyError ("'" +:+ decision +:+ "'")).

Definition edge (n : node) (s : ClaimState) : exn + target :=
  match n with
  | extract_claim =>
      match should_continue s with
      | inl e => inl e
      | inr d => path_map assess_severity d
      end
  | assess_severity =>
      match should_continue s with
      | inl e => inl e
      | inr d => path_map route_claim d
      end
  | route_claim => inr END
  end.

(** LangGraph's default bound on the number of steps of one run. *)
Definition recursion_limit : nat := 25.

(** One run of the compiled graph from node [n]: run the node, merge its
    update, follow the edge.  The visited nodes are returned with the state
    each one left behind. *)
Fixpoint run_from (fuel : nat) (n : node) (s : ClaimState)
    (visited : list (node * ClaimState))
    : M (list (node * ClaimState) * ClaimState) :=
  match fuel with
  | O => raise (Exn RuntimeError "Recursion limit reached")
  | S fuel' =>
      let* u := node_function n s in
      let s' := merge s u in
      let visited' := visited ++ [(n, s')] in
      let* t := lift (edge n s') in
      match t with
      | END => ret (visited', s')
      | Goto n' => run_from fuel' n' s' visited'
      end
  end.

(** [graph.invoke(input)] *)
Definition invoke (input : ClaimState) : M (list (node * ClaimState) * ClaimState) :=
  run_from recursion_limit START input [].

End Workflow.

(** The position of a status along the pipeline; no status yet counts as
    the stage before extraction. *)
Definition stage (st : option string) : nat :=
  match st with
  | None => 0
  | Some s =>
      if String.eqb s "claim_extracted" then 1
      else if String.eqb s "severity_assessed" then 2
      else if String.eqb s "completed" then 3
      else 0
  end%nat.

End ClaimsWorkflow.

(** ** course1/7-chaining_prompts/chaining-prompting.py: the Assessment Gate
       of the script version *)

Module ChainingScript.

Inductive Severity : Set := Low | Medium | High.

Record SeverityAssessment : Set := {
  severity : Severity;
  est_cost : pyfloat     (* Field(..., gt=0), enforced by the loader *)
}.

Section Gate.

(** [SeverityAssessment( **json.loads(s))] *)
Variable load_SeverityAssessment : string -> exn + SeverityAssessment.

(** The body of the [try] block. *)
Definition gate2_body (severity_json : string) : exn + SeverityAssessment :=
  match load_SeverityAssessment severity_json with
  | inl e => inl e
  | inr validated_severity =>
      let cost := est_cost validated_severity in
      match severity validated_severity with
      | Low =>
          if negb (int_le_float 100 cost && float_le_int cost 1000)
          then inl (Exn ValueError "Estimated cost not in range for Low severity")
          else inr validated_severity
      | Medium =>
          if negb (int_lt_float 1000 cost && float_le_int cost 5000)
          then inl (Exn ValueError "Estimated cost not in range for Medium severity")
          else inr validated_severity
      | High =>
          if negb (int_lt_float 5000 cost && float_le_int cost 50000)
          then inl (Exn ValueError "Estimated cost not in range for High severity")
          else inr validated_severity
      end
  end.

(** The first handler reads [except ValueError as ve: raise ve from e]:
    [e] is a local of the function (bound by the second handler) that has
    no value at that point, so evaluating it raises [UnboundLocalError]. *)
Definition gate2_cost_range_ok (severity_json : string)
    : exn + SeverityAssessment :=
  match gate2_body severity_json with
  | inr v => inr v
  | inl ve =>
      if is_ValueError ve
      then inl (Exn UnboundLocalError
                  "cannot access local variable 'e' where it is not associated with a value")
      else inl (Exn ValueError ("Invalid severity assessment format: " +:+ exn_str ve))
  end.

End Gate.

(** *** The completion helper, the other gates, the three steps and the
        script that runs them over the sample notices *)

Record ClaimInformation : Set := {
  claim_id : string;
  name : string;
  vehicle : string;
  loss_desc : string;
  damage_area : list string
}.

Inductive Queue : Set := glass | fast_track | material_damage | total_loss.

Record ClaimRouting : Set := {
  routing_claim_id : string;    (* field [claim_id] of ClaimRouting *)
  queue : Queue
}.

Definition MODEL : string := "gpt-4.1-nano".

(** The float literal [0.000001], exactly. *)
Definition temperature : Q := 4722366482869645 # 4722366482869645213696.

(** Reading the local [e] before any handler has bound it. *)
Definition unbound_e : exn :=
  Exn UnboundLocalError
    "cannot access local variable 'e' where it is not associated with a value".

Section Steps.

Variable chat : endpoint string.
(** [ClaimInformation( **json.loads(s))] and its siblings *)
Variable load_ClaimInformation : string -> exn + ClaimInformation.
Variable load_SeverityAssessment : string -> exn + SeverityAssessment.
Variable load_ClaimRouting : string -> exn + ClaimRouting.
(** [model_dump_json()] and [json.dumps(routing_input)] *)
Variable model_dump_json : ClaimInformation -> string.
Variable dumps_routing_input : ClaimInformation -> option SeverityAssessment -> string.
(** [model_dump_json(indent=4)] of the three records *)
Variable show_claim : ClaimInformation -> string.
Variable show_severity : SeverityAssessment -> string.
Variable show_routing : ClaimRouting -> string.
Variable info_extraction_system_prompt : string.
Variable severity_assessment_system_prompt : string.
Variable queue_routing_system_prompt : string.

Definition get_completion
    (messages : option (list message)) (system_prompt user_prompt : option string)
    : M string :=
  let messages_list := match messages with Some l => l | None => [] end in
  let messages_list :=
    match system_prompt with
    | Some p => if PyStr.truthy p
                then {| role := "system"; content := p |} :: messages_list
                else messages_list
    | None => messages_list
    end in
  let messages_list :=
    match user_prompt with
    | Some p => if PyStr.truthy p
                then messages_list ++ [{| role := "user"; content := p |}]
                else messages_list
    | None => messages_list
    end in
  match messages_list with
  | [] => raise (Exn ValueError
                   "Either messages or system_prompt and user_prompt must be provided.")
  | _ =>
      try_except
        (call chat {| req_model := MODEL;
                      req_messages := messages_list;
                      req_temperature := temperature;
                      req_max_tokens := Some 500 |})
        (fun e => raise (Exn RuntimeError ("Error en API call: " +:+ exn_str e)))
  end.

Definition gate1_validate_claims_info (claim_info : string)
    : exn + ClaimInformation :=
  match load_ClaimInformation claim_info with
  | inr c => inr c
  | inl e => inl (Exn ValueError ("Invalid claim information format: " +:+ exn_str e))
  end.

(** The completion is requested before the [try]; the first handler reads
    [raise ve from e], as the one of [gate2_cost_range_ok]. *)
Definition extract_claim_information (fnol_report : string) : M ClaimInformation :=
  let messages := [ {| role := "system"; content := info_extraction_system_prompt |};
                    {| role := "user"; content := fnol_report |} ] in
  let* response := get_completion (Some messages) None None in
  try_except
    (lift (gate1_validate_claims_info response))
    (fun ex =>
       if is_ValueError ex
       then raise unbound_e
       else raise (Exn RuntimeError
                     ("Error extracting claim information: " +:+ exn_str ex))).

(** Here the first handler is a bare [raise]. *)
Definition assess_severity (claim_info : ClaimInformation) : M SeverityAssessment :=
  let claim_info_json := model_dump_json claim_info in
  let messages := [ {| role := "system"; content := severity_assessment_system_prompt |};
                    {| role := "user"; content := claim_info_json |} ] in
  let* response := get_completion (Some messages) None None in
  try_except
    (lift (gate2_cost_range_ok load_SeverityAssessment response))
    (fun ex =>
       if is_ValueError ex
       then raise ex
       else raise (Exn RuntimeError ("Error assessing severity: " +:+ exn_str ex))).

Definition gate3_validate_routing (routing_json : string) : exn + ClaimRouting :=
  match load_ClaimRouting routing_json with
  | inr r => inr r
  | inl e => inl (Exn ValueError ("Invalid claim routing format: " +:+ exn_str e))
  end.

Definition route_claim (claim_info : ClaimInformation)
    (severity_assessment : option SeverityAssessment) : M ClaimRouting :=
  let messages :=
    [ {| role := "system"; content := queue_routing_system_prompt |};
      {| role := "user"; content := dumps_routing_input claim_info severity_assessment |} ] in
  let* response := get_completion (Some messages) None None in
  try_except
    (lift (gate3_validate_routing response))
    (fun ex =>
       if is_ValueError ex
       then raise unbound_e
       else raise (Exn RuntimeError ("Error routing claim: " +:+ exn_str ex))).

(** [[f(x) for x in xs]] *)
Fixpoint comprehension {A B} (f : A -> M B) (xs : list A) : M (list B) :=
  match xs with
  | [] => ret []
  | x :: rest =>
      let* y := f x in
      let* ys := comprehension f rest in
      ret (y :: ys)
  end.

(** [for x in xs: print(show(x))] *)
Fixpoint print_each {A} (show : A -> string) (xs : list A) : M unit :=
  match xs with
  | [] => ret tt
  | x :: rest => print (show x) ;; print_each show rest
  end.

(** [zip(xs, ys)] *)
Fixpoint zip {A B} (xs : list A) (ys : list B) : list (A * B) :=
  match xs, ys with
  | x :: xs', y :: ys' => (x, y) :: zip xs' ys'
  | _, _ => []
  end.

(** The statements of the module, in the order they run. *)
Definition script (sample_fnols : list string)
    : M (list ClaimInformation * list SeverityAssessment * list ClaimRouting) :=
  let* extracted_claims_info := comprehension extract_claim_information sample_fnols in
  print_each show_claim extracted_claims_info ;;
  let* severity_assessment_items := comprehension assess_severity extracted_claims_info in
  print_each show_severity severity_assessment_items ;;
  let* claim_routing_items :=
    comprehension (fun '(claim_info, severity_assessment) =>
                     route_claim claim_info (Some severity_assessment))
      (zip extracted_claims_info severity_assessment_items) in
  print_each show_routing claim_routing_items ;;
  ret (extracted_claims_info, severity_assessment_items, claim_routing_items).

End Steps.

End ChainingScript.

(** ** course1/7-chaining_prompts/chaining-prompting_langgraph.py: the
       extraction node with its retry *)

Module ChainingLangGraph.

Record ClaimInformation : Set := {
  claim_id : string;
  name : string;
  vehicle : string;
  loss_desc : string;
  damage_area : list string
}.

Inductive Severity : Set := Low | Medium | High.

Record SeverityAssessment : Set := {
  severity : Severity;
  est_cost : pyfloat
}.

Inductive Queue : Set := glass | fast_track | material_damage | total_loss.

Record ClaimRouting : Set := {
  routing_claim_id : string;    (* field [claim_id] of ClaimRouting *)
  queue : Queue
}.

Record ClaimWorkflowState : Set := {
  fnol : string;
  claim_info : option ClaimInformation;
  state_severity : option SeverityAssessment;   (* key "severity" *)
  routing : option ClaimRouting;
  errors : list string;
  retry_count : Z;
  status : string;
  model : option string
}.

(** [{**state, "claim_info": c, "status": "claim_extracted"}] *)
Definition with_claim (s : ClaimWorkflowState) (c : ClaimInformation)
    : ClaimWorkflowState :=
  {| fnol := fnol s; claim_info := Some c; state_severity := state_severity s;
     routing := routing s; errors := errors s; retry_count := retry_count s;
     status := "claim_extracted"; model := model s |}.

(** [state["errors"].append(msg); state["retry_count"] += 1] *)
Definition record_failure (s : ClaimWorkflowState) (msg : string)
    : ClaimWorkflowState :=
  {| fnol := fnol s; claim_info := claim_info s; state_severity := state_severity s;
     routing := routing s; errors := errors s ++ [msg];
     retry_count := retry_count s + 1;
     status := status s; model := model s |}.

(** [{**state, "status": st}] *)
Definition with_status (s : ClaimWorkflowState) (st : string)
    : ClaimWorkflowState :=
  {| fnol := fnol s; claim_info := claim_info s; state_severity := state_severity s;
     routing := routing s; errors := errors s; retry_count := retry_count s;
     status := st; model := model s |}.

Definition MODEL : string := "gpt-4.1-mini".

Section Node.

Variable chat : endpoint string.
(** [ClaimInformation( **json.loads(s))] *)
Variable load_ClaimInformation : string -> exn + ClaimInformation.
Variable INFO_EXTRACTION_PROMPT : string.

Definition get_completion
    (messages : option (list message)) (system_prompt user_prompt : option string)
    (model : option string) : M string :=
  let messages_list := match messages with Some l => l | None => [] end in
  let messages_list :=
    match system_prompt with
    | Some p => if PyStr.truthy p
                then {| role := "system"; content := p |} :: messages_list
                else messages_list
    | None => messages_list
    end in
  let messages_list :=
    match user_prompt with
    | Some p => if PyStr.truthy p
                then messages_list ++ [{| role := "user"; content := p |}]
                else messages_list
    | None => messages_list
    end in
  match messages_list with
  | [] => raise (Exn ValueError "Must provide messages or prompts")
  | _ =>
      try_except
        (call chat {| req_model := or_else model MODEL;
                      req_messages := messages_list;
                      req_temperature := 0;
                      req_max_tokens := Some 300 |})
        (fun e => raise (Exn RuntimeError ("API error: " +:+ exn_str e)))
  end.

Definition gate1_validate_claims_info (claim_info : string)
    : exn + ClaimInformation :=
  match load_ClaimInformation claim_info with
  | inr c => inr c
  | inl e => inl (Exn ValueError ("Invalid claim format: " +:+ exn_str e))
  end.

(** The [try] block of [extract_claim_node], up to the gate. *)
Definition extraction_attempt (state : ClaimWorkflowState) : M ClaimInformation :=
  let messages := [ {| role := "system"; content := INFO_EXTRACTION_PROMPT |};
                    {| role := "user"; content := fnol state |} ] in
  let* response := get_completion (Some messages) None None (model state) in
  lift (gate1_validate_claims_info response).

(** The node calls itself while [retry_count < 3]; each call raises
    [retry_count] by one, so the distance to 3 shrinks. *)
Equations? extract_claim_node (state : ClaimWorkflowState) (w : world)
    : res ClaimWorkflowState * world
    by wf (Z.to_nat (3 - retry_count state)) lt :=
  extract_claim_node state w with extraction_attempt state w => {
    | (Ret info, w1) => (Ret (with_claim state info), w1);
    | (Raise e, w1)
        with Z_lt_dec (retry_count (record_failure state ("Extraction error: " +:+ exn_str e))) 3 => {
        | left _ =>
            extract_claim_node (record_failure state ("Extraction error: " +:+ exn_str e)) w1;
        | right _ =>
            (Ret (with_status (record_failure state ("Extraction error: " +:+ exn_str e))
                    "failed"), w1) } }.
Proof. simpl in *. lia. Qed.

End Node.

(** *** The other gates and nodes, the graph, [process_claim] and
        [process_batch] *)

(** [{**state, "severity": v, "status": "severity_assessed"}] *)
Definition with_severity (s : ClaimWorkflowState) (v : SeverityAssessment)
    : ClaimWorkflowState :=
  {| fnol := fnol s; claim_info := claim_info s; state_severity := Some v;
     routing := routing s; errors := errors s; retry_count := retry_count s;
     status := "severity_assessed"; model := model s |}.

(** [{**state, "routing": r, "status": "completed"}] *)
Definition with_routing (s : ClaimWorkflowState) (r : ClaimRouting)
    : ClaimWorkflowState :=
  {| fnol := fnol s; claim_info := claim_info s; state_severity := state_severity s;
     routing := Some r; errors := errors s; retry_count := retry_count s;
     status := "completed"; model := model s |}.

(** [state["errors"].append(msg)] *)
Definition record_error (s : ClaimWorkflowState) (msg : string)
    : ClaimWorkflowState :=
  {| fnol := fnol s; claim_info := claim_info s; state_severity := state_severity s;
     routing := routing s; errors := errors s ++ [msg];
     retry_count := retry_count s;
     status := status s; model := model s |}.

(** [v.attr] on an [Optional] value *)
Definition attribute {A} (attr : string) (v : option A) : exn + A :=
  match v with
  | Some a => inr a
  | None => inl (Exn AttributeError
                   ("'NoneType' object has no attribute '" +:+ attr +:+ "'"))
  end.

Inductive node : Set := extract_claim | assess_severity | route_claim.

Inductive target : Set := Goto (n : node) | END.

Definition should_continue (state : ClaimWorkflowState) : string :=
  if String.eqb (status state) "failed" then "end" else "continue".

Section Workflow.

Variable chat : endpoint string.
Variable load_ClaimInformation : string -> exn + ClaimInformation.
(** [SeverityAssessment( **json.loads(s))] and [ClaimRouting( **json.loads(s))] *)
Variable load_SeverityAssessment : string -> exn + SeverityAssessment.
Variable load_ClaimRouting : string -> exn + ClaimRouting.
(** [model_dump_json()] and [json.dumps(routing_input)] *)
Variable model_dump_json : ClaimInformation -> string.
Variable dumps_routing_input : ClaimInformation -> SeverityAssessment -> string.
(** [f"{cost}"] for a float *)
Variable format_float : pyfloat -> string.
Variable INFO_EXTRACTION_PROMPT : string.
Variable SEVERITY_ASSESSMENT_PROMPT : string.
Variable QUEUE_ROUTING_PROMPT : string.

(** The body of the [try] block of [gate2_cost_range_ok]. *)
Definition gate2_body (severity_json : string) : exn + SeverityAssessment :=
  match load_SeverityAssessment severity_json with
  | inl e => inl e
  | inr validated_severity =>
      let cost := est_cost validated_severity in
      match severity validated_severity with
      | Low =>
          if negb (int_le_float 100 cost && float_le_int cost 1000)
          then inl (Exn ValueError
                      ("Cost $" +:+ format_float cost +:+ " not in Low range ($100-$1,000)"))
          else inr validated_severity
      | Medium =>
          if negb (int_lt_float 1000 cost && float_le_int cost 5000)
          then inl (Exn ValueError
                      ("Cost $" +:+ format_float cost
                       +:+ " not in Medium range ($1,000-$5,000)"))
          else inr validated_severity
      | High =>
          if negb (int_lt_float 5000 cost && float_le_int cost 50000)
          then inl (Exn ValueError
                      ("Cost $" +:+ format_float cost
                       +:+ " not in High range ($5,000-$50,000)"))
          else inr validated_severity
      end
  end.

Definition gate2_cost_range_ok (severity_json : string)
    : exn + SeverityAssessment :=
  match gate2_body severity_json with
  | inr v => inr v
  | inl e =>
      if is_ValueError e
      then inl e                                            (* except ValueError: raise *)
      else inl (Exn ValueError ("Invalid severity format: " +:+ exn_str e))
  end.

Definition gate3_validate_routing (routing_json : string) : exn + ClaimRouting :=
  match load_ClaimRouting routing_json with
  | inr r => inr r
  | inl e => inl (Exn ValueError ("Invalid routing format: " +:+ exn_str e))
  end.

Definition assess_severity_node (state : ClaimWorkflowState) : M ClaimWorkflowState :=
  (* the log line before the [try] reads state['claim_info'].claim_id *)
  let* _ := lift (attribute "claim_id" (claim_info state)) in
  try_except
    (let* info := lift (attribute "model_dump_json" (claim_info state)) in
     let claim_json := model_dump_json info in
     let messages := [ {| role := "system"; content := SEVERITY_ASSESSMENT_PROMPT |};
                       {| role := "user"; content := claim_json |} ] in
     let* response := get_completion chat (Some messages) None None (model state) in
     let* sev := lift (gate2_cost_range_ok response) in
     ret (with_severity state sev))
    (fun e =>
       ret (with_status (record_error state ("Severity error: " +:+ exn_str e)) "failed")).

Definition route_claim_node (state : ClaimWorkflowState) : M ClaimWorkflowState :=
  let* _ := lift (attribute "claim_id" (claim_info state)) in
  try_except
    (let* info := lift (attribute "model_dump" (claim_info state)) in
     let* sev := lift (attribute "model_dump" (state_severity state)) in
     let messages := [ {| role := "system"; content := QUEUE_ROUTING_PROMPT |};
                       {| role := "user"; content := dumps_routing_input info sev |} ] in
     let* response := get_completion chat (Some messages) None None (model state) in
     let* r := lift (gate3_validate_routing response) in
     ret (with_routing state r))
    (fun e =>
       ret (with_status (record_error state ("Routing error: " +:+ exn_str e)) "failed")).

(** [build_workflow]: the function behind each node name and the edge that
    leaves it.  Every node returns the whole state, so the merge of its
    return value is that value. *)
Definition node_function (n : node) : ClaimWorkflowState -> M ClaimWorkflowState :=
  match n with
  | extract_claim => extract_claim_node chat load_ClaimInformation INFO_EXTRACTION_PROMPT
  | assess_severity => assess_severity_node
  | route_claim => route_claim_node
  end.

Definition path_map (on_continue : node) (decision : string) : exn + target :=
  if String.eqb decision "continue" then inr (Goto on_continue)
  else if String.eqb decision "end" then inr END
  else inl (Exn KeyError ("'" +:+ decision +:+ "'")).

Definition edge (n : node) (s : ClaimWorkflowState) : exn + target :=
  match n with
  | extract_claim => path_map assess_severity (should_continue s)
  | assess_severity => path_map route_claim (should_continue s)
  | route_claim => inr END
  end.

(** LangGraph's default bound on the number of steps of one run. *)
Definition recursion_limit : nat := 25.

Fixpoint run_from (fuel : nat) (n : node) (s : ClaimWorkflowState)
    : M ClaimWorkflowState :=
  match fuel with
  | O => raise (Exn RuntimeError "Recursion limit reached")
  | S fuel' =>
      let* s' := node_function n s in
      let* t := lift (edge n s') in
      match t with
      | END => ret s'
      | Goto n' => run_from fuel' n' s'
      end
  end.

(** [app.invoke(initial_state, config)], on a fresh checkpointer *)
Definition invoke (input : ClaimWorkflowState) : M ClaimWorkflowState :=
  run_from recursion_limit extract_claim input.

Definition initial_state (fnol : string) (model : option string) : ClaimWorkflowState :=
  {| fnol := fnol; claim_info := None; state_severity := None; routing := None;
     errors := []; retry_count := 0; status := "processing";
     model := Some (or_else model MODEL) |}.

Definition process_claim (fnol : string) (model : option string)
    : M ClaimWorkflowState :=
  invoke (initial_state fnol model).

(** The loop of [process_batch], with the results so far. *)
Fixpoint process_rest (results : list ClaimWorkflowState) (fnols : list string)
    (model : option string) : M (list ClaimWorkflowState) :=
  match fnols with
  | [] => ret results
  | fnol :: rest =>
      let* result := process_claim fnol model in
      process_rest (results ++ [result]) rest model
  end.

Definition process_batch (fnols : list string) (model : option string)
    : M (list ClaimWorkflowState) :=
  process_rest [] fnols model.

End Workflow.

End ChainingLangGraph.

(** ** course2-workflows/06-evaluation_optimizer/demo.py *)

Module EvaluatorOptimizerDemo.

Definition MAX_RETRIES : Z := 5.

Definition user_prompt : string :=
  "Write a summary for potential investors explaining why decentralized finance (DeFi) will outperform "
  +:+ "traditional banking in the next five years. Use strong language to inspire confidence and urgency. "
  +:+ "Include examples of past DeFi gains and suggest what investors can expect from leading protocols in the near future.".

(** The locals of [main] that live across iterations. *)
Record locals : Set := { report_text : string; feedback : option string }.

Definition generator_system_message : string :=
  "You are a financial analyst writing a professional investment summary.".

Definition evaluator_system_message : string :=
  "You are a compliance officer reviewing investment summaries. "
  +:+ "Reject anything with forward-looking statements, speculative claims, or language like 'expected', 'projected', 'will likely', etc.".

(** [full_prompt] of [FinancialReportAgent.run] *)
Definition full_prompt (prompt : string) (feedback : option string) : string :=
  match feedback with
  | Some f =>
      if PyStr.truthy f
      then prompt +:+ new_line +:+ new_line +:+ "Evaluator feedback: " +:+ f
           +:+ new_line +:+ "Please revise accordingly."
      else prompt
  | None => prompt
  end.

Definition generator_request (full : string) : request :=
  {| req_model := "gpt-4";
     req_messages := [ {| role := "system"; content := generator_system_message |};
                       {| role := "user"; content := full |} ];
     req_temperature := 0.5;
     req_max_tokens := None |}.

Definition eval_prompt (report : string) : string :=
  "Evaluate this investment summary for compliance:" +:+ new_line +:+ new_line
  +:+ report +:+ new_line +:+ new_line
  +:+ "Respond with 'Approved' or provide feedback for revision.".

Definition evaluator_request (report : string) : request :=
  {| req_model := "gpt-4";
     req_messages := [ {| role := "system"; content := evaluator_system_message |};
                       {| role := "user"; content := eval_prompt report |} ];
     req_temperature := 0.0;
     req_max_tokens := None |}.

(** The stopping test of [main]: [evaluation.lower().startswith("approved")] *)
Definition approved (evaluation : string) : bool :=
  PyStr.startswith (PyStr.lower evaluation) "approved".

Section Loop.

Variable client : endpoint string.

Definition FinancialReportAgent_run (prompt : string) (feedback : option string)
    : M string :=
  let full := full_prompt prompt feedback in
  print (new_line +:+ "📊 Generating report with prompt:" +:+ new_line +:+ full +:+ new_line) ;;
  call client (generator_request full).

Definition ComplianceAgent_run (report : string) : M string :=
  print "🔍 Evaluating report compliance..." ;;
  let* reply := call client (evaluator_request report) in
  ret (PyStr.strip reply).

(** The [for attempt in range(MAX_RETRIES)] loop; the boolean tells whether
    it was left by [break]. *)
Fixpoint for_attempts (attempts : list Z) (l : locals) : M (bool * locals) :=
  match attempts with
  | [] => ret (false, l)
  | attempt :: rest =>
      print ("--- Attempt #" +:+ pretty (attempt + 1) +:+ " ---") ;;
      let* report := FinancialReportAgent_run user_prompt (feedback l) in
      let* evaluation := ComplianceAgent_run report in
      print (new_line +:+ "🧾 Evaluation Result:" +:+ new_line +:+ evaluation +:+ new_line) ;;
      if approved evaluation then
        print (new_line +:+ "✅ Final Approved Investment Summary:" +:+ new_line) ;;
        print report ;;
        ret (true, {| report_text := report; feedback := feedback l |})
      else
        for_attempts rest {| report_text := report; feedback := Some evaluation |}
  end.

Definition failure_banner : string :=
  new_line +:+ "❌ Failed to meet compliance after max retries.".

(** [main], with the bound as an argument. *)
Definition main_with (max_retries : Z) : M unit :=
  let* out := for_attempts (range max_retries)
                {| report_text := ""; feedback := None |} in
  if fst out then ret tt
  else
    print failure_banner ;;
    print "Last version of the report:" ;;
    print (report_text (snd out)).

Definition main : M unit := main_with MAX_RETRIES.

End Loop.

End EvaluatorOptimizerDemo.

(** ** course2-workflows/06-evaluation_optimizer/demo_professional.py *)

Module EvaluatorOptimizerPro.

Record EvaluationResult : Set := {
  is_compliant : bool;
  feedback : string;
  risk_score : Z
}.

Definition generator_system_msg : string :=
  "You are a financial analyst writing a professional investment summary.".

Definition evaluator_system_msg : string :=
  "You are a strict AI Compliance Officer. "
  +:+ "Reject speculative language, guarantees of future returns, or 'hype' keywords.".

(** [final_prompt] of [AsyncFinancialGenerator.generate] *)
Definition final_prompt (base_prompt : string) (feedback : option string) : string :=
  match feedback with
  | Some f =>
      if PyStr.truthy f
      then base_prompt +:+ new_line +:+ new_line +:+ "--- COMPLIANCE FEEDBACK ---"
           +:+ new_line +:+ f +:+ new_line +:+ new_line
           +:+ "INSTRUCTION: Rewrite the summary fixing the issues above."
      else base_prompt
  | None => base_prompt
  end.

Definition generator_request (final : string) : request :=
  {| req_model := "gpt-4.1";
     req_messages := [ {| role := "system"; content := generator_system_msg |};
                       {| role := "user"; content := final |} ];
     req_temperature := 0.7;
     req_max_tokens := None |}.

Definition evaluator_request (report_text : string) : request :=
  {| req_model := "gpt-4o";
     req_messages :=
       [ {| role := "system"; content := evaluator_system_msg |};
         {| role := "user";
            content := "Evaluate this text for financial compliance:"
                       +:+ new_line +:+ new_line +:+ report_text |} ];
     req_temperature := 0.0;
     req_max_tokens := None |}.

(** tenacity's [@retry(stop=stop_after_attempt(n))]: the body is run again
    after any exception; when the n-th attempt fails too, [RetryError] is
    raised.  The waits between attempts are not modelled. *)
Fixpoint retry {A} (attempts : nat) (body : M A) : M A :=
  match attempts with
  | O => raise (Exn RetryError "RetryError")
  | S n =>
      try_except body
        (fun e => match n with
                  | O => raise (Exn RetryError ("RetryError: " +:+ exn_str e))
                  | _ => retry n body
                  end)
  end.

Section Loop.

(** [chat.completions.create] and [beta.chat.completions.parse]; the latter
    yields [message.parsed], which the SDK leaves [None] on a refusal. *)
Variable create : endpoint string.
Variable parse : endpoint (option EvaluationResult).

Definition generate (base_prompt : string) (feedback : option string) : M string :=
  retry 3 (call create (generator_request (final_prompt base_prompt feedback))).

Definition evaluate (report_text : string) : M (option EvaluationResult) :=
  retry 3 (call parse (evaluator_request report_text)).

(** The [for i in range(max_retries)] loop of [run_optimization_loop] with
    the [return None] that follows it. *)
Fixpoint for_iterations (user_prompt : string) (iterations : list Z)
    (feedback_now : option string) : M (option string) :=
  match iterations with
  | [] => ret None
  | i :: rest =>
      let* draft_text := generate user_prompt feedback_now in
      let* eval_result := evaluate draft_text in
      match eval_result with
      | None =>
          raise (Exn AttributeError "'NoneType' object has no attribute 'is_compliant'")
      | Some r =>
          if is_compliant r then ret (Some draft_text)
          else for_iterations user_prompt rest (Some (feedback r))
      end
  end.

Definition run_optimization_loop (user_prompt : string) (max_retries : Z)
    : M (option string) :=
  for_iterations user_prompt (range max_retries) None.

(** The default of the [max_retries] argument. *)
Definition default_max_retries : Z := 6.

End Loop.

(** *** The [__main__] block *)

Definition prompt : string :=
  "Write a summary for potential investors explaining why DeFi will outperform "
  +:+ "traditional banking. Use strong language, promise high returns and urgency.".

Definition publishable_banner : string :=
  new_line +:+ "=== FINAL PUBLISHABLE REPORT ===" +:+ new_line.

Definition failed_banner : string :=
  new_line +:+ "=== WORKFLOW FAILED TO CONVERGE ===".

Section Main.

Variable create : endpoint string.
Variable parse : endpoint (option EvaluationResult).

Definition main : M unit :=
  let* final_report :=
    run_optimization_loop create parse prompt default_max_retries in
  match final_report with
  | Some report =>
      if PyStr.truthy report          (* [if final_report:] *)
      then print publishable_banner ;; print report
      else print failed_banner
  | None => print failed_banner
  end.

End Main.

End EvaluatorOptimizerPro.

(** ** course2-workflows/project/starter/phase_1/workflow_agents/base_agents.py:
       [EvaluationAgent] *)

Module BaseAgents.

(** The dict returned by [EvaluationAgent.evaluate]. *)
Record evaluation_report : Set := {
  final_response : string;
  evaluation : string;
  iterations : Z
}.

(** The locals of [evaluate] that live across iterations; the last two are
    unbound until the first iteration has assigned them. *)
Record locals : Set := {
  prompt_to_evaluate : string;
  response_from_worker : option string;
  last_evaluation : option string     (* local [evaluation] *)
}.

(** The approval test: [evaluation.lower().startswith("yes")] *)
Definition accepted (evaluation : string) : bool :=
  PyStr.startswith (PyStr.lower evaluation) "yes".

Section EvaluationAgent.

(** The attributes set by [__init__]; [worker_agent.respond] is an opaque
    call of the injected worker. *)
Variable client : endpoint string.
Variable worker_agent : oracle string string.
Variable persona : string.
Variable evaluation_criteria : string.
Variable max_interactions : Z.

Definition respond (prompt : string) : M string := ask AgentCall worker_agent prompt.

Definition eval_prompt (response : string) : string :=
  "Think step-by-step: Compare each part of the following answer against the criteria."
  +:+ new_line +:+ new_line
  +:+ "Answer: " +:+ response +:+ new_line +:+ new_line
  +:+ "Criteria: " +:+ evaluation_criteria +:+ new_line +:+ new_line
  +:+ "Check if ALL criteria are met. Identify specific issues if any." +:+ new_line
  +:+ "Respond with 'Yes' or 'No' at the start, followed by the reason why it does or doesn't meet the criteria.".

Definition instruction_prompt (evaluation : string) : string :=
  "Identify the problems in the evaluation below, think about how to fix them, "
  +:+ "and provide concrete, actionable steps to correct the issues." +:+ new_line +:+ new_line
  +:+ "Evaluation: " +:+ evaluation.

Definition refinement_prompt (initial_prompt response instructions : string) : string :=
  "The original prompt was: " +:+ initial_prompt +:+ new_line
  +:+ "The response to that prompt was: " +:+ response +:+ new_line
  +:+ "It has been evaluated as incorrect." +:+ new_line
  +:+ "Make only these corrections, do not alter content validity: " +:+ instructions.

Definition persona_request (user_text : string) : request :=
  {| req_model := "gpt-3.5-turbo";
     req_messages := [ {| role := "system"; content := persona |};
                       {| role := "user"; content := user_text |} ];
     req_temperature := 0;
     req_max_tokens := None |}.

(** The [for i in range(self.max_interactions)] loop: [inl] is the [return]
    inside the loop, [inr] the locals with which the loop runs out. *)
Fixpoint for_interactions (initial_prompt : string) (interactions : list Z)
    (l : locals) : M (evaluation_report + locals) :=
  match interactions with
  | [] => ret (inr l)
  | i :: rest =>
      print (new_line +:+ "--- Interaction " +:+ pretty (i + 1) +:+ " ---") ;;
      print " Step 1: Worker agent generates a response to the prompt" ;;
      print ("Prompt:" +:+ new_line +:+ prompt_to_evaluate l) ;;
      let* response := respond (prompt_to_evaluate l) in
      print ("Worker Agent Response:" +:+ new_line +:+ response) ;;
      print " Step 2: Evaluator agent judges the response" ;;
      let* reply := call client (persona_request (eval_prompt response)) in
      let evaluation := PyStr.strip reply in
      print ("Evaluator Agent Evaluation:" +:+ new_line +:+ evaluation) ;;
      print " Step 3: Check if evaluation is positive" ;;
      if accepted evaluation then
        print "✅ Final solution accepted." ;;
        ret (inl {| final_response := response;
                    evaluation := evaluation;
                    iterations := i + 1 |})
      else
        print " Step 4: Generate instructions to correct the response" ;;
        let* reply2 := call client (persona_request (instruction_prompt evaluation)) in
        let instructions := PyStr.strip reply2 in
        print ("Instructions to fix:" +:+ new_line +:+ instructions) ;;
        print " Step 5: Send feedback to worker agent for refinement" ;;
        for_interactions initial_prompt rest
          {| prompt_to_evaluate := refinement_prompt initial_prompt response instructions;
             response_from_worker := Some response;
             last_evaluation := Some evaluation |}
  end.

Definition unbound (variable : string) : exn :=
  Exn UnboundLocalError
    ("cannot access local variable '" +:+ variable
     +:+ "' where it is not associated with a value").

Definition evaluate (initial_prompt : string) : M evaluation_report :=
  let* out := for_interactions initial_prompt (range max_interactions)
                {| prompt_to_evaluate := initial_prompt;
                   response_from_worker := None;
                   last_evaluation := None |} in
  match out with
  | inl report => ret report
  | inr l =>
      print (new_line +:+ "⚠️ Max iterations (" +:+ pretty max_interactions
             +:+ ") reached without full approval.") ;;
      match response_from_worker l with
      | None => raise (unbound "response_from_worker")
      | Some response =>
          match last_evaluation l with
          | None => raise (unbound "evaluation")
          | Some evaluation =>
              ret {| final_response := response;
                     evaluation := evaluation;
                     iterations := max_interactions |}
          end
      end
  end.

End EvaluationAgent.

(** *** [RAGKnowledgePromptAgent.chunk_text] *)

(** [len(s)] *)
Definition len (s : string) : Z := Z.of_nat (String.length s).

(** [re.sub(r'\s+', ' ', text)]: every run of whitespace becomes one space;
    [in_run] tells that the character before was whitespace. *)
Fixpoint collapse_whitespace (in_run : bool) (text : string) : string :=
  match text with
  | EmptyString => EmptyString
  | String c rest =>
      if PyStr.is_space c
      then if in_run then collapse_whitespace true rest
           else String " " (collapse_whitespace true rest)
      else String c (collapse_whitespace false rest)
  end.

(** [s[start:stop]]: a negative index counts from the end, and both are
    clamped to the string. *)
Definition slice (s : string) (start stop : Z) : string :=
  let clamp i := if i <? 0 then Z.max 0 (i + len s) else Z.min i (len s) in
  String.substring (Z.to_nat (clamp start)) (Z.to_nat (clamp stop - clamp start)) s.

(** [s.rindex(sep)], where it finds a position *)
Fixpoint rindex (sep s : string) : option nat :=
  match s with
  | EmptyString => if String.prefix sep EmptyString then Some O else None
  | String _ rest =>
      match rindex sep rest with
      | Some i => Some (S i)
      | None => if String.prefix sep s then Some O else None
      end
  end.

(** [sep in s]: [s.rindex(sep)] finds a position *)
Definition contains (sep s : string) : bool :=
  match rindex sep s with Some _ => true | None => false end.

(** A chunk dict; the single chunk of a short text has no [start_char] and
    no [end_char]. *)
Record chunk : Set := {
  chunk_id : Z;
  text : string;
  size : Z;                   (* key "chunk_size" *)
  start_char : option Z;
  end_char : option Z
}.

(** What [chunk_text] leaves: the chunks returned and, when it was written,
    the rows of the file chunks-<unique_filename> under its header
    [text,chunk_size]. *)
Record chunking : Set := {
  chunks : list chunk;
  written : option (list (string * Z))
}.

Section RAGKnowledgePromptAgent.

Variable chunk_size : Z.
Variable chunk_overlap : Z.

Definition separator : string := new_line.

(** The [while start < len(text)] loop; [None] when [fuel] iterations did
    not end it. *)
Fixpoint chunk_loop (fuel : nat) (text : string) (chunks : list chunk)
    (start chunk_id : Z) : option (list chunk) :=
  match fuel with
  | O => None
  | S fuel' =>
      if start <? len text then
        let end_ := Z.min (start + chunk_size) (len text) in
        let end_ :=
          if contains separator (slice text start end_)
          then match rindex separator (slice text start end_) with
               | Some i => start + Z.of_nat i + len separator
               | None => end_
               end
          else end_ in
        chunk_loop fuel' text
          (chunks ++ [ {| chunk_id := chunk_id;
                          text := slice text start end_;
                          size := end_ - start;
                          start_char := Some start;
                          end_char := Some end_ |} ])
          (end_ - chunk_overlap) (chunk_id + 1)
      else Some chunks
  end.

Definition chunk_text (fuel : nat) (text : string) : option chunking :=
  let text := PyStr.strip (collapse_whitespace false text) in
  if len text <=? chunk_size then
    Some {| chunks := [ {| chunk_id := 0; text := text; size := len text;
                           start_char := None; end_char := None |} ];
            written := None |}
  else
    match chunk_loop fuel text [] 0 0 with
    | None => None
    | Some chunks =>
        Some {| chunks := chunks;
                written := Some (map (fun c => (BaseAgents.text c, size c)) chunks) |}
    end.

End RAGKnowledgePromptAgent.

(** *** [ActionPlanningAgent.extract_steps_from_prompt] *)

Definition is_digit (c : ascii) : bool :=
  let n := nat_of_ascii c in (48 <=? n)%nat && (n <=? 57)%nat.

(** The class [[\d\.\)\-\*\s]] *)
Definition is_list_mark (c : ascii) : bool :=
  is_digit c || Ascii.eqb c "." || Ascii.eqb c ")" || Ascii.eqb c "-"
  || Ascii.eqb c "*" || PyStr.is_space c.

(** [re.sub(r'^[\d\.\)\-\*\s]+', '', s)] *)
Fixpoint drop_list_marks (s : string) : string :=
  match s with
  | EmptyString => EmptyString
  | String c rest => if is_list_mark c then drop_list_marks rest else s
  end.

(** [s.split(sep)] for a separator of one character *)
Fixpoint split (sep : ascii) (s : string) : list string :=
  match s with
  | EmptyString => [EmptyString]
  | String c rest =>
      if Ascii.eqb c sep then EmptyString :: split sep rest
      else match split sep rest with
           | first :: others => String c first :: others
           | [] => [String c EmptyString]
           end
  end.

(** The [for step in raw_steps] loop, with the steps kept so far. *)
Fixpoint for_raw_steps (raw_steps : list string) (steps : list string) : list string :=
  match raw_steps with
  | [] => steps
  | step :: rest =>
      let cleaned_step := PyStr.strip step in
      if negb (PyStr.truthy cleaned_step) then for_raw_steps rest steps
      else
        let cleaned_step := drop_list_marks cleaned_step in
        if PyStr.truthy cleaned_step
        then for_raw_steps rest (steps ++ [cleaned_step])
        else for_raw_steps rest steps
  end.

Section ActionPlanningAgent.

Variable client : endpoint string.
Variable knowledge : string.

Definition planning_system_prompt : string :=
  "You are an action planning agent. Using your knowledge, you extract from the user prompt "
  +:+ "the steps requested to complete the action the user is asking for."
  +:+ new_line +:+ new_line
  +:+ "REASONING PROCESS:" +:+ new_line
  +:+ "1. Analyze the request step-by-step to identify the end goal" +:+ new_line
  +:+ "2. Consult the knowledge hierarchy below to understand the workflow structure"
  +:+ new_line
  +:+ "3. Determine which stages are required to achieve the goal" +:+ new_line
  +:+ "4. List only the steps that exist in your knowledge" +:+ new_line
  +:+ "5. Return the steps in logical execution order" +:+ new_line +:+ new_line
  +:+ "You return the steps as a list. Only return the steps in your knowledge. "
  +:+ "Forget any previous context." +:+ new_line +:+ new_line
  +:+ "This is your knowledge:" +:+ new_line +:+ knowledge.

Definition planning_request (prompt : string) : request :=
  {| req_model := "gpt-3.5-turbo";
     req_messages := [ {| role := "system"; content := planning_system_prompt |};
                       {| role := "user"; content := prompt |} ];
     req_temperature := 0;
     req_max_tokens := None |}.

Definition extract_steps_from_prompt (prompt : string) : M (list string) :=
  let* response_text := call client (planning_request prompt) in
  let raw_steps := split "010" response_text in
  ret (for_raw_steps raw_steps []).

End ActionPlanningAgent.

(** *** [RoutingAgent.route] *)

(** [x > y] on floats; the [int] [-1] the best score starts from compares
    as the float [-1.0]. *)
Definition float_gt (x y : pyfloat) : bool :=
  match x, y with
  | Finite p, Finite q => negb (Qle_bool p q)
  | Finite _, Infinity negative => negative
  | Infinity negative, Finite _ => negb negative
  | Infinity n1, Infinity n2 => negb n1 && n2
  | _, _ => false
  end.

(** An entry of [self.agents]; [func] is an opaque call of the injected
    function. *)
Record agent : Type := {
  name : string;
  description : string;
  func : oracle string string
}.

(** The request of [get_embedding]: the model and the input text (an
    embeddings request has no messages and no temperature; the input is
    logged as the single message). *)
Definition embedding_request (input : string) : request :=
  {| req_model := "text-embedding-3-large";
     req_messages := [ {| role := "input"; content := input |} ];
     req_temperature := 0;
     req_max_tokens := None |}.

Section RoutingAgent.

(** An embedding vector; the embeddings endpoint; the numpy expression
    [np.dot(a, b) / (np.linalg.norm(a) * np.linalg.norm(b))], which raises
    on vectors it cannot multiply (the input embedding may be [None]); and
    [f"{x:.3f}"]. *)
Variable vector : Type.
Variable embeddings : endpoint (option vector).
Variable cosine : option vector -> vector -> exn + pyfloat.
Variable format_3f : pyfloat -> string.
Variable agents : list agent.

Definition get_embedding (input : string) : M (option vector) :=
  call embeddings (embedding_request input).

(** The [for agent in self.agents] loop over the locals [best_agent] and
    [best_score]. *)
Fixpoint for_agents (input_emb : option vector) (remaining : list agent)
    (best : option agent * pyfloat) : M (option agent * pyfloat) :=
  match remaining with
  | [] => ret best
  | agent :: rest =>
      let* agent_emb := get_embedding (description agent) in
      match agent_emb with
      | None => for_agents input_emb rest best
      | Some emb =>
          let* similarity := lift (cosine input_emb emb) in
          print ("  - " +:+ name agent +:+ ": " +:+ format_3f similarity) ;;
          if float_gt similarity (snd best)
          then for_agents input_emb rest (Some agent, similarity)
          else for_agents input_emb rest best
      end
  end.

Definition route (user_input : string) : M string :=
  let* input_emb := get_embedding user_input in
  print (new_line +:+ "[Routing Agent] Evaluating agent matches...") ;;
  let* best := for_agents input_emb agents (None, Finite (-1)) in
  match fst best with
  | None => ret "Sorry, no suitable agent could be selected."
  | Some best_agent =>
      print (new_line +:+ "[Router] ✓ Selected: " +:+ name best_agent
             +:+ " (similarity score: " +:+ format_3f (snd best) +:+ ")") ;;
      ask AgentCall (func best_agent) user_input
  end.

End RoutingAgent.

End BaseAgents.

(** ** course2-workflows/05-parallelization: the fan-in [SummaryAgent] of
       challenge.py and of demo.py.  The shared dict [agent_outputs] is the
       argument [inputs]; which keys it holds after the threads have been
       joined depends on which specialists completed. *)

Module ParallelChallenge.

Definition summary_system_prompt : string :=
  "You are the General Counsel of the corporation. "
  +:+ "You have received three expert reports. Your job is not to repeat them, but to synthesize a verdict. "
  +:+ "Follow this thinking process:" +:+ new_line
  +:+ "1. Compare the findings: Are there contradictions?" +:+ new_line
  +:+ "2. Prioritize: Which risks are 'Deal Breakers' vs 'Negotiable'?" +:+ new_line
  +:+ "3. Formulate a final recommendation: Sign, Negotiate, or Walk Away." +:+ new_line.

(** [inputs.get(key, default)] *)
Definition get (inputs : gmap string string) (key default_text : string) : string :=
  default default_text (inputs !! key).

Definition legal_findings (inputs : gmap string string) : string :=
  get inputs "legal" "No legal analysis provided.".
Definition compliance_findings (inputs : gmap string string) : string :=
  get inputs "compliance" "No compliance analysis provided.".
Definition financial_findings (inputs : gmap string string) : string :=
  get inputs "financial" "No financial analysis provided.".

Definition indent : string := "        ".

(** The f-string [user_prompt] of [SummaryAgent.run]. *)
Definition summary_user_prompt (contract_text legal compliance financial : string)
    : string :=
  new_line
  +:+ indent +:+ "Please synthesize the following analyses into an Executive Summary." +:+ new_line
  +:+ indent +:+ new_line
  +:+ indent +:+ "--- ORIGINAL TEXT SNIPPET ---" +:+ new_line
  +:+ indent +:+ PyStr.slice_to 300 contract_text +:+ "..." +:+ new_line
  +:+ indent +:+ new_line
  +:+ indent +:+ "--- LEGAL ANALYSIS ---" +:+ new_line
  +:+ indent +:+ legal +:+ new_line
  +:+ indent +:+ new_line
  +:+ indent +:+ "--- COMPLIANCE ANALYSIS ---" +:+ new_line
  +:+ indent +:+ compliance +:+ new_line
  +:+ indent +:+ new_line
  +:+ indent +:+ "--- FINANCIAL ANALYSIS ---" +:+ new_line
  +:+ indent +:+ financial +:+ new_line
  +:+ indent +:+ new_line
  +:+ indent +:+ "Output format:" +:+ new_line
  +:+ indent +:+ "1. Executive Verdict (GO / NO-GO)" +:+ new_line
  +:+ indent +:+ "2. Top 3 Critical Risks" +:+ new_line
  +:+ indent +:+ "3. Recommended Actions" +:+ new_line
  +:+ indent.

Definition summary_request (contract_text : string) (inputs : gmap string string)
    : request :=
  {| req_model := "gpt-4";
     req_messages :=
       [ {| role := "system"; content := summary_system_prompt |};
         {| role := "user";
            content := summary_user_prompt contract_text (legal_findings inputs)
                         (compliance_findings inputs) (financial_findings inputs) |} ];
     req_temperature := 0.3;
     req_max_tokens := None |}.

Section Summary.

Variable client : endpoint string.

Definition SummaryAgent_run (contract_text : string) (inputs : gmap string string)
    : M string :=
  print (new_line +:+ ">> [Summary Agent] Synthesizing all findings...") ;;
  call client (summary_request contract_text inputs).

End Summary.

End ParallelChallenge.

Module ParallelDemo.

(** [inputs[key]] *)
Definition item (inputs : gmap string string) (key : string) : exn + string :=
  match inputs !! key with
  | Some v => inr v
  | None => inl (Exn KeyError ("'" +:+ key +:+ "'"))
  end.

Definition combined_prompt (prompt policy tech market : string) : string :=
  "The user asked: '" +:+ prompt +:+ "'" +:+ new_line +:+ new_line
  +:+ "Here are the expert responses:" +:+ new_line
  +:+ "- Policy Expert: " +:+ policy +:+ new_line +:+ new_line
  +:+ "- Technology Expert: " +:+ tech +:+ new_line +:+ new_line
  +:+ "- Market Expert: " +:+ market +:+ new_line +:+ new_line
  +:+ "Please summarize the combined insights into a single clear and concise response.".

Definition summary_request (combined : string) : request :=
  {| req_model := "gpt-4";
     req_messages :=
       [ {| role := "system";
            content := "You are an energy strategist skilled at synthesizing expert insights." |};
         {| role := "user"; content := combined |} ];
     req_temperature := 0.7;
     req_max_tokens := None |}.

Section Summary.

Variable client : endpoint string.

Definition SummaryAgent_run (prompt : string) (inputs : gmap string string)
    : M string :=
  let* policy := lift (item inputs "policy") in
  let* tech := lift (item inputs "tech") in
  let* market := lift (item inputs "market") in
  let combined := combined_prompt prompt policy tech market in
  print ("Summary Agent resolving prompt: " +:+ combined) ;;
  call client (summary_request combined).

End Summary.

End ParallelDemo.

(** * Specification vocabulary *)

(** The cost interval bound to a severity level: Low [100, 1000],
    Medium (1000, 5000], High (5000, 50000]. *)
Definition in_low_interval (x : pyfloat) : Prop :=
  match x with
  | Finite q => (100 <= q /\ q <= 1000)%Q
  | _ => False
  end.

Definition in_left_open_interval (lo hi : Z) (x : pyfloat) : Prop :=
  match x with
  | Finite q => (inject_Z lo < q /\ q <= inject_Z hi)%Q
  | _ => False
  end.

Definition gates_interval (sev : ClaimsWorkflow.Severity) (x : pyfloat) : Prop :=
  match sev with
  | ClaimsWorkflow.Low => in_low_interval x
  | ClaimsWorkflow.Medium => in_left_open_interval 1000 5000 x
  | ClaimsWorkflow.High => in_left_open_interval 5000 50000 x
  end.

Definition script_interval (sev : ChainingScript.Severity) (x : pyfloat) : Prop :=
  match sev with
  | ChainingScript.Low => in_low_interval x
  | ChainingScript.Medium => in_left_open_interval 1000 5000 x
  | ChainingScript.High => in_left_open_interval 5000 50000 x
  end.

(** The double nearest to 1000.01, exactly. *)
Definition cost_1000_01 : pyfloat := Finite (4398090491569111 # 4398046511104).

(** An empty run. *)
Definition fresh : world := {| calls := []; stdout := [] |}.

(** The world after more printed lines, and after more outside calls. *)
Definition said (w : world) (lines : list string) : world :=
  {| calls := calls w; stdout := stdout w ++ lines |}.

Definition called (w : world) (events : list event) : world :=
  {| calls := calls w ++ events; stdout := stdout w |}.

(** The service plays a scripted run: from call number [c] on, each cycle's
    generator call is answered [d] and its judge call [e], whatever is asked. *)
Fixpoint answers {A B} (gen : endpoint A) (judge : endpoint B) (c : nat)
    (cycles : list (A * B)) : Prop :=
  match cycles with
  | [] => True
  | (d, e) :: rest =>
      (forall q, gen c q = inr d) /\
      (forall q, judge (S c) q = inr e) /\
      answers gen judge (S (S c)) rest
  end.

Module DemoRun.
Import EvaluatorOptimizerDemo.

(** A cycle (draft, evaluator reply) that the stopping test rejects. *)
Definition rejected (cycle : string * string) : Prop :=
  approved (PyStr.strip (snd cycle)) = false.

(** The calls that a run of rejected cycles makes, when it starts with
    feedback [fb]: each generator request carries the original prompt and
    the feedback of the cycle just before it, nothing older. *)
Fixpoint cycle_calls (fb : option string) (cycles : list (string * string))
    : list event :=
  match cycles with
  | [] => []
  | (d, e) :: rest =>
      ApiCall (generator_request (full_prompt user_prompt fb))
      :: ApiCall (evaluator_request d)
      :: cycle_calls (Some (PyStr.strip e)) rest
  end.

(** What one cycle prints before the stopping test. *)
Definition cycle_prints (attempt : Z) (fb : option string) (d e : string)
    : list string :=
  [ "--- Attempt #" +:+ pretty (attempt + 1) +:+ " ---";
    new_line +:+ "📊 Generating report with prompt:" +:+ new_line
      +:+ full_prompt user_prompt fb +:+ new_line;
    "🔍 Evaluating report compliance...";
    new_line +:+ "🧾 Evaluation Result:" +:+ new_line +:+ PyStr.strip e +:+ new_line ].

Definition after_cycle (l : locals) (cycle : string * string) : locals :=
  {| report_text := fst cycle; feedback := Some (PyStr.strip (snd cycle)) |}.

(** The locals after a run of rejected cycles. *)
Definition locals_after (l : locals) (cycles : list (string * string)) : locals :=
  fold_left after_cycle cycles l.

Definition start : locals := {| report_text := ""; feedback := None |}.

(** What the loop prints when it stops on an approval of draft [d]. *)
Definition approval_prints (d : string) : list string :=
  [ new_line +:+ "✅ Final Approved Investment Summary:" +:+ new_line; d ].

(** What a run of rejected cycles prints. *)
Fixpoint run_prints (attempts : list Z) (fb : option string)
    (cycles : list (string * string)) : list string :=
  match attempts, cycles with
  | a :: attempts', (d, e) :: rest =>
      cycle_prints a fb d e ++ run_prints attempts' (Some (PyStr.strip e)) rest
  | _, _ => []
  end.

(** What [main] prints after a loop that ran out with report [d]. *)
Definition failure_prints (d : string) : list string :=
  [ failure_banner; "Last version of the report:"; d ].

End DemoRun.

Module ProRun.
Import EvaluatorOptimizerPro.

(** A cycle is a draft and the verdict parsed for it. *)
Definition played (cycles : list (string * EvaluationResult))
    : list (string * option EvaluationResult) :=
  map (fun cycle => (fst cycle, Some (snd cycle))) cycles.

Definition rejected (cycle : string * EvaluationResult) : Prop :=
  is_compliant (snd cycle) = false.

(** The calls of a run of rejected cycles that starts with feedback [fb]. *)
Fixpoint cycle_calls (user_prompt : string) (fb : option string)
    (cycles : list (string * EvaluationResult)) : list event :=
  match cycles with
  | [] => []
  | (d, r) :: rest =>
      ApiCall (generator_request (final_prompt user_prompt fb))
      :: ApiCall (evaluator_request d)
      :: cycle_calls user_prompt (Some (feedback r)) rest
  end.

(** The feedback in force after a run of rejected cycles. *)
Definition feedback_after (fb : option string)
    (cycles : list (string * EvaluationResult)) : option string :=
  fold_left (fun _ cycle => Some (feedback (snd cycle))) cycles fb.

End ProRun.

Module AgentRun.
Import BaseAgents.

(** A rejected interaction is the worker's response, the evaluator's reply
    and the reply to the request for instructions.  From call number [c] on
    the worker and the service play such interactions. *)
Fixpoint answers (worker : oracle string string) (client : endpoint string)
    (c : nat) (interactions : list (string * string * string)) : Prop :=
  match interactions with
  | [] => True
  | (response, reply, fix_reply) :: rest =>
      (forall q, worker c q = inr response) /\
      (forall q, client (S c) q = inr reply) /\
      (forall q, client (S (S c)) q = inr fix_reply) /\
      answers worker client (S (S (S c))) rest
  end.

Definition rejected (interaction : string * string * string) : Prop :=
  accepted (PyStr.strip (snd (fst interaction))) = false.

Definition after_interaction (initial_prompt : string) (l : locals)
    (interaction : string * string * string) : locals :=
  let '(response, reply, fix_reply) := interaction in
  {| prompt_to_evaluate :=
       refinement_prompt initial_prompt response (PyStr.strip fix_reply);
     response_from_worker := Some response;
     last_evaluation := Some (PyStr.strip reply) |}.

(** The locals after a run of rejected interactions. *)
Definition locals_after (initial_prompt : string) (l : locals)
    (interactions : list (string * string * string)) : locals :=
  fold_left (after_interaction initial_prompt) interactions l.

Definition start (initial_prompt : string) : locals :=
  {| prompt_to_evaluate := initial_prompt;
     response_from_worker := None;
     last_evaluation := None |}.

End AgentRun.


(** How often a log invokes the Generator of the compliance loops: the
    requests whose system message is the financial analyst's. *)
Definition is_generator_call (ev : event) : bool :=
  match ev with
  | ApiCall q =>
      match req_messages q with
      | m :: _ => String.eqb (content m) EvaluatorOptimizerDemo.generator_system_message
      | [] => false
      end
  | AgentCall _ => false
  end.

Definition generator_invocations (events : list event) : nat :=
  length (filter (fun ev => is_generator_call ev = true) events).

(** Sample services, for the examples. *)
Module Samples.

(** Drafts on even calls, the same objection on odd calls. *)
Definition stubborn_reviewer : endpoint string :=
  fun n _ => inr (if Nat.even n then "draft" else "Needs revision: remove projections.").

(** As above, but the fourth evaluation (call 7) approves. *)
Definition fourth_time_lucky : endpoint string :=
  fun n _ =>
    inr (if Nat.even n then "draft #" +:+ pretty n
         else if Nat.eqb n 7 then "Approved. No issues." else "Not approved").

Definition stubborn_cycles : list (string * string) :=
  replicate 5 ("draft", "Needs revision: remove projections.").

Definition lucky_before : list (string * string) :=
  [ ("draft #0", "Not approved"); ("draft #2", "Not approved");
    ("draft #4", "Not approved") ].

Definition drafts (text : string) : endpoint string := fun _ _ => inr text.

Definition verdicts (v : EvaluatorOptimizerPro.EvaluationResult)
    : endpoint (option EvaluatorOptimizerPro.EvaluationResult) :=
  fun _ _ => inr (Some v).

Definition objection_A : EvaluatorOptimizerPro.EvaluationResult :=
  {| EvaluatorOptimizerPro.is_compliant := false;
     EvaluatorOptimizerPro.feedback := "Too speculative.";
     EvaluatorOptimizerPro.risk_score := 9 |}.


(** The transport is down: every call fails. *)
Definition down {A} : endpoint A := fun _ _ => inl (Exn APIError "Connection error.").

(** The Case Record as the entry points create it, and one that has failed. *)
Definition first_notice : ClaimsWorkflow.ClaimState :=
  {| ClaimsWorkflow.fnol := Some "Claim ID: C003, windshield chip";
     ClaimsWorkflow.model := Some "gpt-4o-mini";
     ClaimsWorkflow.claim_info := None;
     ClaimsWorkflow.state_severity := None;
     ClaimsWorkflow.routing := None;
     ClaimsWorkflow.errors := None;
     ClaimsWorkflow.status := None |}.

Definition failed_notice : ClaimsWorkflow.ClaimState :=
  {| ClaimsWorkflow.fnol := Some "Claim ID: C003, windshield chip";
     ClaimsWorkflow.model := Some "gpt-4o-mini";
     ClaimsWorkflow.claim_info := None;
     ClaimsWorkflow.state_severity := None;
     ClaimsWorkflow.routing := None;
     ClaimsWorkflow.errors := Some ["Extraction error: OpenAI API error: Connection error."];
     ClaimsWorkflow.status := Some "failed" |}.

(** A loader that finds no JSON in any text. *)
Definition not_json {A} : string -> exn + A :=
  fun _ => inl (Exn JSONDecodeError "Expecting value: line 1 column 1 (char 0)").

(** The initial state of [process_claim] in the LangGraph script. *)
Definition processing : ChainingLangGraph.ClaimWorkflowState :=
  {| ChainingLangGraph.fnol := "Claim ID: C003, windshield chip";
     ChainingLangGraph.claim_info := None;
     ChainingLangGraph.state_severity := None;
     ChainingLangGraph.routing := None;
     ChainingLangGraph.errors := [];
     ChainingLangGraph.retry_count := 0;
     ChainingLangGraph.status := "processing";
     ChainingLangGraph.model := Some "gpt-4.1-mini" |}.

(** The shared result map after the market specialist's thread has died. *)
Definition two_of_three : gmap string string :=
  <["policy" := "Carbon pricing is spreading."]>
    (<["tech" := "Storage costs keep falling."]> ∅).

(** The contract review after the compliance specialist's thread has died. *)
Definition legal_and_financial : gmap string string :=
  <["legal" := "Liability cap is one-sided."]>
    (<["financial" := "Net-30 payment terms."]> ∅).

(** A service that always answers with prose instead of JSON. *)
Definition chatty : endpoint string := fun _ _ => inr "Sure! Here is the claim.".

End Samples.

Module PipelineRun.
Import ClaimsWorkflow.

(** The order in which [build_graph] declares the steps. *)
Definition declared_order : list node := [extract_claim; assess_severity; route_claim].

(** The status a step sets when its gate accepts. *)
Definition success_status (n : node) : string :=
  match n with
  | extract_claim => "claim_extracted"
  | assess_severity => "severity_assessed"
  | route_claim => "completed"
  end.

(** The structured fields a step leaves alone: all but its own. *)
Definition foreign_fields_kept (n : node) (s s' : ClaimState) : Prop :=
  match n with
  | extract_claim => state_severity s' = state_severity s /\ routing s' = routing s
  | assess_severity => claim_info s' = claim_info s /\ routing s' = routing s
  | route_claim => claim_info s' = claim_info s /\ state_severity s' = state_severity s
  end.

(** What one step may do to the Case Record: it runs from a record that has
    not failed, appends to the errors, keeps the fields of the other steps,
    and moves the status forward or to "failed". *)
Definition step_ok (n : node) (s s' : ClaimState) : Prop :=
  status s <> Some "failed"
  /\ (exists added, get_errors s' = get_errors s ++ added)
  /\ foreign_fields_kept n s s'
  /\ fnol s' = fnol s /\ model s' = model s
  /\ ((stage (status s) <= stage (status s'))%nat \/ status s' = Some "failed").

Fixpoint steps_ok (s : ClaimState) (visited : list (node * ClaimState)) : Prop :=
  match visited with
  | [] => True
  | (n, s') :: rest => step_ok n s s' /\ steps_ok s' rest
  end.

(** What a step returns: the update of a success, or of a failure. *)
Definition success_update (n : node) (u : Update) : Prop :=
  upd_status u = Some (success_status n) /\ upd_errors u = None /\
  match n with
  | extract_claim =>
      upd_claim_info u <> None /\ upd_severity u = None /\ upd_routing u = None
  | assess_severity => upd_claim_info u = None /\ upd_routing u = None
  | route_claim => upd_claim_info u = None /\ upd_severity u = None
  end.

Definition failure_label (n : node) : string :=
  match n with
  | extract_claim => "Extraction error: "
  | assess_severity => "Severity error: "
  | route_claim => "Routing error: "
  end.

(** The effect of step [n] on the Case Record, seen on the merged state. *)
Definition step_effect (n : node) (s s' : ClaimState) : Prop :=
  (exists added, get_errors s' = get_errors s ++ added)
  /\ foreign_fields_kept n s s'
  /\ fnol s' = fnol s /\ model s' = model s
  /\ (status s' = Some (success_status n) \/ status s' = Some "failed").

(** The three shapes a run of the graph can take: it stops after the first
    step that fails, or it runs all three steps. *)
Inductive pipeline_shape (input : ClaimState)
    : list (node * ClaimState) -> ClaimState -> Prop :=
| stopped_at_extraction (s1 : ClaimState) :
    step_effect extract_claim input s1 ->
    status s1 = Some "failed" ->
    pipeline_shape input [(extract_claim, s1)] s1
| stopped_at_assessment (s1 s2 : ClaimState) :
    step_effect extract_claim input s1 ->
    status s1 = Some "claim_extracted" ->
    step_effect assess_severity s1 s2 ->
    status s2 = Some "failed" ->
    pipeline_shape input [(extract_claim, s1); (assess_severity, s2)] s2
| ran_to_routing (s1 s2 s3 : ClaimState) :
    step_effect extract_claim input s1 ->
    status s1 = Some "claim_extracted" ->
    step_effect assess_severity s1 s2 ->
    status s2 = Some "severity_assessed" ->
    step_effect route_claim s2 s3 ->
    pipeline_shape input
      [(extract_claim, s1); (assess_severity, s2); (route_claim, s3)] s3.

End PipelineRun.

Module RetryRun.
Import ChainingLangGraph.

(** The request every attempt of [extract_claim_node] sends. *)
Definition extraction_request (prompt : string) (s : ClaimWorkflowState) : request :=
  {| req_model := or_else (model s) MODEL;
     req_messages := [ {| role := "system"; content := prompt |};
                       {| role := "user"; content := fnol s |} ];
     req_temperature := 0;
     req_max_tokens := Some 300 |}.

(** The entry that a failed attempt appends to [errors]: the transport
    failed, or the gate rejected the text; [None] when the attempt succeeds. *)
Definition failure_text (chat : endpoint string)
    (load : string -> exn + ClaimInformation) (n : nat) (q : request)
    : option string :=
  match chat n q with
  | inl e => Some ("Extraction error: API error: " +:+ exn_str e)
  | inr text =>
      match load text with
      | inl e => Some ("Extraction error: Invalid claim format: " +:+ exn_str e)
      | inr _ => None
      end
  end.

(** The state the node returns when it gives up. *)
Definition given_up (s : ClaimWorkflowState) (entries : list string)
    : ClaimWorkflowState :=
  {| fnol := fnol s; claim_info := claim_info s; state_severity := state_severity s;
     routing := routing s; errors := errors s ++ entries;
     retry_count := retry_count s + Z.of_nat (length entries);
     status := "failed"; model := model s |}.

End RetryRun.

(** A computation that makes at most [n] outside calls, whatever the
    collaborators answer, and never rewrites the calls made before it. *)
Definition sends_at_most {A} (n : nat) (m : M A) : Prop :=
  forall w, exists sent, calls (snd (m w)) = calls w ++ sent /\ (length sent <= n)%nat.

(** The interval of each severity, for the records of the LangGraph script. *)
Definition langgraph_interval (sev : ChainingLangGraph.Severity) (x : pyfloat) : Prop :=
  match sev with
  | ChainingLangGraph.Low => in_low_interval x
  | ChainingLangGraph.Medium => in_left_open_interval 1000 5000 x
  | ChainingLangGraph.High => in_left_open_interval 5000 50000 x
  end.

(** The records [process_claim] can return for a notice, with the number of
    calls the run made: a completed claim; an extraction that gave up; a
    failure of a later step. *)
Definition process_claim_outcome (notice : string)
    (final : ChainingLangGraph.ClaimWorkflowState) (sent : nat) : Prop :=
  ChainingLangGraph.fnol final = notice
  /\ ((ChainingLangGraph.status final = "completed"
       /\ (exists info sev r,
              ChainingLangGraph.claim_info final = Some info
              /\ ChainingLangGraph.state_severity final = Some sev
              /\ ChainingLangGraph.routing final = Some r
              /\ langgraph_interval (ChainingLangGraph.severity sev)
                   (ChainingLangGraph.est_cost sev))
       /\ Z.of_nat (length (ChainingLangGraph.errors final))
          = ChainingLangGraph.retry_count final
       /\ ChainingLangGraph.retry_count final <= 2
       /\ sent = (length (ChainingLangGraph.errors final) + 3)%nat)
      \/ (ChainingLangGraph.status final = "failed"
          /\ ChainingLangGraph.claim_info final = None
          /\ ChainingLangGraph.state_severity final = None
          /\ ChainingLangGraph.routing final = None
          /\ ChainingLangGraph.retry_count final = 3
          /\ length (ChainingLangGraph.errors final) = 3%nat
          /\ sent = 3%nat)
      \/ (ChainingLangGraph.status final = "failed"
          /\ ChainingLangGraph.claim_info final <> None
          /\ ChainingLangGraph.routing final = None
          /\ Z.of_nat (length (ChainingLangGraph.errors final))
             = ChainingLangGraph.retry_count final + 1
          /\ 0 <= ChainingLangGraph.retry_count final <= 2
          /\ (length (ChainingLangGraph.errors final) <= sent
              <= length (ChainingLangGraph.errors final) + 2)%nat)).

(** The records a run of the claims-workflow graph can return, with the
    number of steps it ran and of calls it made: a completed claim, or a
    claim stopped by the failure of one step. *)
Definition claims_run_outcome (input final : ClaimsWorkflow.ClaimState)
    (steps sent : nat) : Prop :=
  ClaimsWorkflow.fnol final = ClaimsWorkflow.fnol input
  /\ ClaimsWorkflow.model final = ClaimsWorkflow.model input
  /\ (1 <= steps <= 3)%nat
  /\ ((ClaimsWorkflow.status final = Some "completed"
       /\ steps = 3%nat /\ sent = 3%nat
       /\ ClaimsWorkflow.errors final = ClaimsWorkflow.errors input
       /\ ClaimsWorkflow.claim_info final <> None
       /\ (exists sev,
              ClaimsWorkflow.state_severity final = Some sev
              /\ gates_interval (ClaimsWorkflow.severity sev)
                   (ClaimsWorkflow.est_cost sev))
       /\ ClaimsWorkflow.routing final <> None)
      \/ (ClaimsWorkflow.status final = Some "failed"
          /\ (exists entry,
                 ClaimsWorkflow.errors final
                 = Some (ClaimsWorkflow.get_errors input ++ [entry]))
          /\ ClaimsWorkflow.routing final = ClaimsWorkflow.routing input
          /\ (steps - 1 <= sent <= steps)%nat)).

Module MoreSamples.

(** A Case Record created without its notice. *)
Definition no_notice : ClaimsWorkflow.ClaimState :=
  {| ClaimsWorkflow.fnol := None;
     ClaimsWorkflow.model := Some "gpt-4o-mini";
     ClaimsWorkflow.claim_info := None;
     ClaimsWorkflow.state_severity := None;
     ClaimsWorkflow.routing := None;
     ClaimsWorkflow.errors := None;
     ClaimsWorkflow.status := None |}.

(** A judge that accepts at its third answer (call 4 of a run whose calls
    0 and 3 go to the worker). *)
Definition second_time_yes : endpoint string :=
  fun n _ => inr (if Nat.eqb n 4 then "Yes, it is one sentence." else "No. Shorten it.").

Definition one_answer : oracle string string :=
  fun _ _ => inr "The capital of France is Paris.".

(** A service that answers every generator call with [text], objects to the
    first draft and approves the second. *)
Definition approved_second_time (text : string) : endpoint string :=
  fun n _ =>
    inr (if Nat.even n then text
         else if Nat.eqb n 1 then "Needs revision: remove projections."
         else "Approved").

End MoreSamples.

Module ScriptRun.
Import ChainingScript.

(** The request every step of chaining-prompting.py sends. *)
Definition step_request (system_prompt user_text : string) : request :=
  {| req_model := MODEL;
     req_messages := [ {| role := "system"; content := system_prompt |};
                       {| role := "user"; content := user_text |} ];
     req_temperature := temperature;
     req_max_tokens := Some 500 |}.

(** What a failure of the service becomes in [get_completion]. *)
Definition api_failure (e : exn) : exn :=
  Exn RuntimeError ("Error en API call: " +:+ exn_str e).

End ScriptRun.

Module ScriptPhases.
Import ChainingScript ScriptRun.

(** The requests of the three phases of the script. *)
Definition extraction_calls (P1 : string) (fnols : list string) : list event :=
  map (fun fnol => ApiCall (step_request P1 fnol)) fnols.

Definition assessment_calls (P2 : string) (model_dump_json : ClaimInformation -> string)
    (claims : list ClaimInformation) : list event :=
  map (fun c => ApiCall (step_request P2 (model_dump_json c))) claims.

Definition routing_calls (P3 : string)
    (dumps_routing_input : ClaimInformation -> option SeverityAssessment -> string)
    (pairs : list (ClaimInformation * SeverityAssessment)) : list event :=
  map (fun '(c, v) => ApiCall (step_request P3 (dumps_routing_input c (Some v)))) pairs.

End ScriptPhases.

(** The characters of a string. *)
Definition chars (s : string) : list ascii := list_ascii_of_string s.

Module ChunkRun.
Import BaseAgents.

(** The text the agent chunks: whitespace collapsed, ends trimmed. *)
Definition normalised (raw : string) : string :=
  PyStr.strip (collapse_whitespace false raw).

(** A chunk cut from [body]: the whole of it without offsets, or the slice
    between the offsets the chunk records, with their distance as size. *)
Definition cut_from (body : string) (c : chunk) : Prop :=
  (text c = body /\ start_char c = None /\ end_char c = None /\ size c = len body)
  \/ exists a b,
       start_char c = Some a /\ end_char c = Some b
       /\ text c = slice body a b /\ size c = b - a.

(** The texts of the chunks, one after the other. *)
Definition joined (pieces : list chunk) : string :=
  fold_right (fun c rest => text c +:+ rest) "" pieces.

(** Chunks that tile [text] from [start] to [stop] in steps of
    [chunk_size]: numbered from [id], each beginning where the one before
    ended, none empty, each holding its stretch of the text. *)
Fixpoint tiles (body : string) (chunk_size start id : Z) (pieces : list chunk)
    (stop : Z) : Prop :=
  match pieces with
  | [] => start = stop
  | c :: rest =>
      let e := Z.min (start + chunk_size) stop in
      chunk_id c = id
      /\ start_char c = Some start /\ end_char c = Some e
      /\ start < e
      /\ size c = e - start
      /\ text c = slice body start e
      /\ tiles body chunk_size e (id + 1) rest stop
  end.

End ChunkRun.

Module PlanRun.
Import BaseAgents.

(** What the loop of [extract_steps_from_prompt] makes of one line. *)
Definition cleaned (line : string) : option string :=
  let stripped := PyStr.strip line in
  if PyStr.truthy stripped
  then let step := drop_list_marks stripped in
       if PyStr.truthy step then Some step else None
  else None.

(** A step the cleaning leaves as it is: not empty, no whitespace at either
    end, no list mark in front, on one line. *)
Definition clean_step (step : string) : Prop :=
  step <> ""
  /\ PyStr.strip step = step
  /\ drop_list_marks step = step
  /\ ~ In "010"%char (chars step).

(** ["\n".join(steps)] *)
Fixpoint join_lines (steps : list string) : string :=
  match steps with
  | [] => ""
  | [step] => step
  | step :: rest => step +:+ new_line +:+ join_lines rest
  end.

End PlanRun.

Module RouteRun.
Import BaseAgents.

(** The loop of [route] on known scores: the agent and the score it ends
    with. *)
Fixpoint pick (score : agent -> pyfloat) (remaining : list agent)
    (best : option agent * pyfloat) : option agent * pyfloat :=
  match remaining with
  | [] => best
  | a :: rest =>
      if float_gt (score a) (snd best)
      then pick score rest (Some a, score a)
      else pick score rest best
  end.

(** The first of the best: an agent whose score is above -1, above the
    score of every agent before it that has a score to compare, and not
    below the score of any agent after it; or no agent, when no score is
    above -1. *)
Definition first_best (score : agent -> pyfloat) (agents : list agent)
    (choice : option agent) : Prop :=
  match choice with
  | None => Forall (fun a => float_gt (score a) (Finite (-1)) = false) agents
  | Some a =>
      exists before after,
        agents = before ++ a :: after
        /\ float_gt (score a) (Finite (-1)) = true
        /\ Forall (fun b => float_gt (score a) (score b) = true \/ score b = NaN) before
        /\ Forall (fun b => float_gt (score b) (score a) = false) after
  end.

(** The line printed for an agent, and the line that announces the choice. *)
Definition score_line (format_3f : pyfloat -> string) (score : agent -> pyfloat)
    (a : agent) : string :=
  "  - " +:+ name a +:+ ": " +:+ format_3f (score a).

Definition selected_line (format_3f : pyfloat -> string) (score : agent -> pyfloat)
    (a : agent) : string :=
  new_line +:+ "[Router] ✓ Selected: " +:+ name a
  +:+ " (similarity score: " +:+ format_3f (score a) +:+ ")".

End RouteRun.

Module RouteSamples.
Import BaseAgents.

(** Two agents, a service that embeds a text as its length, and a
    similarity that prefers equal lengths. *)
Definition writer : agent :=
  {| name := "writer"; description := "writes"; func := fun _ q => inr ("W: " +:+ q) |}.

Definition tester : agent :=
  {| name := "tester"; description := "tests things"; func := fun _ q => inr ("T: " +:+ q) |}.

Definition by_length : endpoint (option Z) :=
  fun _ q => inr (Some (match req_messages q with
                        | m :: _ => len (content m)
                        | [] => 0
                        end)).

Definition embed_length (q : request) : Z :=
  match req_messages q with
  | m :: _ => len (content m)
  | [] => 0
  end.

Definition closeness (a b : Z) : pyfloat := Finite (inject_Z (- Z.abs (a - b)) / 100).

Definition compare_lengths (a : option Z) (b : Z) : exn + pyfloat :=
  match a with
  | Some x => inr (closeness x b)
  | None => inl (Exn TypeError "unsupported operand")
  end.

End RouteSamples.

Module ProSamples.

(** A judge whose answer carries no parsed verdict (a refusal). *)
Definition refusing : endpoint (option EvaluatorOptimizerPro.EvaluationResult) :=
  fun _ _ => inr None.

End ProSamples.

Module SummarySamples.

(** A text of [n] characters. *)
Fixpoint filler (n : nat) : string :=
  match n with
  | O => ""
  | S n' => String "x" (filler n')
  end.

End SummarySamples.

(** * Properties *)

(** ** Floats against the interval bounds *)

Lemma low_test_spec (x : pyfloat) :
  int_le_float 100 x && float_le_int x 1000 = true <-> in_low_interval x.
Proof.
  destruct x as [q | [] | ]; simpl; try (split; [discriminate | tauto]).
  rewrite andb_true_iff, !Qle_bool_iff. reflexivity.
Qed.

Lemma left_open_test_spec (lo hi : Z) (x : pyfloat) :
  int_lt_float lo x && float_le_int x hi = true <-> in_left_open_interval lo hi x.
Proof.
  destruct x as [q | [] | ]; simpl; try (split; [discriminate | tauto]).
  rewrite andb_true_iff, negb_true_iff, Qle_bool_iff.
  rewrite <- not_true_iff_false, Qle_bool_iff.
  split; intros [H1 H2]; split; auto.
  - apply Qnot_le_lt; exact H1.
  - apply Qlt_not_le; exact H1.
Qed.

(** Closes a goal about an interval from the outcome [Ht] of the code's
    test, or refutes the hypothesis [Hin] with it. *)
Ltac interval_test :=
  match goal with
  | Ht : _ = true |- in_low_interval _ => apply low_test_spec; exact Ht
  | Ht : _ = true |- in_left_open_interval _ _ _ => apply left_open_test_spec; exact Ht
  | Ht : _ = false, Hin : in_low_interval _ |- False =>
      apply low_test_spec in Hin; congruence
  | Ht : _ = false, Hin : in_left_open_interval _ _ _ |- False =>
      apply left_open_test_spec in Hin; congruence
  end.

(** ** The Assessment Gate of gates.py *)

Section GatesFacts.

Variable load : string -> exn + ClaimsWorkflow.SeverityAssessment.
Variable format_float : pyfloat -> string.

Let gate := ClaimsWorkflow.gate2_cost_range_ok load format_float.

(** The gate accepts exactly the well-formed records whose estimate lies in
    the interval of their severity, and returns them unchanged. *)
Lemma gates_gate2_accepts_iff (s : string) (v : ClaimsWorkflow.SeverityAssessment) :
  gate s = inr v <->
  load s = inr v /\
  gates_interval (ClaimsWorkflow.severity v) (ClaimsWorkflow.est_cost v).
Proof.
  unfold gate, ClaimsWorkflow.gate2_cost_range_ok, ClaimsWorkflow.gate2_body.
  destruct (load s) as [e | r]; simpl.
  - split; [ | intros [? _]; discriminate].
    destruct (is_ValueError e); discriminate.
  - destruct r as [sev cost why]; simpl.
    destruct sev; simpl;
      match goal with
      | |- context [negb ?t] =>
          destruct t eqn:Ht; simpl
      end;
      (split;
       [ intros H;
         first [ discriminate
               | inversion H; subst; simpl; split; [reflexivity | interval_test] ]
       | intros [H Hin]; inversion H; subst; simpl in *;
         first [ reflexivity | exfalso; interval_test ] ]).
Qed.

(** Whatever the gate rejects, it rejects with a [ValueError]. *)
Lemma gates_gate2_rejects_with_ValueError (s : string) (e : exn) :
  gate s = inl e -> is_ValueError e = true.
Proof.
  unfold gate, ClaimsWorkflow.gate2_cost_range_ok, ClaimsWorkflow.gate2_body.
  destruct (load s) as [e0 | r]; simpl.
  - destruct (is_ValueError e0) eqn:He; intros H; inversion H; subst; auto.
  - destruct r as [sev cost why]; simpl.
    destruct sev; simpl;
      match goal with |- context [negb ?t] => destruct t; simpl end;
      intros H; inversion H; reflexivity.
Qed.

(** A well-formed record outside its interval is rejected. *)
Lemma gates_gate2_rejects_out_of_range (s : string) (v : ClaimsWorkflow.SeverityAssessment) :
  load s = inr v ->
  ~ gates_interval (ClaimsWorkflow.severity v) (ClaimsWorkflow.est_cost v) ->
  exists e, gate s = inl e /\ is_ValueError e = true.
Proof.
  intros Hload Hout.
  destruct (gate s) as [e | v'] eqn:Hg.
  - exists e. split; [reflexivity | ]. eapply gates_gate2_rejects_with_ValueError; eauto.
  - apply gates_gate2_accepts_iff in Hg as [Hl Hin]. congruence.
Qed.

End GatesFacts.

Example gates_low_1000_accepted :
  ClaimsWorkflow.gate2_cost_range_ok
    (fun _ => inr {| ClaimsWorkflow.severity := ClaimsWorkflow.Low;
                     ClaimsWorkflow.est_cost := Finite 1000;
                     ClaimsWorkflow.reasoning := "chip" |})
    (fun _ => "1000.0") "{}"
  = inr {| ClaimsWorkflow.severity := ClaimsWorkflow.Low;
           ClaimsWorkflow.est_cost := Finite 1000;
           ClaimsWorkflow.reasoning := "chip" |}.
Proof. reflexivity. Qed.

Example gates_low_1000_01_rejected :
  ClaimsWorkflow.gate2_cost_range_ok
    (fun _ => inr {| ClaimsWorkflow.severity := ClaimsWorkflow.Low;
                     ClaimsWorkflow.est_cost := cost_1000_01;
                     ClaimsWorkflow.reasoning := "chip" |})
    (fun _ => "1000.01") "{}"
  = inl (Exn ValueError "Cost $1000.01 out of range for Low severity ($100-$1000)").
Proof. vm_compute. reflexivity. Qed.

Example gates_medium_1000_rejected :
  exists e,
    ClaimsWorkflow.gate2_cost_range_ok
      (fun _ => inr {| ClaimsWorkflow.severity := ClaimsWorkflow.Medium;
                       ClaimsWorkflow.est_cost := Finite 1000;
                       ClaimsWorkflow.reasoning := "dent" |})
      (fun _ => "1000.0") "{}" = inl e.
Proof. eexists. vm_compute. reflexivity. Qed.

(** ** The Assessment Gate of chaining-prompting.py *)

Section ScriptGateFacts.

Variable load : string -> exn + ChainingScript.SeverityAssessment.

Let gate := ChainingScript.gate2_cost_range_ok load.

(** The script's gate accepts the same records. *)
Lemma script_gate2_accepts_iff (s : string) (v : ChainingScript.SeverityAssessment) :
  gate s = inr v <->
  load s = inr v /\
  script_interval (ChainingScript.severity v) (ChainingScript.est_cost v).
Proof.
  unfold gate, ChainingScript.gate2_cost_range_ok, ChainingScript.gate2_body.
  destruct (load s) as [e | r]; simpl.
  - split; [ | intros [? _]; discriminate].
    destruct (is_ValueError e); discriminate.
  - destruct r as [sev cost]; simpl.
    destruct sev; simpl;
      match goal with
      | |- context [negb ?t] =>
          destruct t eqn:Ht; simpl
      end;
      (split;
       [ intros H;
         first [ discriminate
               | inversion H; subst; simpl; split; [reflexivity | interval_test] ]
       | intros [H Hin]; inversion H; subst; simpl in *;
         first [ reflexivity | exfalso; interval_test ] ]).
Qed.

(** C1.  In chaining-prompting.py a well-formed record whose estimate is
    outside the interval of its severity is rejected, but the exception that
    leaves the gate is the [UnboundLocalError] raised by the handler
    [raise ve from e], not the [ValueError] the range check raised: the
    rejection is not a validation error. *)
Theorem script_gate2_rejection_is_unbound_local
    (s : string) (v : ChainingScript.SeverityAssessment) :
  load s = inr v ->
  ~ script_interval (ChainingScript.severity v) (ChainingScript.est_cost v) ->
  exists e,
    gate s = inl e /\ exn_cls e = UnboundLocalError /\ is_ValueError e = false.
Proof.
  intros Hload Hout.
  destruct (gate s) as [e | v'] eqn:Hg.
  - exists e. revert Hg.
    unfold gate, ChainingScript.gate2_cost_range_ok, ChainingScript.gate2_body.
    rewrite Hload. destruct v as [sev cost]; simpl.
    destruct sev; simpl;
      match goal with |- context [negb ?t] => destruct t; simpl end;
      intros H; inversion H; subst; auto.
  - apply script_gate2_accepts_iff in Hg as [Hl Hin]. congruence.
Qed.

End ScriptGateFacts.

Lemma script_gate2_rejection_is_unbound_local_witness :
  exists e,
    ChainingScript.gate2_cost_range_ok
      (fun _ => inr {| ChainingScript.severity := ChainingScript.Low;
                       ChainingScript.est_cost := cost_1000_01 |})
      "{}" = inl e
    /\ exn_cls e = UnboundLocalError /\ is_ValueError e = false.
Proof.
  apply (script_gate2_rejection_is_unbound_local
           (fun _ => inr {| ChainingScript.severity := ChainingScript.Low;
                            ChainingScript.est_cost := cost_1000_01 |})
           "{}"
           {| ChainingScript.severity := ChainingScript.Low;
              ChainingScript.est_cost := cost_1000_01 |}).
  - reflexivity.
  - simpl. intros [_ H]. revert H. vm_compute. intros H. apply H. reflexivity.
Defined.

(** ** Python strings *)

Lemma append_String (c : ascii) (a b : string) :
  String c a +:+ b = String c (a +:+ b).
Proof. reflexivity. Qed.

Lemma append_empty (b : string) : "" +:+ b = b.
Proof. reflexivity. Qed.

Lemma prefix_spec (tok s : string) :
  String.prefix tok s = true <-> exists rest, s = tok +:+ rest.
Proof.
  revert s. induction tok as [ | c tok IH]; intros s.
  - split; [intros _; exists s; reflexivity | destruct s; reflexivity].
  - destruct s as [ | c' s']; simpl;
      [split; [discriminate | intros [r H]; discriminate] | ].
    destruct (ascii_dec c c') as [-> | Hne].
    + rewrite IH. split; intros [r H]; exists r;
        rewrite append_String in *; congruence.
    + split; [discriminate | intros [r H]; rewrite append_String in H; congruence].
Qed.

Lemma lower_app (a b : string) :
  PyStr.lower (a +:+ b) = PyStr.lower a +:+ PyStr.lower b.
Proof.
  induction a as [ | c a IH]; [reflexivity | ].
  rewrite append_String. simpl. rewrite IH, append_String. reflexivity.
Qed.

Lemma lower_split (tok s rest : string) :
  PyStr.lower s = tok +:+ rest ->
  exists head tail, s = head +:+ tail /\ PyStr.lower head = tok /\ PyStr.lower tail = rest.
Proof.
  revert s. induction tok as [ | c tok IH]; intros s H.
  - exists "", s. auto.
  - rewrite append_String in H.
    destruct s as [ | c' s']; simpl in H; [discriminate | ].
    inversion H as [[Hc Hs]]. destruct (IH _ Hs) as (h & t & -> & Hh & Ht).
    exists (String c' h), t. simpl. rewrite Hh. auto.
Qed.

(** A reply passes a prefix test on its lower-cased text exactly when it
    begins with some spelling of the token. *)
Lemma lower_startswith_spec (tok s : string) :
  PyStr.startswith (PyStr.lower s) tok = true <->
  exists head tail, s = head +:+ tail /\ PyStr.lower head = tok.
Proof.
  unfold PyStr.startswith. rewrite prefix_spec. split.
  - intros [rest H]. destruct (lower_split _ _ _ H) as (h & t & Hs & Hh & _). eauto.
  - intros (h & t & -> & Hh). exists (PyStr.lower t). rewrite lower_app, Hh. reflexivity.
Qed.

(** ** Running the effects *)

Lemma bind_assoc {A B C} (m : M A) (f : A -> M B) (g : B -> M C) (w : world) :
  bind (bind m f) g w = bind m (fun x => bind (f x) g) w.
Proof. unfold bind. destruct (m w) as [[a | e] w']; reflexivity. Qed.

Lemma run_ret {A B} (a : A) (k : A -> M B) (w : world) :
  bind (ret a) k w = k a w.
Proof. reflexivity. Qed.

Lemma run_raise {A B} (e : exn) (k : A -> M B) (w : world) :
  bind (raise e) k w = (Raise e, w).
Proof. reflexivity. Qed.

Lemma run_print {B} (s : string) (k : unit -> M B) (w : world) :
  bind (print s) k w = k tt (said w [s]).
Proof. reflexivity. Qed.

Lemma run_ask {I O} (log : I -> event) (f : oracle I O) (i : I) (w : world) :
  ask log f i w =
    match f (length (calls w)) i with
    | inl e => (Raise e, called w [log i])
    | inr a => (Ret a, called w [log i])
    end.
Proof. unfold ask. destruct (f _ i); reflexivity. Qed.

Lemma run_ask_ok {I O B} (log : I -> event) (f : oracle I O) (i : I) (a : O)
    (k : O -> M B) (w : world) :
  f (length (calls w)) i = inr a ->
  bind (ask log f i) k w = k a (called w [log i]).
Proof. intros H. unfold bind. rewrite run_ask, H. reflexivity. Qed.

Lemma run_ask_fail {I O B} (log : I -> event) (f : oracle I O) (i : I) (e : exn)
    (k : O -> M B) (w : world) :
  f (length (calls w)) i = inl e ->
  bind (ask log f i) k w = (Raise e, called w [log i]).
Proof. intros H. unfold bind. rewrite run_ask, H. reflexivity. Qed.

Lemma said_said (w : world) (a b : list string) :
  said (said w a) b = said w (a ++ b).
Proof. unfold said. cbn. rewrite app_assoc. reflexivity. Qed.

Lemma called_called (w : world) (a b : list event) :
  called (called w a) b = called w (a ++ b).
Proof. unfold called. cbn. rewrite app_assoc. reflexivity. Qed.

Lemma called_said (w : world) (a : list string) (b : list event) :
  called (said w a) b = said (called w b) a.
Proof. reflexivity. Qed.

Lemma calls_said (w : world) (a : list string) : calls (said w a) = calls w.
Proof. reflexivity. Qed.

Lemma calls_called (w : world) (a : list event) : calls (called w a) = calls w ++ a.
Proof. reflexivity. Qed.



Lemma length_calls_called_1 (w : world) (ev : event) :
  length (calls (called w [ev])) = S (length (calls w)).
Proof. cbn. rewrite length_app. cbn. lia. Qed.

(** Brings a world built from [said] and [called] to the form
    [said (called w events) lines]. *)
Ltac tidy_world :=
  repeat first [ rewrite called_said | rewrite said_said | rewrite called_called ].

(** Runs the prints and returns at the head of a computation. *)
Ltac run_pure :=
  repeat (cbv beta;
          first [ rewrite bind_assoc | rewrite run_print | rewrite run_ret ]);
  cbv beta.

(** ** The compliance loop of demo.py *)

Section DemoFacts.
Import EvaluatorOptimizerDemo DemoRun.

Variable client : endpoint string.

(** One pass through the loop body, when the service answers both calls. *)
Lemma demo_cycle (a : Z) (rest : list Z) (l : locals) (w : world) (d e : string) :
  (forall q, client (length (calls w)) q = inr d) ->
  (forall q, client (S (length (calls w))) q = inr e) ->
  for_attempts client (a :: rest) l w =
    let w1 := said (called w (cycle_calls (feedback l) [(d, e)]))
                (cycle_prints a (feedback l) d e) in
    if approved (PyStr.strip e)
    then (Ret (true, {| report_text := d; feedback := feedback l |}),
          said w1 (approval_prints d))
    else for_attempts client rest
           {| report_text := d; feedback := Some (PyStr.strip e) |} w1.
Proof.
  intros Hd He.
  cbn [for_attempts].
  unfold FinancialReportAgent_run, ComplianceAgent_run, call.
  run_pure. rewrite (run_ask_ok _ _ _ d) by apply Hd.
  run_pure. rewrite (run_ask_ok _ _ _ e)
    by (rewrite calls_said, length_calls_called_1, !calls_said; apply He).
  run_pure. cbn zeta. destruct (approved (PyStr.strip e)).
  - run_pure. unfold ret. tidy_world. reflexivity.
  - tidy_world. reflexivity.
Qed.

Lemma called_nil (w : world) : called w [] = w.
Proof. destruct w. unfold called. cbn. rewrite app_nil_r. reflexivity. Qed.

Lemma said_nil (w : world) : said w [] = w.
Proof. destruct w. unfold said. cbn. rewrite app_nil_r. reflexivity. Qed.

(** A run of rejected cycles: the loop goes on with the last draft and the
    last feedback, having made exactly the calls of [cycle_calls]. *)
Lemma demo_rejected_run (cycles : list (string * string)) :
  forall (attempts rest : list Z) (l : locals) (w : world),
    length attempts = length cycles ->
    answers client client (length (calls w)) cycles ->
    Forall rejected cycles ->
    for_attempts client (attempts ++ rest) l w =
    for_attempts client rest (locals_after l cycles)
      (said (called w (cycle_calls (feedback l) cycles))
         (run_prints attempts (feedback l) cycles)).
Proof.
  induction cycles as [ | [d e] cycles IH]; intros attempts rest l w Hlen Hans Hrej.
  - destruct attempts; [ | discriminate].
    cbn. rewrite called_nil, said_nil. reflexivity.
  - destruct attempts as [ | a attempts]; [discriminate | ].
    destruct Hans as (Hd & He & Hans). inversion Hrej as [ | ? ? Hr Hrej']; subst.
    rewrite <- app_comm_cons, (demo_cycle a _ l w d e Hd He). cbn zeta.
    unfold rejected in Hr. cbn [snd] in Hr. rewrite Hr.
    rewrite IH; cycle 1.
    + cbn in Hlen. lia.
    + rewrite calls_said, calls_called. cbn [cycle_calls].
      rewrite length_app. cbn [length]. rewrite Nat.add_comm. exact Hans.
    + exact Hrej'.
    + cbn [feedback]. tidy_world. reflexivity.
Qed.

(** Whatever the service answers, a pass through the loop only adds calls,
    at most two per remaining attempt. *)
Lemma demo_calls_bound (attempts : list Z) :
  forall (l : locals) (w : world),
    exists more,
      calls (snd (for_attempts client attempts l w)) = calls w ++ more /\
      (length more <= 2 * length attempts)%nat.
Proof.
  induction attempts as [ | a attempts IH]; intros l w.
  - exists []. cbn. rewrite app_nil_r. split; [reflexivity | lia].
  - cbn [for_attempts].
    unfold FinancialReportAgent_run, ComplianceAgent_run, call.
    run_pure. unfold bind at 1. rewrite run_ask.
    destruct (client _ _) as [e1 | d].
    { eexists [_]. cbn. split; [reflexivity | lia]. }
    run_pure. unfold bind at 1. rewrite run_ask.
    destruct (client _ _) as [e2 | e].
    { eexists [_; _]. cbn. rewrite <- app_assoc. split; [reflexivity | lia]. }
    run_pure. destruct (approved _).
    + run_pure. unfold ret. eexists [_; _]. cbn. rewrite <- app_assoc.
      split; [reflexivity | lia].
    + match goal with
      | |- context [for_attempts client attempts ?l' ?w'] =>
          destruct (IH l' w') as (more & Hm & Hb)
      end.
      rewrite Hm. cbn [calls said called].
      eexists (_ :: _ :: more). rewrite <- !app_assoc. cbn.
      split; [reflexivity | lia].
Qed.


End DemoFacts.

(** ** The optimization loop of demo_professional.py *)

Section ProFacts.
Import EvaluatorOptimizerPro ProRun.

Variable create : endpoint string.
Variable parse : endpoint (option EvaluationResult).

(** A retried call that is answered at once is a single call. *)
Lemma run_retry_ok {A B} (api : endpoint A) (n : nat) (q : request) (a : A)
    (k : A -> M B) (w : world) :
  api (length (calls w)) q = inr a ->
  bind (retry (S n) (call api q)) k w = k a (called w [ApiCall q]).
Proof.
  intros H. unfold bind. cbn [retry]. unfold try_except, call.
  rewrite run_ask, H. reflexivity.
Qed.

Lemma retry_again {A} (n : nat) (body : M A) (w : world) :
  retry (S (S n)) body w =
    match body w with
    | (Ret a, w') => (Ret a, w')
    | (Raise e, w') => retry (S n) body w'
    end.
Proof. reflexivity. Qed.

Lemma retry_last {A} (body : M A) (w : world) :
  retry 1 body w =
    match body w with
    | (Ret a, w') => (Ret a, w')
    | (Raise e, w') => (Raise (Exn RetryError ("RetryError: " +:+ exn_str e)), w')
    end.
Proof. reflexivity. Qed.

(** Whatever the service answers, a retried call makes between one and
    [n] calls, all with the same request. *)
Lemma retry_calls {A} (api : endpoint A) (q : request) (n : nat) :
  forall w : world,
    exists more,
      calls (snd (retry (S n) (call api q) w)) = calls w ++ ApiCall q :: more /\
      (length more <= n)%nat.
Proof.
  induction n as [ | n IH]; intros w.
  - rewrite retry_last. unfold call. rewrite run_ask.
    destruct (api _ q) as [e | a]; exists []; split; reflexivity || (cbn; lia).
  - rewrite retry_again. unfold call at 1. rewrite run_ask.
    destruct (api _ q) as [e | a].
    + destruct (IH (called w [ApiCall q])) as (more & Hm & Hb).
      rewrite Hm. cbn [calls called].
      exists (ApiCall q :: more). rewrite <- app_assoc.
      split; [reflexivity | cbn; lia].
    + exists []. split; [reflexivity | cbn; lia].
Qed.

(** One pass through the loop body, when both calls are answered at once. *)
Lemma pro_cycle (p : string) (i : Z) (rest : list Z) (fb : option string)
    (w : world) (d : string) (r : EvaluationResult) :
  (forall q, create (length (calls w)) q = inr d) ->
  (forall q, parse (S (length (calls w))) q = inr (Some r)) ->
  for_iterations create parse p (i :: rest) fb w =
    let w1 := called w (cycle_calls p fb [(d, r)]) in
    if is_compliant r then (Ret (Some d), w1)
    else for_iterations create parse p rest (Some (feedback r)) w1.
Proof.
  intros Hd Hr. cbn [for_iterations]. unfold generate, evaluate.
  rewrite (run_retry_ok _ _ _ d) by apply Hd.
  rewrite (run_retry_ok _ _ _ (Some r)) by (rewrite length_calls_called_1; apply Hr).
  cbn zeta. tidy_world. destruct (is_compliant r); reflexivity.
Qed.

Lemma pro_rejected_run (p : string) (cycles : list (string * EvaluationResult)) :
  forall (iterations rest : list Z) (fb : option string) (w : world),
    length iterations = length cycles ->
    answers create parse (length (calls w)) (played cycles) ->
    Forall rejected cycles ->
    for_iterations create parse p (iterations ++ rest) fb w =
    for_iterations create parse p rest (feedback_after fb cycles)
      (called w (cycle_calls p fb cycles)).
Proof.
  induction cycles as [ | [d r] cycles IH]; intros iterations rest fb w Hlen Hans Hrej.
  - destruct iterations; [ | discriminate]. cbn. rewrite called_nil. reflexivity.
  - destruct iterations as [ | i iterations]; [discriminate | ].
    destruct Hans as (Hd & Hr & Hans). inversion Hrej as [ | ? ? Hc Hrej']; subst.
    rewrite <- app_comm_cons, (pro_cycle p i _ fb w d r Hd Hr). cbn zeta.
    unfold rejected in Hc. cbn [snd] in Hc. rewrite Hc.
    rewrite IH; cycle 1.
    + cbn in Hlen. lia.
    + rewrite calls_called. cbn [cycle_calls].
      rewrite length_app. cbn [length]. rewrite Nat.add_comm. exact Hans.
    + exact Hrej'.
    + tidy_world. reflexivity.
Qed.

(** Whatever the service answers, a pass only adds calls, at most six per
    remaining iteration (two calls, each tried up to three times). *)
Lemma pro_calls_bound (p : string) (iterations : list Z) :
  forall (fb : option string) (w : world),
    exists more,
      calls (snd (for_iterations create parse p iterations fb w)) = calls w ++ more /\
      (length more <= 6 * length iterations)%nat.
Proof.
  induction iterations as [ | i iterations IH]; intros fb w.
  - exists []. cbn. rewrite app_nil_r. split; [reflexivity | lia].
  - cbn [for_iterations]. unfold generate, evaluate. unfold bind at 1.
    destruct (retry_calls create (generator_request (final_prompt p fb)) 2 w)
      as (m1 & Hm1 & Hb1).
    destruct (retry 3 (call create _) w) as [[d | e1] w1]; cbn [snd] in Hm1.
    2: { cbn [snd]. rewrite Hm1. eexists. split; [reflexivity | cbn; lia]. }
    unfold bind at 1.
    destruct (retry_calls parse (evaluator_request d) 2 w1) as (m2 & Hm2 & Hb2).
    destruct (retry 3 (call parse _) w1) as [[v | e2] w2]; cbn [snd] in Hm2.
    2: { cbn [snd]. rewrite Hm2, Hm1, <- app_assoc.
         eexists. split; [reflexivity | cbn; rewrite length_app; cbn; lia]. }
    destruct v as [r | ].
    2: { cbn. rewrite Hm2, Hm1, <- app_assoc.
         eexists. split; [reflexivity | cbn; rewrite length_app; cbn; lia]. }
    destruct (is_compliant r).
    + cbn. rewrite Hm2, Hm1, <- app_assoc.
      eexists. split; [reflexivity | cbn; rewrite length_app; cbn; lia].
    + destruct (IH (Some (feedback r)) w2) as (more & Hm & Hb).
      rewrite Hm, Hm2, Hm1, <- !app_assoc.
      eexists. split; [reflexivity | ].
      cbn. rewrite !length_app. cbn. rewrite length_app. cbn. lia.
Qed.


End ProFacts.

(** ** The refinement loop of EvaluationAgent *)

Section AgentFacts.
Import BaseAgents AgentRun.

Variable client : endpoint string.
Variable worker : oracle string string.
Variable persona criteria : string.

Let loop := for_interactions client worker persona criteria.

(** An interaction whose evaluation begins with the token ends the loop
    with the worker's response and that evaluation. *)
Lemma agent_accepting_interaction (p : string) (i : Z) (rest : list Z) (l : locals)
    (w : world) (response reply : string) :
  (forall q, worker (length (calls w)) q = inr response) ->
  (forall q, client (S (length (calls w))) q = inr reply) ->
  accepted (PyStr.strip reply) = true ->
  exists w',
    loop p (i :: rest) l w =
      (Ret (inl {| final_response := response;
                   evaluation := PyStr.strip reply;
                   iterations := i + 1 |}), w') /\
    length (calls w') = (length (calls w) + 2)%nat.
Proof.
  intros Hw Hc Hacc. unfold loop. cbn [for_interactions]. unfold respond, call.
  run_pure. rewrite (run_ask_ok _ _ _ response) by (rewrite !calls_said; apply Hw).
  run_pure. rewrite (run_ask_ok _ _ _ reply)
    by (rewrite !calls_said, length_calls_called_1, !calls_said; apply Hc).
  run_pure. cbn zeta. rewrite Hacc. run_pure. unfold ret.
  eexists. split; [reflexivity | ].
  tidy_world. rewrite calls_said, calls_called, length_app. reflexivity.
Qed.

(** An interaction whose evaluation does not begin with the token sends the
    loop on with the refinement prompt. *)
Lemma agent_rejecting_interaction (p : string) (i : Z) (rest : list Z) (l : locals)
    (w : world) (response reply fix_reply : string) :
  (forall q, worker (length (calls w)) q = inr response) ->
  (forall q, client (S (length (calls w))) q = inr reply) ->
  (forall q, client (S (S (length (calls w)))) q = inr fix_reply) ->
  accepted (PyStr.strip reply) = false ->
  exists w',
    loop p (i :: rest) l w =
      loop p rest (after_interaction p l (response, reply, fix_reply)) w' /\
    length (calls w') = (length (calls w) + 3)%nat.
Proof.
  intros Hw Hc Hf Hrej. unfold loop. cbn [for_interactions]. unfold respond, call.
  run_pure. rewrite (run_ask_ok _ _ _ response) by (rewrite !calls_said; apply Hw).
  run_pure. rewrite (run_ask_ok _ _ _ reply)
    by (rewrite !calls_said, length_calls_called_1, !calls_said; apply Hc).
  run_pure. cbn zeta. rewrite Hrej.
  run_pure. rewrite (run_ask_ok _ _ _ fix_reply)
    by (rewrite !calls_said, length_calls_called_1, !calls_said,
          length_calls_called_1, !calls_said; apply Hf).
  run_pure. eexists. split; [reflexivity | ].
  tidy_world. rewrite calls_said, calls_called, length_app. reflexivity.
Qed.

(** A run of rejected interactions. *)
Lemma agent_rejected_run (p : string) (interactions : list (string * string * string)) :
  forall (todo rest : list Z) (l : locals) (w : world),
    length todo = length interactions ->
    answers worker client (length (calls w)) interactions ->
    Forall rejected interactions ->
    exists w',
      loop p (todo ++ rest) l w = loop p rest (locals_after p l interactions) w' /\
      length (calls w') = (length (calls w) + 3 * length interactions)%nat.
Proof.
  induction interactions as [ | [[response reply] fix_reply] interactions IH];
    intros todo rest l w Hlen Hans Hrej.
  - destruct todo; [ | discriminate]. exists w. split; [reflexivity | cbn; lia].
  - destruct todo as [ | i todo]; [discriminate | ].
    destruct Hans as (Hw & Hc & Hf & Hans). inversion Hrej as [ | ? ? Hr Hrej']; subst.
    rewrite <- app_comm_cons.
    destruct (agent_rejecting_interaction p i (todo ++ rest) l w _ _ _ Hw Hc Hf Hr)
      as (w1 & Hstep & Hl1).
    rewrite Hstep.
    destruct (IH todo rest (after_interaction p l (response, reply, fix_reply)) w1)
      as (w2 & Hrun & Hl2).
    + cbn in Hlen. lia.
    + rewrite Hl1. replace (length (calls w) + 3)%nat
        with (S (S (S (length (calls w))))) by lia. exact Hans.
    + exact Hrej'.
    + exists w2. split; [exact Hrun | ]. rewrite Hl2, Hl1. cbn [length]. lia.
Qed.

End AgentFacts.

(** ** Lists of attempts *)

Lemma length_range (n : Z) : length (range n) = Z.to_nat n.
Proof. unfold range. rewrite length_map, length_seq. reflexivity. Qed.

Lemma split_at {A} (l : list A) (k : nat) :
  (k < length l)%nat ->
  exists l1 a l2, l = l1 ++ a :: l2 /\ length l1 = k.
Proof.
  revert l. induction k as [ | k IH]; intros [ | x l] H; cbn in H; try lia.
  - exists [], x, l. auto.
  - destruct (IH l) as (l1 & a & l2 & -> & Hl); [lia | ].
    exists (x :: l1), a, l2. cbn. auto.
Qed.

Lemma demo_generator_invocations (fb : option string) (cycles : list (string * string)) :
  generator_invocations (DemoRun.cycle_calls fb cycles) = length cycles.
Proof.
  revert fb. induction cycles as [ | [d e] cycles IH]; intros fb; [reflexivity | ].
  unfold generator_invocations in *. cbn [DemoRun.cycle_calls].
  rewrite filter_cons_True by reflexivity.
  rewrite filter_cons_False by (cbn; discriminate).
  cbn [length]. rewrite IH. reflexivity.
Qed.

Lemma pro_generator_invocations (p : string) (fb : option string)
    (cycles : list (string * EvaluatorOptimizerPro.EvaluationResult)) :
  generator_invocations (ProRun.cycle_calls p fb cycles) = length cycles.
Proof.
  revert fb. induction cycles as [ | [d r] cycles IH]; intros fb; [reflexivity | ].
  unfold generator_invocations in *. cbn [ProRun.cycle_calls].
  rewrite filter_cons_True by reflexivity.
  rewrite filter_cons_False by (cbn; discriminate).
  cbn [length]. rewrite IH. reflexivity.
Qed.

Lemma demo_locals_after_snoc (l : EvaluatorOptimizerDemo.locals)
    (cycles : list (string * string)) (d e : string) :
  DemoRun.locals_after l (cycles ++ [(d, e)]) =
  {| EvaluatorOptimizerDemo.report_text := d;
     EvaluatorOptimizerDemo.feedback := Some (PyStr.strip e) |}.
Proof. unfold DemoRun.locals_after. rewrite fold_left_app. reflexivity. Qed.



Lemma answers_app {A B} (gen : endpoint A) (judge : endpoint B)
    (xs ys : list (A * B)) :
  forall c,
    answers gen judge c (xs ++ ys) <->
    answers gen judge c xs /\ answers gen judge (c + 2 * length xs) ys.
Proof.
  induction xs as [ | [d e] xs IH]; intros c; cbn [app answers length].
  - rewrite Nat.add_0_r. tauto.
  - rewrite IH. replace (S (S c) + 2 * length xs)%nat
      with (c + 2 * S (length xs))%nat by lia. tauto.
Qed.

Lemma length_demo_cycle_calls (fb : option string) (cycles : list (string * string)) :
  length (DemoRun.cycle_calls fb cycles) = (2 * length cycles)%nat.
Proof.
  revert fb. induction cycles as [ | [d e] cycles IH]; intros fb; [reflexivity | ].
  cbn [DemoRun.cycle_calls length]. rewrite IH. lia.
Qed.

Lemma length_pro_cycle_calls (p : string) (fb : option string)
    (cycles : list (string * EvaluatorOptimizerPro.EvaluationResult)) :
  length (ProRun.cycle_calls p fb cycles) = (2 * length cycles)%nat.
Proof.
  revert fb. induction cycles as [ | [d r] cycles IH]; intros fb; [reflexivity | ].
  cbn [ProRun.cycle_calls length]. rewrite IH. lia.
Qed.

Lemma played_app (xs ys : list (string * EvaluatorOptimizerPro.EvaluationResult)) :
  ProRun.played (xs ++ ys) = ProRun.played xs ++ ProRun.played ys.
Proof. unfold ProRun.played. apply map_app. Qed.

Lemma length_played (xs : list (string * EvaluatorOptimizerPro.EvaluationResult)) :
  length (ProRun.played xs) = length xs.
Proof. unfold ProRun.played. apply length_map. Qed.

Lemma demo_cycle_calls_app (xs ys : list (string * string)) :
  forall l : EvaluatorOptimizerDemo.locals,
    DemoRun.cycle_calls (EvaluatorOptimizerDemo.feedback l) (xs ++ ys) =
    DemoRun.cycle_calls (EvaluatorOptimizerDemo.feedback l) xs
    ++ DemoRun.cycle_calls
         (EvaluatorOptimizerDemo.feedback (DemoRun.locals_after l xs)) ys.
Proof.
  induction xs as [ | [d e] xs IH]; intros l; [reflexivity | ].
  cbn [app DemoRun.cycle_calls]. unfold DemoRun.locals_after. cbn [fold_left].
  exact (f_equal (fun t => _ :: _ :: t) (IH (DemoRun.after_cycle l (d, e)))).
Qed.

Lemma pro_cycle_calls_app (p : string)
    (xs ys : list (string * EvaluatorOptimizerPro.EvaluationResult)) :
  forall fb : option string,
    ProRun.cycle_calls p fb (xs ++ ys) =
    ProRun.cycle_calls p fb xs ++ ProRun.cycle_calls p (ProRun.feedback_after fb xs) ys.
Proof.
  induction xs as [ | [d r] xs IH]; intros fb; [reflexivity | ].
  cbn [app ProRun.cycle_calls]. unfold ProRun.feedback_after. cbn [fold_left].
  exact (f_equal (fun t => _ :: _ :: t) (IH (Some (EvaluatorOptimizerPro.feedback r)))).
Qed.

(** ** Whole runs of the two compliance loops *)

Section DemoMain.
Import EvaluatorOptimizerDemo DemoRun.

Variable client : endpoint string.

Lemma demo_main_exhausted (N : Z) (cycles : list (string * string)) (w : world) :
  length cycles = Z.to_nat N ->
  answers client client (length (calls w)) cycles ->
  Forall rejected cycles ->
  main_with client N w =
    (Ret tt,
     said (called w (cycle_calls None cycles))
       (run_prints (range N) None cycles
        ++ failure_prints (report_text (locals_after start cycles)))).
Proof.
  intros Hlen Hans Hrej. unfold main_with. unfold bind at 1.
  change {| report_text := ""; feedback := None |} with start.
  pose proof (demo_rejected_run client cycles (range N) [] start w) as Hrun.
  rewrite app_nil_r in Hrun. rewrite Hrun;
    [ | rewrite length_range; congruence | exact Hans | exact Hrej ].
  cbn [for_attempts]. unfold ret at 1. cbn [fst snd].
  run_pure. unfold print, said, called, failure_prints.
  cbn [calls stdout feedback start]. rewrite <- ?app_assoc. reflexivity.
Qed.

Lemma demo_main_approved (N : Z) (before : list (string * string)) (d e : string)
    (w : world) :
  (length before < Z.to_nat N)%nat ->
  answers client client (length (calls w)) (before ++ [(d, e)]) ->
  Forall rejected before ->
  approved (PyStr.strip e) = true ->
  exists earlier,
    main_with client N w =
      (Ret tt,
       said (called w (cycle_calls None (before ++ [(d, e)])))
         (earlier ++ approval_prints d)).
Proof.
  intros Hlt Hans Hrej Happ.
  destruct (split_at (range N) (length before)) as (l1 & a & l2 & Hsplit & Hl1);
    [rewrite length_range; exact Hlt | ].
  apply answers_app in Hans as [Hans1 Hans2]. destruct Hans2 as (Hd & He & _).
  unfold main_with. unfold bind at 1. rewrite Hsplit.
  change {| report_text := ""; feedback := None |} with start.
  rewrite (demo_rejected_run client before l1 (a :: l2) start w Hl1 Hans1 Hrej).
  rewrite (demo_cycle client a l2 _ _ d e); cycle 1.
  - rewrite calls_said, calls_called, length_app, length_demo_cycle_calls. exact Hd.
  - rewrite calls_said, calls_called, length_app, length_demo_cycle_calls. exact He.
  - cbn zeta. rewrite Happ. cbn [fst]. unfold ret.
    exists (run_prints l1 (feedback start) before
            ++ cycle_prints a (feedback (locals_after start before)) d e).
    f_equal. tidy_world.
    change (cycle_calls None (before ++ [(d, e)]))
      with (cycle_calls (feedback start) (before ++ [(d, e)])).
    rewrite (demo_cycle_calls_app before [(d, e)] start).
    rewrite <- ?app_assoc. reflexivity.
Qed.

Lemma demo_main_bound (N : Z) (w : world) :
  (length (calls (snd (main_with client N w)))
   <= length (calls w) + 2 * Z.to_nat N)%nat.
Proof.
  unfold main_with. unfold bind at 1.
  change {| report_text := ""; feedback := None |} with start.
  destruct (demo_calls_bound client (range N) start w) as (more & Hm & Hb).
  rewrite length_range in Hb.
  destruct (for_attempts client (range N) start w) as [[[broke l] | e] w1];
    cbn [snd] in Hm.
  - destruct broke; cbn [fst snd]; [unfold ret | run_pure; unfold print];
      cbn [snd calls said]; rewrite Hm, length_app; lia.
  - cbn [snd]. rewrite Hm, length_app. lia.
Qed.

End DemoMain.

Section ProMain.
Import EvaluatorOptimizerPro ProRun.

Variable create : endpoint string.
Variable parse : endpoint (option EvaluationResult).

Lemma pro_loop_exhausted (p : string) (N : Z)
    (cycles : list (string * EvaluationResult)) (w : world) :
  length cycles = Z.to_nat N ->
  answers create parse (length (calls w)) (played cycles) ->
  Forall rejected cycles ->
  run_optimization_loop create parse p N w =
    (Ret None, called w (cycle_calls p None cycles)).
Proof.
  intros Hlen Hans Hrej. unfold run_optimization_loop.
  pose proof (pro_rejected_run create parse p cycles (range N) [] None w) as Hrun.
  rewrite app_nil_r in Hrun. rewrite Hrun;
    [ | rewrite length_range; congruence | exact Hans | exact Hrej ].
  reflexivity.
Qed.

Lemma pro_loop_approved (p : string) (N : Z)
    (before : list (string * EvaluationResult)) (d : string) (r : EvaluationResult)
    (w : world) :
  (length before < Z.to_nat N)%nat ->
  answers create parse (length (calls w)) (played (before ++ [(d, r)])) ->
  Forall rejected before ->
  is_compliant r = true ->
  run_optimization_loop create parse p N w =
    (Ret (Some d), called w (cycle_calls p None (before ++ [(d, r)]))).
Proof.
  intros Hlt Hans Hrej Hok.
  destruct (split_at (range N) (length before)) as (l1 & a & l2 & Hsplit & Hl1);
    [rewrite length_range; exact Hlt | ].
  rewrite played_app in Hans. apply answers_app in Hans as [Hans1 Hans2].
  rewrite length_played in Hans2. destruct Hans2 as (Hd & Hr & _).
  unfold run_optimization_loop. rewrite Hsplit.
  rewrite (pro_rejected_run create parse p before l1 (a :: l2) None w Hl1 Hans1 Hrej).
  rewrite (pro_cycle create parse p a l2 _ _ d r); cycle 1.
  - rewrite calls_called, length_app, length_pro_cycle_calls. exact Hd.
  - rewrite calls_called, length_app, length_pro_cycle_calls. exact Hr.
  - cbn zeta. rewrite Hok. tidy_world. rewrite pro_cycle_calls_app. reflexivity.
Qed.

Lemma pro_loop_bound (p : string) (N : Z) (w : world) :
  (length (calls (snd (run_optimization_loop create parse p N w)))
   <= length (calls w) + 6 * Z.to_nat N)%nat.
Proof.
  unfold run_optimization_loop.
  destruct (pro_calls_bound create parse p (range N) None w) as (more & Hm & Hb).
  rewrite length_range in Hb. rewrite Hm, length_app. lia.
Qed.

End ProMain.

Lemma demo_last_report (cycles : list (string * string)) :
  EvaluatorOptimizerDemo.report_text (DemoRun.locals_after DemoRun.start cycles)
  = List.last (map fst cycles) "".
Proof.
  destruct cycles as [ | c cycles] using rev_ind; [reflexivity | ].
  destruct c as [d e]. rewrite demo_locals_after_snoc, map_app.
  cbn [map fst]. rewrite List.last_last. reflexivity.
Qed.


(** C4 (as amended).  Both compliance loops stop within their ceiling [N]
    ([MAX_RETRIES = 5] in demo.py, [max_retries = 6] by default in
    demo_professional.py).  If the Evaluator rejects every cycle, the loop
    runs exactly [N] Generator/Evaluator cycles and fails: [main] of demo.py
    prints the failure banner and the last report, [run_optimization_loop]
    returns [None].  If the Evaluator first approves on cycle [k <= N], the
    loop stops there after exactly [k] Generator invocations:
    [run_optimization_loop] returns the cycle-[k] candidate; [main] of
    demo.py returns nothing, and the candidate is the last line it prints,
    after the approval banner.  For every service whatsoever the number of
    calls is bounded. *)
Theorem evaluator_optimizer_terminates :
  (forall (client : endpoint string) (N : Z) (cycles : list (string * string))
          (w : world),
      length cycles = Z.to_nat N ->
      answers client client (length (calls w)) cycles ->
      Forall DemoRun.rejected cycles ->
      (exists lines,
          EvaluatorOptimizerDemo.main_with client N w =
            (Ret tt,
             said (called w (DemoRun.cycle_calls None cycles))
               (lines ++ DemoRun.failure_prints (List.last (map fst cycles) ""))))
      /\ generator_invocations (DemoRun.cycle_calls None cycles) = Z.to_nat N
      /\ length (DemoRun.cycle_calls None cycles) = (2 * Z.to_nat N)%nat)
  /\
  (forall (client : endpoint string) (N : Z) (before : list (string * string))
          (d e : string) (w : world),
      (length before < Z.to_nat N)%nat ->
      answers client client (length (calls w)) (before ++ [(d, e)]) ->
      Forall DemoRun.rejected before ->
      EvaluatorOptimizerDemo.approved (PyStr.strip e) = true ->
      (exists lines,
          EvaluatorOptimizerDemo.main_with client N w =
            (Ret tt,
             said (called w (DemoRun.cycle_calls None (before ++ [(d, e)])))
               (lines ++ DemoRun.approval_prints d)))
      /\ generator_invocations (DemoRun.cycle_calls None (before ++ [(d, e)]))
         = S (length before))
  /\
  (forall (create : endpoint string)
          (parse : endpoint (option EvaluatorOptimizerPro.EvaluationResult))
          (p : string) (N : Z)
          (cycles : list (string * EvaluatorOptimizerPro.EvaluationResult))
          (w : world),
      length cycles = Z.to_nat N ->
      answers create parse (length (calls w)) (ProRun.played cycles) ->
      Forall ProRun.rejected cycles ->
      EvaluatorOptimizerPro.run_optimization_loop create parse p N w =
        (Ret None, called w (ProRun.cycle_calls p None cycles))
      /\ generator_invocations (ProRun.cycle_calls p None cycles) = Z.to_nat N
      /\ length (ProRun.cycle_calls p None cycles) = (2 * Z.to_nat N)%nat)
  /\
  (forall (create : endpoint string)
          (parse : endpoint (option EvaluatorOptimizerPro.EvaluationResult))
          (p : string) (N : Z)
          (before : list (string * EvaluatorOptimizerPro.EvaluationResult))
          (d : string) (r : EvaluatorOptimizerPro.EvaluationResult) (w : world),
      (length before < Z.to_nat N)%nat ->
      answers create parse (length (calls w)) (ProRun.played (before ++ [(d, r)])) ->
      Forall ProRun.rejected before ->
      EvaluatorOptimizerPro.is_compliant r = true ->
      EvaluatorOptimizerPro.run_optimization_loop create parse p N w =
        (Ret (Some d), called w (ProRun.cycle_calls p None (before ++ [(d, r)])))
      /\ generator_invocations (ProRun.cycle_calls p None (before ++ [(d, r)]))
         = S (length before))
  /\
  (forall (client : endpoint string) (N : Z) (w : world),
      (length (calls (snd (EvaluatorOptimizerDemo.main_with client N w)))
       <= length (calls w) + 2 * Z.to_nat N)%nat)
  /\
  (forall (create : endpoint string)
          (parse : endpoint (option EvaluatorOptimizerPro.EvaluationResult))
          (p : string) (N : Z) (w : world),
      (length (calls (snd (EvaluatorOptimizerPro.run_optimization_loop
                             create parse p N w)))
       <= length (calls w) + 6 * Z.to_nat N)%nat)
  /\
  EvaluatorOptimizerDemo.MAX_RETRIES = 5
  /\ EvaluatorOptimizerPro.default_max_retries = 6.
Proof.
  repeat match goal with |- _ /\ _ => split end.
  - intros client N cycles w Hlen Hans Hrej. split; [ | split].
    + eexists. rewrite (demo_main_exhausted client N cycles w Hlen Hans Hrej).
      rewrite demo_last_report. reflexivity.
    + rewrite demo_generator_invocations. exact Hlen.
    + rewrite length_demo_cycle_calls, Hlen. reflexivity.
  - intros client N before d e w Hlt Hans Hrej Happ. split.
    + exact (demo_main_approved client N before d e w Hlt Hans Hrej Happ).
    + rewrite demo_generator_invocations, length_app. cbn. lia.
  - intros create parse p N cycles w Hlen Hans Hrej. split; [ | split].
    + exact (pro_loop_exhausted create parse p N cycles w Hlen Hans Hrej).
    + rewrite pro_generator_invocations. exact Hlen.
    + rewrite length_pro_cycle_calls, Hlen. reflexivity.
  - intros create parse p N before d r w Hlt Hans Hrej Hok. split.
    + exact (pro_loop_approved create parse p N before d r w Hlt Hans Hrej Hok).
    + rewrite pro_generator_invocations, length_app. cbn. lia.
  - exact demo_main_bound.
  - exact pro_loop_bound.
  - reflexivity.
  - reflexivity.
Qed.

(** Discharges the hypotheses of a scripted run on a sample service. *)
Ltac sample_run :=
  first
    [ reflexivity
    | cbn; lia
    | repeat constructor; vm_compute; reflexivity
    | vm_compute; repeat split; intros; reflexivity ].

Lemma evaluator_optimizer_terminates_witness :
  ((exists lines,
       EvaluatorOptimizerDemo.main_with Samples.stubborn_reviewer 5 fresh =
         (Ret tt,
          said (called fresh (DemoRun.cycle_calls None Samples.stubborn_cycles))
            (lines ++ DemoRun.failure_prints
                        (List.last (map fst Samples.stubborn_cycles) ""))))
   /\ generator_invocations (DemoRun.cycle_calls None Samples.stubborn_cycles)
      = Z.to_nat 5
   /\ length (DemoRun.cycle_calls None Samples.stubborn_cycles) = (2 * Z.to_nat 5)%nat)
  /\
  ((exists lines,
       EvaluatorOptimizerDemo.main_with Samples.fourth_time_lucky 5 fresh =
         (Ret tt,
          said (called fresh
                  (DemoRun.cycle_calls None
                     (Samples.lucky_before ++ [("draft #6", "Approved. No issues.")])))
            (lines ++ DemoRun.approval_prints "draft #6")))
   /\ generator_invocations
        (DemoRun.cycle_calls None
           (Samples.lucky_before ++ [("draft #6", "Approved. No issues.")]))
      = S (length Samples.lucky_before)).
Proof.
  pose proof evaluator_optimizer_terminates as (Hrej & Happ & _).
  split.
  - apply (Hrej Samples.stubborn_reviewer 5 Samples.stubborn_cycles fresh);
      sample_run.
  - apply (Happ Samples.fourth_time_lucky 5 Samples.lucky_before
             "draft #6" "Approved. No issues." fresh); sample_run.
Defined.

(** C4 as stated fails on demo.py: [main] has no return statement and
    leaves the loop by [break], so an approved run returns nothing.  Two runs
    approved at their second cycle with different candidates return the same
    value; the candidate is only in what was printed. *)
Lemma approved_demo_run_returns_no_candidate :
  let run_A := EvaluatorOptimizerDemo.main
                 (MoreSamples.approved_second_time "draft A") fresh in
  let run_B := EvaluatorOptimizerDemo.main
                 (MoreSamples.approved_second_time "draft B") fresh in
  fst run_A = Ret tt /\ fst run_B = Ret tt
  /\ generator_invocations (calls (snd run_A)) = 2%nat
  /\ generator_invocations (calls (snd run_B)) = 2%nat
  /\ List.last (stdout (snd run_A)) "" = "draft A"
  /\ List.last (stdout (snd run_B)) "" = "draft B"
  /\ ~ exists recover : res unit -> string,
         recover (fst run_A) = "draft A" /\ recover (fst run_B) = "draft B".
Proof.
  cbv zeta.
  assert (HA : fst (EvaluatorOptimizerDemo.main
                      (MoreSamples.approved_second_time "draft A") fresh) = Ret tt)
    by (vm_compute; reflexivity).
  assert (HB : fst (EvaluatorOptimizerDemo.main
                      (MoreSamples.approved_second_time "draft B") fresh) = Ret tt)
    by (vm_compute; reflexivity).
  split; [exact HA | ]. split; [exact HB | ].
  split; [vm_compute; reflexivity | ]. split; [vm_compute; reflexivity | ].
  split; [vm_compute; reflexivity | ]. split; [vm_compute; reflexivity | ].
  intros (recover & RA & RB). rewrite HA in RA. rewrite HB in RB.
  rewrite RA in RB. discriminate.
Qed.





Section AgentMain.
Import BaseAgents AgentRun.

Variable client : endpoint string.
Variable worker : oracle string string.
Variable persona criteria : string.


End AgentMain.




Section Decisions.

(** A rejected evaluation never makes the single-interaction loop return. *)
Lemma agent_rejection_does_not_return
    (client : endpoint string) (worker : oracle string string)
    (persona criteria p : string) (i : Z) (l : BaseAgents.locals) (w : world)
    (response reply : string) (report : BaseAgents.evaluation_report) :
  (forall q, worker (length (calls w)) q = inr response) ->
  (forall q, client (S (length (calls w))) q = inr reply) ->
  BaseAgents.accepted (PyStr.strip reply) = false ->
  fst (BaseAgents.for_interactions client worker persona criteria p [i] l w)
  <> Ret (inl report).
Proof.
  intros Hw Hc Hrej. cbn [BaseAgents.for_interactions].
  unfold BaseAgents.respond, call.
  run_pure. rewrite (run_ask_ok _ _ _ response) by (rewrite !calls_said; apply Hw).
  run_pure. rewrite (run_ask_ok _ _ _ reply)
    by (rewrite !calls_said, length_calls_called_1, !calls_said; apply Hc).
  run_pure. cbn zeta. rewrite Hrej. run_pure.
  unfold bind at 1. rewrite run_ask.
  destruct (client _ _) as [e | fix_reply]; cbn [fst]; [discriminate | ].
  run_pure. unfold ret. cbn [fst]. discriminate.
Qed.

End Decisions.

(** C10.  Approval is a prefix test on the lower-cased, trimmed reply: the
    compliance loop approves exactly the evaluations that begin with some
    spelling of "approved", [EvaluationAgent] exactly those that begin with
    some spelling of "yes", whatever follows the token; "Not approved" is a
    rejection.  The loops branch on this test of the trimmed reply and on
    nothing else. *)
Theorem approval_is_a_prefix_test :
  (forall evaluation,
      EvaluatorOptimizerDemo.approved evaluation = true <->
      exists head tail,
        evaluation = head +:+ tail /\ PyStr.lower head = "approved")
  /\
  (forall evaluation,
      BaseAgents.accepted evaluation = true <->
      exists head tail, evaluation = head +:+ tail /\ PyStr.lower head = "yes")
  /\
  (forall tail,
      EvaluatorOptimizerDemo.approved ("approved" +:+ tail) = true /\
      EvaluatorOptimizerDemo.approved ("APPROVED" +:+ tail) = true)
  /\
  (forall tail,
      BaseAgents.accepted ("yes" +:+ tail) = true /\
      BaseAgents.accepted ("Yes" +:+ tail) = true)
  /\ EvaluatorOptimizerDemo.approved (PyStr.strip "Not approved") = false
  /\ BaseAgents.accepted (PyStr.strip "No. A yes would need sources.") = false
  /\ EvaluatorOptimizerDemo.approved
       (PyStr.strip ("  Approved, with thanks." +:+ new_line)) = true
  /\
  (forall (client : endpoint string) (a : Z) (l : EvaluatorOptimizerDemo.locals)
          (w : world) (d e : string),
      (forall q, client (length (calls w)) q = inr d) ->
      (forall q, client (S (length (calls w))) q = inr e) ->
      fst (EvaluatorOptimizerDemo.for_attempts client [a] l w) =
        Ret (EvaluatorOptimizerDemo.approved (PyStr.strip e),
             {| EvaluatorOptimizerDemo.report_text := d;
                EvaluatorOptimizerDemo.feedback :=
                  if EvaluatorOptimizerDemo.approved (PyStr.strip e)
                  then EvaluatorOptimizerDemo.feedback l
                  else Some (PyStr.strip e) |}))
  /\
  (forall (client : endpoint string) (worker : oracle string string)
          (persona criteria p : string) (i : Z) (l : BaseAgents.locals) (w : world)
          (response reply : string),
      (forall q, worker (length (calls w)) q = inr response) ->
      (forall q, client (S (length (calls w))) q = inr reply) ->
      ((exists report,
           fst (BaseAgents.for_interactions client worker persona criteria p [i] l w)
           = Ret (inl report))
       <-> BaseAgents.accepted (PyStr.strip reply) = true)).
Proof.
  repeat match goal with |- _ /\ _ => split end.
  - intros evaluation. apply lower_startswith_spec.
  - intros evaluation. apply lower_startswith_spec.
  - intros tail. split; apply lower_startswith_spec;
      eexists _, tail; split; reflexivity.
  - intros tail. split; apply lower_startswith_spec;
      eexists _, tail; split; reflexivity.
  - vm_compute. reflexivity.
  - vm_compute. reflexivity.
  - vm_compute. reflexivity.
  - intros client a l w d e Hd He.
    rewrite (demo_cycle client a [] l w d e Hd He). cbn zeta.
    destruct (EvaluatorOptimizerDemo.approved (PyStr.strip e)); reflexivity.
  - intros client worker persona criteria p i l w response reply Hw Hc. split.
    + intros [report Hret].
      destruct (BaseAgents.accepted (PyStr.strip reply)) eqn:Hacc; [reflexivity | ].
      exfalso. revert Hret.
      apply (agent_rejection_does_not_return client worker persona criteria p i l w
               response reply report Hw Hc Hacc).
    + intros Hacc.
      destruct (agent_accepting_interaction client worker persona criteria p i [] l w
                  response reply Hw Hc Hacc) as (w' & Hrun & _).
      eexists. rewrite Hrun. reflexivity.
Qed.

Lemma approval_is_a_prefix_test_witness :
  fst (EvaluatorOptimizerDemo.for_attempts Samples.stubborn_reviewer [0]
         DemoRun.start fresh) =
    Ret (EvaluatorOptimizerDemo.approved
           (PyStr.strip "Needs revision: remove projections."),
         {| EvaluatorOptimizerDemo.report_text := "draft";
            EvaluatorOptimizerDemo.feedback :=
              if EvaluatorOptimizerDemo.approved
                   (PyStr.strip "Needs revision: remove projections.")
              then EvaluatorOptimizerDemo.feedback DemoRun.start
              else Some (PyStr.strip "Needs revision: remove projections.") |}).
Proof.
  pose proof approval_is_a_prefix_test as (_ & _ & _ & _ & _ & _ & _ & Hdemo & _).
  apply (Hdemo Samples.stubborn_reviewer 0 DemoRun.start fresh
           "draft" "Needs revision: remove projections."); intros; reflexivity.
Defined.

(** ** The claims pipeline of claims_processor.py *)

Lemma bind_ret_inv {A B} (m : M A) (k : A -> M B) (w w' : world) (b : B) :
  bind m k w = (Ret b, w') ->
  exists a w1, m w = (Ret a, w1) /\ k a w1 = (Ret b, w').
Proof.
  unfold bind. destruct (m w) as [[a | e] w1]; intros H; [eauto | discriminate].
Qed.

Lemma try_except_returns {A} (body : M A) (handler : exn -> A) (w : world) :
  exists a w',
    try_except body (fun e => ret (handler e)) w = (Ret a, w') /\
    (body w = (Ret a, w') \/ exists e, body w = (Raise e, w') /\ a = handler e).
Proof.
  unfold try_except. destruct (body w) as [[a | e] w'] eqn:E.
  - exists a, w'. auto.
  - exists (handler e), w'. split; [reflexivity | right; eauto].
Qed.

Section PipelineFacts.
Import ClaimsWorkflow PipelineRun.

Variable chat : endpoint string.
Variable load_ClaimInformation : string -> exn + ClaimInformation.
Variable load_SeverityAssessment : string -> exn + SeverityAssessment.
Variable load_ClaimRouting : string -> exn + ClaimRouting.
Variable model_dump_json : ClaimInformation -> string.
Variable dumps_routing_input : ClaimInformation -> SeverityAssessment -> string.
Variable format_float : pyfloat -> string.
Variable P1 P2 P3 DEFAULT_MODEL : string.

Let step := node_function chat load_ClaimInformation load_SeverityAssessment
              load_ClaimRouting model_dump_json dumps_routing_input format_float
              P1 P2 P3 DEFAULT_MODEL.
Let run := run_from chat load_ClaimInformation load_SeverityAssessment
             load_ClaimRouting model_dump_json dumps_routing_input format_float
             P1 P2 P3 DEFAULT_MODEL.

(** Peels the binds of a [try] body that returned. *)
Ltac peel H :=
  repeat (let a := fresh "a" in let w1 := fresh "w" in
          let H1 := fresh "H" in
          apply bind_ret_inv in H as (a & w1 & H1 & H)).

(** Every step returns: with the update of a success, or with the failure
    update built from the exception it caught.  (The steps after extraction
    read [claim_info] before their [try].) *)
Lemma step_returns (n : node) (s : ClaimState) (w : world) :
  (n <> extract_claim -> claim_info s <> None) ->
  exists u w',
    step n s w = (Ret u, w') /\
    (success_update n u \/ exists e, u = failure_update s (failure_label n) e).
Proof.
  intros Hinfo. unfold step. destruct n; cbn [node_function].
  - unfold extract_claim_node.
    match goal with
    | |- context [try_except ?b (fun e => ret (@?h e))] =>
        destruct (try_except_returns b h w) as (u & w' & Hrun & Hcase)
    end.
    exists u, w'. split; [exact Hrun | ].
    destruct Hcase as [Hbody | (e & _ & ->)]; [left | right; eauto].
    peel Hbody. inversion Hbody; subst. repeat split. discriminate.
  - destruct (claim_info s) as [info | ] eqn:Hci; [ | exfalso; apply Hinfo; congruence].
    unfold assess_severity_node. rewrite Hci. cbn [subscript lift]. rewrite run_ret.
    match goal with
    | |- context [try_except ?b (fun e => ret (@?h e))] =>
        destruct (try_except_returns b h w) as (u & w' & Hrun & Hcase)
    end.
    exists u, w'. split; [exact Hrun | ].
    destruct Hcase as [Hbody | (e & _ & ->)]; [left | right; eauto].
    peel Hbody. inversion Hbody; subst. repeat split.
  - destruct (claim_info s) as [info | ] eqn:Hci; [ | exfalso; apply Hinfo; congruence].
    unfold route_claim_node. rewrite Hci. cbn [subscript lift]. rewrite run_ret.
    match goal with
    | |- context [try_except ?b (fun e => ret (@?h e))] =>
        destruct (try_except_returns b h w) as (u & w' & Hrun & Hcase)
    end.
    exists u, w'. split; [exact Hrun | ].
    destruct Hcase as [Hbody | (e & _ & ->)]; [left | right; eauto].
    peel Hbody. inversion Hbody; subst. repeat split.
Qed.

Lemma get_errors_overwrite (s : ClaimState) (u : Update) :
  get_errors (merge s u) =
  match upd_errors u with Some l => l | None => get_errors s end.
Proof. unfold get_errors, merge. cbn. destruct (upd_errors u); reflexivity. Qed.

(** Every step returns, and its merged update has the effect of a step. *)
Lemma step_then_merge (n : node) (s : ClaimState) (w : world) :
  (n <> extract_claim -> claim_info s <> None) ->
  exists u w',
    step n s w = (Ret u, w') /\
    step_effect n s (merge s u) /\
    (n = extract_claim -> status (merge s u) = Some "claim_extracted" ->
     claim_info (merge s u) <> None).
Proof.
  intros Hinfo. destruct (step_returns n s w Hinfo) as (u & w' & Hrun & Hcase).
  exists u, w'. split; [exact Hrun | ].
  destruct Hcase as [(Hst & Herr & Hfields) | (e & ->)].
  - split.
    + unfold step_effect. rewrite get_errors_overwrite, Herr.
      split; [exists []; rewrite app_nil_r; reflexivity | ].
      split; [ | split; [reflexivity | split; [reflexivity | ]]].
      * destruct n; cbn; [destruct Hfields as (_ & -> & ->)
                         | destruct Hfields as (-> & ->)
                         | destruct Hfields as (-> & ->)]; split; reflexivity.
      * left. cbn. rewrite Hst. reflexivity.
    + intros -> _. cbn. destruct Hfields as (Hci & _).
      destruct (upd_claim_info u); [discriminate | congruence].
  - split.
    + unfold step_effect. rewrite get_errors_overwrite. cbn [failure_update upd_errors].
      split; [eexists; reflexivity | ].
      split; [destruct n; split; reflexivity | ].
      split; [reflexivity | split; [reflexivity | right; reflexivity]].
    + intros _ Hst. cbn in Hst. discriminate.
Qed.

Lemma edge_of_failed (n : node) (s : ClaimState) :
  status s = Some "failed" -> edge n s = inr END.
Proof.
  intros H. destruct n; unfold edge, should_continue; rewrite ?H; reflexivity.
Qed.

(** [graph.invoke] always returns, in one of the three shapes. *)
Lemma invoke_shape (input : ClaimState) (w : world) :
  exists visited final w',
    invoke chat load_ClaimInformation load_SeverityAssessment load_ClaimRouting
      model_dump_json dumps_routing_input format_float P1 P2 P3 DEFAULT_MODEL
      input w = (Ret (visited, final), w')
    /\ pipeline_shape input visited final.
Proof.
  unfold invoke, recursion_limit, START. fold run.
  destruct (step_then_merge extract_claim input w) as (u1 & w1 & Hrun1 & Heff1 & Hci1);
    [congruence | ].
  unfold run. cbn [run_from]. fold step. fold run.
  unfold bind at 1. rewrite Hrun1.
  set (s1 := merge input u1) in *.
  pose proof Heff1 as (He1 & Hf1 & Hfn1 & Hm1 & [Hst1 | Hst1]).
  2: { rewrite (edge_of_failed extract_claim s1 Hst1). cbn [lift]. rewrite run_ret.
       eexists _, _, _. split; [reflexivity | ].
       apply stopped_at_extraction; [exact Heff1 | exact Hst1]. }
  assert (Hedge1 : edge extract_claim s1 = inr (Goto assess_severity))
    by (unfold edge, should_continue; rewrite Hst1; reflexivity).
  rewrite Hedge1. cbn [lift]. rewrite run_ret.
  destruct (step_then_merge assess_severity s1 w1) as (u2 & w2 & Hrun2 & Heff2 & _);
    [intros _; apply Hci1; [reflexivity | exact Hst1] | ].
  unfold run. cbn [run_from]. fold step. fold run.
  unfold bind at 1. rewrite Hrun2.
  set (s2 := merge s1 u2) in *.
  pose proof Heff2 as (He2 & Hf2 & Hfn2 & Hm2 & [Hst2 | Hst2]).
  2: { rewrite (edge_of_failed assess_severity s2 Hst2). cbn [lift]. rewrite run_ret.
       eexists _, _, _. split; [reflexivity | ].
       apply stopped_at_assessment; auto. }
  assert (Hedge2 : edge assess_severity s2 = inr (Goto route_claim))
    by (unfold edge, should_continue; rewrite Hst2; reflexivity).
  rewrite Hedge2. cbn [lift]. rewrite run_ret.
  destruct (step_then_merge route_claim s2 w2) as (u3 & w3 & Hrun3 & Heff3 & _).
  { intros _. destruct Hf2 as (Hci2 & _). rewrite Hci2.
    apply Hci1; [reflexivity | exact Hst1]. }
  unfold run. cbn [run_from]. fold step.
  unfold bind at 1. rewrite Hrun3. cbn [edge lift]. rewrite run_ret.
  eexists _, _, _. split; [reflexivity | ].
  apply ran_to_routing; auto.
Qed.

End PipelineFacts.

Section PipelineTheorems.
Import ClaimsWorkflow PipelineRun.

Lemma should_continue_spec (s : ClaimState) :
  should_continue s =
    match status s with
    | Some st => inr (if String.eqb st "failed" then "end" else "continue")
    | None => inl (Exn KeyError "'status'")
    end.
Proof.
  unfold should_continue. destruct (status s) as [st | ]; cbn; [ | reflexivity].
  destruct (String.eqb st "failed"); reflexivity.
Qed.

Lemma shape_fail_fast (input final : ClaimState) (visited : list (node * ClaimState)) :
  pipeline_shape input visited final ->
  (exists ran, (1 <= ran)%nat /\ map fst visited = take ran declared_order)
  /\ (forall before n s after,
         visited = before ++ (n, s) :: after ->
         status s = Some "failed" -> after = [] /\ final = s)
  /\ (status final = Some "failed"
      \/ (map fst visited = declared_order /\ status final = Some "completed"))
  /\ ((length visited < 3)%nat -> status final = Some "failed").
Proof.
  intros Hshape. inversion Hshape as
    [ s1 He1 Hs1 | s1 s2 He1 Hs1 He2 Hs2 | s1 s2 s3 He1 Hs1 He2 Hs2 He3 ]; subst.
  - split; [exists 1%nat; split; [lia | reflexivity] | ].
    split; [ | split; [left; exact Hs1 | intros _; exact Hs1]].
    intros before n s after Heq Hst.
    destruct before as [ | x before]; cbn in Heq.
    + inversion Heq; subst. auto.
    + inversion Heq as [[Hx Hrest]]. destruct before; discriminate.
  - split; [exists 2%nat; split; [lia | reflexivity] | ].
    split; [ | split; [left; exact Hs2 | intros _; exact Hs2]].
    intros before n s after Heq Hst.
    destruct before as [ | x before]; cbn in Heq.
    + inversion Heq; subst. congruence.
    + inversion Heq as [[Hx Hrest]].
      destruct before as [ | y before]; cbn in Hrest.
      * inversion Hrest; subst. auto.
      * inversion Hrest as [[Hy Hrest']]. destruct before; discriminate.
  - split; [exists 3%nat; split; [lia | reflexivity] | ].
    split; [ | split].
    + intros before n s after Heq Hst.
      destruct before as [ | x before]; cbn in Heq.
      * inversion Heq; subst. congruence.
      * inversion Heq as [[Hx Hrest]].
        destruct before as [ | y before]; cbn in Hrest.
        -- inversion Hrest; subst. congruence.
        -- inversion Hrest as [[Hy Hrest']].
           destruct before as [ | z before]; cbn in Hrest'.
           ++ inversion Hrest'; subst. auto.
           ++ inversion Hrest' as [[Hz Hrest'']]. destruct before; discriminate.
    + destruct He3 as (_ & _ & _ & _ & [Hs3 | Hs3]); [right | left]; auto.
    + cbn. lia.
Qed.

(** C2.  [should_continue] answers "end" exactly when the status is
    "failed" and "continue" for every other status; and in every run of the
    graph, once a step has left the status "failed" no later step of the
    declared order runs and the record returned is that failed record. *)
Theorem fail_fast_propagation :
  (forall s : ClaimState,
      should_continue s =
        match status s with
        | Some st => inr (if String.eqb st "failed" then "end" else "continue")
        | None => inl (Exn KeyError "'status'")
        end)
  /\
  (forall (s : ClaimState) (st : string),
      status s = Some st ->
      (should_continue s = inr "end" <-> st = "failed")
      /\ (should_continue s = inr "continue" <-> st <> "failed"))
  /\
  (forall (chat : endpoint string)
          (load_ClaimInformation : string -> exn + ClaimInformation)
          (load_SeverityAssessment : string -> exn + SeverityAssessment)
          (load_ClaimRouting : string -> exn + ClaimRouting)
          (model_dump_json : ClaimInformation -> string)
          (dumps_routing_input : ClaimInformation -> SeverityAssessment -> string)
          (format_float : pyfloat -> string)
          (P1 P2 P3 DEFAULT_MODEL : string)
          (input : ClaimState) (w : world),
      exists visited final w',
        invoke chat load_ClaimInformation load_SeverityAssessment load_ClaimRouting
          model_dump_json dumps_routing_input format_float P1 P2 P3 DEFAULT_MODEL
          input w = (Ret (visited, final), w')
        /\ (exists ran, (1 <= ran)%nat /\ map fst visited = take ran declared_order)
        /\ (forall before n s after,
               visited = before ++ (n, s) :: after ->
               status s = Some "failed" -> after = [] /\ final = s)
        /\ (status final = Some "failed"
            \/ (map fst visited = declared_order /\ status final = Some "completed"))
        /\ ((length visited < 3)%nat -> status final = Some "failed")).
Proof.
  split; [exact should_continue_spec | split].
  - intros s st Hst. rewrite should_continue_spec, Hst.
    destruct (String.eqb_spec st "failed") as [-> | Hne]; split; split;
      intros H; try reflexivity; try congruence; try discriminate.
  - intros. destruct (invoke_shape chat load_ClaimInformation load_SeverityAssessment
                        load_ClaimRouting model_dump_json dumps_routing_input
                        format_float P1 P2 P3 DEFAULT_MODEL input w)
      as (visited & final & w' & Hrun & Hshape).
    exists visited, final, w'. split; [exact Hrun | ].
    exact (shape_fail_fast input final visited Hshape).
Qed.

End PipelineTheorems.

Lemma fail_fast_propagation_witness :
  (ClaimsWorkflow.should_continue Samples.failed_notice = inr "end"
   <-> "failed" = "failed")
  /\ (ClaimsWorkflow.should_continue Samples.failed_notice = inr "continue"
      <-> "failed" <> "failed").
Proof.
  pose proof fail_fast_propagation as (_ & Hcontinue & _).
  apply (Hcontinue Samples.failed_notice "failed"). reflexivity.
Defined.

Section InvariantTheorems.
Import ClaimsWorkflow PipelineRun.

Lemma effect_is_ok (n : node) (s s' : ClaimState) :
  step_effect n s s' ->
  status s <> Some "failed" ->
  (stage (status s) <= stage (Some (success_status n)))%nat ->
  step_ok n s s'.
Proof.
  intros (Herr & Hf & Hfn & Hm & Hst) Hnf Hstage.
  unfold step_ok. repeat split; auto.
  destruct Hst as [-> | ->]; [left; exact Hstage | right; reflexivity].
Qed.

Lemma shape_invariants (input final : ClaimState) (visited : list (node * ClaimState)) :
  pipeline_shape input visited final ->
  (stage (status input) = 0)%nat ->
  status input <> Some "failed" ->
  steps_ok input visited
  /\ NoDup (map fst visited)
  /\ (forall s, In (extract_claim, s) visited -> claim_info final = claim_info s)
  /\ (forall s, In (assess_severity, s) visited ->
                state_severity final = state_severity s)
  /\ (forall s, In (route_claim, s) visited -> routing final = routing s).
Proof.
  intros Hshape Hstage Hnf. inversion Hshape as
    [ s1 He1 Hs1 | s1 s2 He1 Hs1 He2 Hs2 | s1 s2 s3 He1 Hs1 He2 Hs2 He3 ]; subst.
  - split; [ | split; [ | repeat split]].
    + cbn. split; [ | exact I]. apply effect_is_ok; auto. rewrite Hstage. lia.
    + cbn. repeat constructor; rewrite ?elem_of_cons, ?elem_of_nil; intuition discriminate.
    + intros s [H | []]. inversion H; subst. reflexivity.
    + intros s [H | []]. discriminate.
    + intros s [H | []]. discriminate.
  - split; [ | split; [ | repeat split]].
    + cbn. split; [ | split; [ | exact I]].
      * apply effect_is_ok; auto. rewrite Hstage. lia.
      * apply effect_is_ok; auto; rewrite Hs1; [discriminate | cbn; lia].
    + cbn. repeat constructor; rewrite ?elem_of_cons, ?elem_of_nil; intuition discriminate.
    + intros s [H | [H | []]]; inversion H; subst.
      destruct He2 as (_ & (Hci & _) & _). exact Hci.
    + intros s [H | [H | []]]; inversion H; subst. reflexivity.
    + intros s [H | [H | []]]; discriminate.
  - split; [ | split; [ | repeat split]].
    + cbn. split; [ | split; [ | split; [ | exact I]]].
      * apply effect_is_ok; auto. rewrite Hstage. lia.
      * apply effect_is_ok; auto; rewrite Hs1; [discriminate | cbn; lia].
      * apply effect_is_ok; auto; rewrite Hs2; [discriminate | cbn; lia].
    + cbn. repeat constructor; rewrite ?elem_of_cons, ?elem_of_nil; intuition discriminate.
    + intros s [H | [H | [H | []]]]; inversion H; subst.
      destruct He2 as (_ & (Hci2 & _) & _). destruct He3 as (_ & (Hci3 & _) & _).
      congruence.
    + intros s [H | [H | [H | []]]]; inversion H; subst.
      destruct He3 as (_ & (_ & Hsev3) & _). exact Hsev3.
    + intros s [H | [H | [H | []]]]; inversion H; subst. reflexivity.
Qed.

(** C9.  In every run of the claims pipeline that starts from a record that
    has not failed and whose status is before extraction, every step keeps
    the Case Record invariants: the errors list only grows by appending;
    a step changes no structured field but its own, each step runs at most
    once, and the value the record is returned with is the one the owning
    step left; the status moves forward along
    pending, claim_extracted, severity_assessed, completed, or to "failed",
    and no step runs from "failed". *)
Theorem steps_preserve_case_record_invariants
    (chat : endpoint string)
    (load_ClaimInformation : string -> exn + ClaimInformation)
    (load_SeverityAssessment : string -> exn + SeverityAssessment)
    (load_ClaimRouting : string -> exn + ClaimRouting)
    (model_dump_json : ClaimInformation -> string)
    (dumps_routing_input : ClaimInformation -> SeverityAssessment -> string)
    (format_float : pyfloat -> string)
    (P1 P2 P3 DEFAULT_MODEL : string)
    (input : ClaimState) (w : world) :
  (stage (status input) = 0)%nat ->
  status input <> Some "failed" ->
  exists visited final w',
    invoke chat load_ClaimInformation load_SeverityAssessment load_ClaimRouting
      model_dump_json dumps_routing_input format_float P1 P2 P3 DEFAULT_MODEL
      input w = (Ret (visited, final), w')
    /\ steps_ok input visited
    /\ NoDup (map fst visited)
    /\ (forall s, In (extract_claim, s) visited -> claim_info final = claim_info s)
    /\ (forall s, In (assess_severity, s) visited ->
                  state_severity final = state_severity s)
    /\ (forall s, In (route_claim, s) visited -> routing final = routing s).
Proof.
  intros Hstage Hnf.
  destruct (invoke_shape chat load_ClaimInformation load_SeverityAssessment
              load_ClaimRouting model_dump_json dumps_routing_input
              format_float P1 P2 P3 DEFAULT_MODEL input w)
    as (visited & final & w' & Hrun & Hshape).
  exists visited, final, w'. split; [exact Hrun | ].
  exact (shape_invariants input final visited Hshape Hstage Hnf).
Qed.

End InvariantTheorems.

Lemma steps_preserve_case_record_invariants_witness :
  exists visited final w',
    ClaimsWorkflow.invoke Samples.chatty Samples.not_json Samples.not_json
      Samples.not_json (fun _ => "{}") (fun _ _ => "{}") (fun _ => "0.0")
      "extract" "assess" "route" "gpt-4.1-nano" Samples.first_notice fresh
    = (Ret (visited, final), w')
    /\ PipelineRun.steps_ok Samples.first_notice visited
    /\ NoDup (map fst visited)
    /\ (forall s, In (ClaimsWorkflow.extract_claim, s) visited ->
                  ClaimsWorkflow.claim_info final = ClaimsWorkflow.claim_info s)
    /\ (forall s, In (ClaimsWorkflow.assess_severity, s) visited ->
                  ClaimsWorkflow.state_severity final = ClaimsWorkflow.state_severity s)
    /\ (forall s, In (ClaimsWorkflow.route_claim, s) visited ->
                  ClaimsWorkflow.routing final = ClaimsWorkflow.routing s).
Proof.
  apply (steps_preserve_case_record_invariants Samples.chatty Samples.not_json
           Samples.not_json Samples.not_json (fun _ => "{}") (fun _ _ => "{}")
           (fun _ => "0.0") "extract" "assess" "route" "gpt-4.1-nano"
           Samples.first_notice fresh).
  - reflexivity.
  - discriminate.
Defined.

(** ** The retrying extraction node of chaining-prompting_langgraph.py *)

Section RetryFacts.
Import ChainingLangGraph RetryRun.

Variable chat : endpoint string.
Variable load : string -> exn + ClaimInformation.
Variable prompt : string.

Let node := extract_claim_node chat load prompt.

(** The node, as the source reads. *)
Lemma extract_claim_node_unfold (state : ClaimWorkflowState) (w : world) :
  node state w =
    match extraction_attempt chat load prompt state w with
    | (Ret info, w1) => (Ret (with_claim state info), w1)
    | (Raise e, w1) =>
        let failed := record_failure state ("Extraction error: " +:+ exn_str e) in
        if Z_lt_dec (retry_count failed) 3
        then node failed w1
        else (Ret (with_status failed "failed"), w1)
    end.
Proof.
  unfold node. simp extract_claim_node.
  destruct (extraction_attempt chat load prompt state w) as [[info | e] w1]; cbn.
  - reflexivity.
  - destruct (Z_lt_dec _ 3); reflexivity.
Qed.

(** One attempt: a call, then the gate. *)
Lemma extraction_attempt_spec (state : ClaimWorkflowState) (w : world) :
  extraction_attempt chat load prompt state w =
    (match chat (length (calls w)) (extraction_request prompt state) with
     | inl e => Raise (Exn RuntimeError ("API error: " +:+ exn_str e))
     | inr text =>
         match load text with
         | inl e => Raise (Exn ValueError ("Invalid claim format: " +:+ exn_str e))
         | inr info => Ret info
         end
     end,
     called w [ApiCall (extraction_request prompt state)]).
Proof.
  unfold extraction_attempt, get_completion, gate1_validate_claims_info.
  cbn [app]. unfold bind, try_except, call. rewrite run_ask.
  fold (extraction_request prompt state).
  destruct (chat _ _) as [e | text]; [reflexivity | ].
  cbn. destruct (load text); reflexivity.
Qed.

(** A failed attempt below the bound is followed by another attempt, with
    the failure recorded and the counter raised. *)
Lemma failed_attempt_retries (state : ClaimWorkflowState) (w : world) (entry : string) :
  failure_text chat load (length (calls w)) (extraction_request prompt state)
    = Some entry ->
  retry_count state + 1 < 3 ->
  node state w =
    node (record_failure state entry)
      (called w [ApiCall (extraction_request prompt state)]).
Proof.
  intros Hfail Hlt. rewrite extract_claim_node_unfold, extraction_attempt_spec.
  unfold failure_text in Hfail.
  destruct (chat _ _) as [e | text].
  - inversion Hfail; subst. cbn zeta.
    destruct (Z_lt_dec _ 3) as [_ | Hge]; [reflexivity | ].
    exfalso. apply Hge. cbn. exact Hlt.
  - destruct (load text) as [e | info]; [ | discriminate].
    inversion Hfail; subst. cbn zeta.
    destruct (Z_lt_dec _ 3) as [_ | Hge]; [reflexivity | ].
    exfalso. apply Hge. cbn. exact Hlt.
Qed.

(** A failed attempt that reaches the bound ends the node with "failed". *)
Lemma failed_attempt_gives_up (state : ClaimWorkflowState) (w : world) (entry : string) :
  failure_text chat load (length (calls w)) (extraction_request prompt state)
    = Some entry ->
  3 <= retry_count state + 1 ->
  node state w =
    (Ret (given_up state [entry]),
     called w [ApiCall (extraction_request prompt state)]).
Proof.
  intros Hfail Hge. rewrite extract_claim_node_unfold, extraction_attempt_spec.
  unfold failure_text in Hfail.
  destruct (chat _ _) as [e | text].
  - inversion Hfail; subst. cbn zeta.
    destruct (Z_lt_dec _ 3) as [Hlt | _]; [cbn in Hlt; lia | reflexivity].
  - destruct (load text) as [e | info]; [ | discriminate].
    inversion Hfail; subst. cbn zeta.
    destruct (Z_lt_dec _ 3) as [Hlt | _]; [cbn in Hlt; lia | reflexivity].
Qed.

(** When every attempt fails, the node makes exactly as many calls as the
    counter is short of 3, records each failure and returns "failed". *)
Lemma all_attempts_fail (entries : list string) :
  forall (state : ClaimWorkflowState) (w : world),
    entries <> [] ->
    retry_count state + Z.of_nat (length entries) = 3 ->
    (forall i entry,
        entries !! i = Some entry ->
        failure_text chat load (length (calls w) + i)
          (extraction_request prompt state) = Some entry) ->
    node state w =
      (Ret (given_up state entries),
       called w (replicate (length entries) (ApiCall (extraction_request prompt state)))).
Proof.
  induction entries as [ | entry entries IH]; intros state w Hne Hcount Hfail;
    [congruence | ].
  assert (Hfirst : failure_text chat load (length (calls w))
                     (extraction_request prompt state) = Some entry).
  { rewrite <- (Nat.add_0_r (length (calls w))). apply Hfail. reflexivity. }
  destruct entries as [ | entry' entries].
  - apply failed_attempt_gives_up; [exact Hfirst | cbn in Hcount; lia].
  - rewrite (failed_attempt_retries state w entry Hfirst)
      by (cbn [length] in Hcount; lia).
    rewrite IH; [ | discriminate | cbn [length] in *; cbn; lia | ].
    + f_equal.
      * unfold given_up. cbn [record_failure fnol claim_info state_severity routing
                               errors retry_count model].
        rewrite <- app_assoc. cbn [app length]. do 2 f_equal. lia.
      * rewrite called_called. reflexivity.
    + intros i e Hi.
      change (extraction_request prompt (record_failure state entry))
        with (extraction_request prompt state).
      rewrite length_calls_called_1.
      replace (S (length (calls w)) + i)%nat with (length (calls w) + S i)%nat by lia.
      apply Hfail. exact Hi.
Qed.

End RetryFacts.

Section RetryTheorems.
Import ChainingLangGraph RetryRun.

(** Three failed attempts from [retry_count = 0]. *)
Lemma three_failed_attempts
    (chat : endpoint string) (load : string -> exn + ClaimInformation)
    (prompt : string) (state : ClaimWorkflowState) (w : world) (m0 m1 m2 : string) :
  retry_count state = 0 ->
  failure_text chat load (length (calls w)) (extraction_request prompt state) = Some m0 ->
  failure_text chat load (length (calls w) + 1) (extraction_request prompt state) = Some m1 ->
  failure_text chat load (length (calls w) + 2) (extraction_request prompt state) = Some m2 ->
  extract_claim_node chat load prompt state w =
    (Ret (given_up state [m0; m1; m2]),
     called w (replicate 3 (ApiCall (extraction_request prompt state)))).
Proof.
  intros Hcount H0 H1 H2.
  apply (all_attempts_fail chat load prompt [m0; m1; m2] state w).
  - discriminate.
  - rewrite Hcount. reflexivity.
  - intros [ | [ | [ | i]]] entry Hi; cbn in Hi; inversion Hi; subst.
    + rewrite Nat.add_0_r. exact H0.
    + exact H1.
    + exact H2.
Qed.

(** C3.  When the gate rejects every response, [extract_claim_node] started
    with [retry_count = 0] calls the Completion Service exactly three times
    and returns status "failed" on the third rejection, with the three
    validation errors recorded. *)
Theorem retry_bound_respected
    (chat : endpoint string) (load : string -> exn + ClaimInformation)
    (prompt : string) (state : ClaimWorkflowState) (w : world) :
  retry_count state = 0 ->
  (forall n q, exists text e, chat n q = inr text /\ load text = inl e) ->
  exists final w' entries,
    extract_claim_node chat load prompt state w = (Ret final, w')
    /\ status final = "failed"
    /\ retry_count final = 3
    /\ calls w' = calls w ++ replicate 3 (ApiCall (extraction_request prompt state))
    /\ length (calls w') = (length (calls w) + 3)%nat
    /\ errors final = errors state ++ entries
    /\ length entries = 3%nat
    /\ Forall (fun entry =>
                 exists e, entry = "Extraction error: Invalid claim format: " +:+ exn_str e)
         entries.
Proof.
  intros Hcount Hrej.
  assert (Hentry : forall n, exists e,
             failure_text chat load n (extraction_request prompt state)
             = Some ("Extraction error: Invalid claim format: " +:+ exn_str e)).
  { intros n. destruct (Hrej n (extraction_request prompt state)) as (text & e & Hc & Hl).
    exists e. unfold failure_text. rewrite Hc, Hl. reflexivity. }
  destruct (Hentry (length (calls w))) as (e0 & H0).
  destruct (Hentry (length (calls w) + 1)%nat) as (e1 & H1).
  destruct (Hentry (length (calls w) + 2)%nat) as (e2 & H2).
  eexists _, _, _. split;
    [exact (three_failed_attempts chat load prompt state w _ _ _ Hcount H0 H1 H2) | ].
  cbn [given_up status retry_count errors length calls called].
  repeat split; try reflexivity.
  - rewrite Hcount. reflexivity.
  - rewrite length_app. reflexivity.
  - repeat constructor; eauto.
Qed.

(** C8 (as amended).  A transport failure is caught by the node like any
    other exception: below the bound the node records it, raises
    [retry_count] and calls the service again; when the transport fails on
    every call, the service is called exactly three times and the node
    returns status "failed" with three "API error" entries.  Nothing is
    raised to the pipeline. *)
Theorem transport_failures_are_retried
    (chat : endpoint string) (load : string -> exn + ClaimInformation)
    (prompt : string) (state : ClaimWorkflowState) (w : world) :
  retry_count state = 0 ->
  (forall n q, exists e, chat n q = inl e) ->
  (exists e,
      chat (length (calls w)) (extraction_request prompt state) = inl e /\
      extract_claim_node chat load prompt state w =
        extract_claim_node chat load prompt
          (record_failure state ("Extraction error: API error: " +:+ exn_str e))
          (called w [ApiCall (extraction_request prompt state)]))
  /\
  exists final w' entries,
    extract_claim_node chat load prompt state w = (Ret final, w')
    /\ status final = "failed"
    /\ retry_count final = 3
    /\ calls w' = calls w ++ replicate 3 (ApiCall (extraction_request prompt state))
    /\ errors final = errors state ++ entries
    /\ length entries = 3%nat
    /\ Forall (fun entry =>
                 exists e, entry = "Extraction error: API error: " +:+ exn_str e)
         entries.
Proof.
  intros Hcount Hdown.
  assert (Hentry : forall n, exists e,
             chat n (extraction_request prompt state) = inl e /\
             failure_text chat load n (extraction_request prompt state)
             = Some ("Extraction error: API error: " +:+ exn_str e)).
  { intros n. destruct (Hdown n (extraction_request prompt state)) as (e & Hc).
    exists e. split; [exact Hc | ]. unfold failure_text. rewrite Hc. reflexivity. }
  destruct (Hentry (length (calls w))) as (e0 & Hc0 & H0).
  destruct (Hentry (length (calls w) + 1)%nat) as (e1 & _ & H1).
  destruct (Hentry (length (calls w) + 2)%nat) as (e2 & _ & H2).
  split.
  - exists e0. split; [exact Hc0 | ].
    apply failed_attempt_retries; [exact H0 | rewrite Hcount; reflexivity].
  - eexists _, _, _. split;
      [exact (three_failed_attempts chat load prompt state w _ _ _ Hcount H0 H1 H2) | ].
    cbn [given_up status retry_count errors length calls called].
    repeat split; try reflexivity.
    + rewrite Hcount. reflexivity.
    + repeat constructor; eauto.
Qed.

End RetryTheorems.

Lemma retry_bound_respected_witness :
  exists final w' entries,
    ChainingLangGraph.extract_claim_node Samples.chatty Samples.not_json
      "Extract the claim." Samples.processing fresh = (Ret final, w')
    /\ ChainingLangGraph.status final = "failed"
    /\ ChainingLangGraph.retry_count final = 3
    /\ calls w' =
       calls fresh
       ++ replicate 3 (ApiCall (RetryRun.extraction_request "Extract the claim."
                                  Samples.processing))
    /\ length (calls w') = (length (calls fresh) + 3)%nat
    /\ ChainingLangGraph.errors final = ChainingLangGraph.errors Samples.processing ++ entries
    /\ length entries = 3%nat
    /\ Forall (fun entry =>
                 exists e, entry = "Extraction error: Invalid claim format: " +:+ exn_str e)
         entries.
Proof.
  apply (retry_bound_respected Samples.chatty Samples.not_json
           "Extract the claim." Samples.processing fresh).
  - reflexivity.
  - intros n q. eexists _, _. split; reflexivity.
Defined.

Lemma transport_failures_are_retried_witness :
  exists final w' entries,
    ChainingLangGraph.extract_claim_node Samples.down Samples.not_json
      "Extract the claim." Samples.processing fresh = (Ret final, w')
    /\ ChainingLangGraph.status final = "failed"
    /\ ChainingLangGraph.retry_count final = 3
    /\ calls w' =
       calls fresh
       ++ replicate 3 (ApiCall (RetryRun.extraction_request "Extract the claim."
                                  Samples.processing))
    /\ ChainingLangGraph.errors final = ChainingLangGraph.errors Samples.processing ++ entries
    /\ length entries = 3%nat
    /\ Forall (fun entry =>
                 exists e, entry = "Extraction error: API error: " +:+ exn_str e)
         entries.
Proof.
  apply (transport_failures_are_retried Samples.down Samples.not_json
           "Extract the claim." Samples.processing fresh).
  - reflexivity.
  - intros n q. eexists. reflexivity.
Defined.

(** C8 as stated fails: with the transport down, the first call of the
    node fails, yet the node calls the service two more times and returns a
    state instead of raising. *)
Lemma transport_failure_is_not_propagated :
  let run := ChainingLangGraph.extract_claim_node Samples.down Samples.not_json
               "Extract the claim." Samples.processing fresh in
  @Samples.down string 0%nat
    (RetryRun.extraction_request "Extract the claim." Samples.processing)
    = inl (Exn APIError "Connection error.")
  /\ length (calls (snd run)) = 3%nat
  /\ length (calls (snd run)) <> 1%nat
  /\ (forall e, fst run <> Raise e)
  /\ exists final,
       fst run = Ret final
       /\ ChainingLangGraph.status final = "failed"
       /\ ChainingLangGraph.retry_count final = 3
       /\ ChainingLangGraph.errors final =
          [ "Extraction error: API error: Connection error.";
            "Extraction error: API error: Connection error.";
            "Extraction error: API error: Connection error." ].
Proof.
  cbv zeta. split; [reflexivity | ].
  split; [vm_compute; reflexivity | ].
  split; [vm_compute; discriminate | ].
  split.
  - intros e. vm_compute. discriminate.
  - eexists. split; [vm_compute; reflexivity | ]. repeat split.
Qed.

(** ** The fan-in summary agents *)

Section SummaryFacts.

Variable client : endpoint string.

(** challenge.py: whatever subset of the specialists completed, the summary
    agent sends its request; each finding is the specialist's result when
    its key is present and the declared placeholder otherwise. *)
Lemma challenge_summary_always_runs (contract_text : string)
    (inputs : gmap string string) (w : world) :
  ParallelChallenge.SummaryAgent_run client contract_text inputs w =
    (match client (length (calls w))
             (ParallelChallenge.summary_request contract_text inputs) with
     | inl e => Raise e
     | inr summary => Ret summary
     end,
     called (said w [new_line +:+ ">> [Summary Agent] Synthesizing all findings..."])
       [ApiCall (ParallelChallenge.summary_request contract_text inputs)])
  /\ ParallelChallenge.legal_findings inputs =
     match inputs !! "legal" with
     | Some found => found
     | None => "No legal analysis provided."
     end
  /\ ParallelChallenge.compliance_findings inputs =
     match inputs !! "compliance" with
     | Some found => found
     | None => "No compliance analysis provided."
     end
  /\ ParallelChallenge.financial_findings inputs =
     match inputs !! "financial" with
     | Some found => found
     | None => "No financial analysis provided."
     end.
Proof.
  split; [ | split; [ | split]].
  - unfold ParallelChallenge.SummaryAgent_run, call. rewrite run_print.
    rewrite run_ask. rewrite calls_said.
    destruct (client _ _); reflexivity.
  - unfold ParallelChallenge.legal_findings, ParallelChallenge.get.
    destruct (inputs !! "legal"); reflexivity.
  - unfold ParallelChallenge.compliance_findings, ParallelChallenge.get.
    destruct (inputs !! "compliance"); reflexivity.
  - unfold ParallelChallenge.financial_findings, ParallelChallenge.get.
    destruct (inputs !! "financial"); reflexivity.
Qed.

(** C7.  In demo.py the summary agent subscripts the shared map: when the
    key of any specialist is absent, [SummaryAgent.run] raises [KeyError]
    before it builds its prompt, and the synthesis call is never made. *)
Theorem demo_summary_aborts_on_missing_key (prompt : string)
    (inputs : gmap string string) (w : world) :
  inputs !! "policy" = None \/ inputs !! "tech" = None \/ inputs !! "market" = None ->
  exists e,
    ParallelDemo.SummaryAgent_run client prompt inputs w = (Raise e, w)
    /\ exn_cls e = KeyError.
Proof.
  intros Hmissing. unfold ParallelDemo.SummaryAgent_run, ParallelDemo.item.
  destruct (inputs !! "policy") as [policy | ];
    [ | eexists; split; reflexivity].
  cbn [lift]. rewrite run_ret.
  destruct (inputs !! "tech") as [tech | ];
    [ | eexists; split; reflexivity].
  cbn [lift]. rewrite run_ret.
  destruct (inputs !! "market") as [market | ];
    [ | eexists; split; reflexivity].
  destruct Hmissing as [H | [H | H]]; discriminate.
Qed.

End SummaryFacts.

Lemma demo_summary_aborts_on_missing_key_witness :
  exists e,
    ParallelDemo.SummaryAgent_run Samples.stubborn_reviewer
      "What are current trends shaping the future of the energy industry?"
      Samples.two_of_three fresh = (Raise e, fresh)
    /\ exn_cls e = KeyError.
Proof.
  apply (demo_summary_aborts_on_missing_key Samples.stubborn_reviewer
           "What are current trends shaping the future of the energy industry?"
           Samples.two_of_three fresh).
  right. right. vm_compute. reflexivity.
Defined.

Example demo_summary_missing_market :
  ParallelDemo.SummaryAgent_run Samples.stubborn_reviewer
    "What are current trends shaping the future of the energy industry?"
    Samples.two_of_three fresh
  = (Raise (Exn KeyError "'market'"), fresh).
Proof. vm_compute. reflexivity. Qed.

Example challenge_summary_missing_compliance :
  ParallelChallenge.compliance_findings Samples.legal_and_financial
    = "No compliance analysis provided."
  /\ ParallelChallenge.legal_findings Samples.legal_and_financial
    = "Liability cap is one-sided."
  /\ fst (ParallelChallenge.SummaryAgent_run (Samples.drafts "NO-GO")
            "CONSULTING AGREEMENT" Samples.legal_and_financial fresh)
    = Ret "NO-GO".
Proof. vm_compute. repeat split. Qed.

(** ** A complete run of the claims pipeline *)

Example windshield_chip_runs_to_completion :
  let info :=
    {| ClaimsWorkflow.claim_id := "C003";
       ClaimsWorkflow.policy_number := "P-17";
       ClaimsWorkflow.claimant_name := "Michael Rodriguez";
       ClaimsWorkflow.incident_date := "2024-05-02";
       ClaimsWorkflow.incident_type := "glass";
       ClaimsWorkflow.damage_description := "windshield chip";
       ClaimsWorkflow.location := "Austin" |} in
  let assessment :=
    {| ClaimsWorkflow.severity := ClaimsWorkflow.Low;
       ClaimsWorkflow.est_cost := Finite 350;
       ClaimsWorkflow.reasoning := "small chip" |} in
  let decision :=
    {| ClaimsWorkflow.queue := ClaimsWorkflow.queue_auto;
       ClaimsWorkflow.priority := ClaimsWorkflow.priority_low;
       ClaimsWorkflow.routing_reasoning := "glass only" |} in
  let run :=
    ClaimsWorkflow.invoke Samples.chatty
      (fun _ => inr info) (fun _ => inr assessment) (fun _ => inr decision)
      (fun _ => "{}") (fun _ _ => "{}") (fun _ => "350.0")
      "extract" "assess" "route" "gpt-4.1-nano" Samples.first_notice fresh in
  exists s1 s2 final,
    fst run = Ret ([ (ClaimsWorkflow.extract_claim, s1);
                     (ClaimsWorkflow.assess_severity, s2);
                     (ClaimsWorkflow.route_claim, final) ], final)
    /\ ClaimsWorkflow.status final = Some "completed"
    /\ ClaimsWorkflow.claim_info final = Some info
    /\ ClaimsWorkflow.state_severity final = Some assessment
    /\ ClaimsWorkflow.routing final = Some decision
    /\ ClaimsWorkflow.errors final = None
    /\ length (calls (snd run)) = 3%nat.
Proof. cbv zeta. eexists _, _, _. vm_compute. repeat split. Qed.

Example high_cost_for_low_severity_stops_the_pipeline :
  let info :=
    {| ClaimsWorkflow.claim_id := "C003";
       ClaimsWorkflow.policy_number := "P-17";
       ClaimsWorkflow.claimant_name := "Michael Rodriguez";
       ClaimsWorkflow.incident_date := "2024-05-02";
       ClaimsWorkflow.incident_type := "glass";
       ClaimsWorkflow.damage_description := "windshield chip";
       ClaimsWorkflow.location := "Austin" |} in
  let assessment :=
    {| ClaimsWorkflow.severity := ClaimsWorkflow.Low;
       ClaimsWorkflow.est_cost := cost_1000_01;
       ClaimsWorkflow.reasoning := "small chip" |} in
  let run :=
    ClaimsWorkflow.invoke Samples.chatty
      (fun _ => inr info) (fun _ => inr assessment) Samples.not_json
      (fun _ => "{}") (fun _ _ => "{}") (fun _ => "1000.01")
      "extract" "assess" "route" "gpt-4.1-nano" Samples.first_notice fresh in
  exists s1 final,
    fst run = Ret ([ (ClaimsWorkflow.extract_claim, s1);
                     (ClaimsWorkflow.assess_severity, final) ], final)
    /\ ClaimsWorkflow.status final = Some "failed"
    /\ ClaimsWorkflow.errors final =
       Some ["Severity error: Cost $1000.01 out of range for Low severity ($100-$1000)"]
    /\ length (calls (snd run)) = 2%nat.
Proof. cbv zeta. eexists _, _. vm_compute. repeat split. Qed.

(** * Further properties of the code *)

(** ** Counting outside calls *)

Lemma sends_ret {A} (a : A) : sends_at_most 0 (ret a).
Proof. intros w. exists []. rewrite app_nil_r. split; [reflexivity | cbn; lia]. Qed.

Lemma sends_raise {A} (e : exn) : sends_at_most 0 (@raise A e).
Proof. intros w. exists []. rewrite app_nil_r. split; [reflexivity | cbn; lia]. Qed.

Lemma sends_lift {A} (r : exn + A) : sends_at_most 0 (lift r).
Proof. destruct r; [apply sends_raise | apply sends_ret]. Qed.

Lemma sends_print (s : string) : sends_at_most 0 (print s).
Proof. intros w. exists []. rewrite app_nil_r. split; [reflexivity | cbn; lia]. Qed.

Lemma sends_ask {I O} (log : I -> event) (f : oracle I O) (i : I) :
  sends_at_most 1 (ask log f i).
Proof.
  intros w. exists [log i]. unfold ask.
  destruct (f (length (calls w)) i); (split; [reflexivity | cbn; lia]).
Qed.

Lemma sends_mono {A} (n n' : nat) (m : M A) :
  (n <= n')%nat -> sends_at_most n m -> sends_at_most n' m.
Proof.
  intros Hle H w. destruct (H w) as (sent & Hs & Hl). exists sent. split; [exact Hs | lia].
Qed.

Lemma sends_bind {A B} (n1 n2 : nat) (m : M A) (k : A -> M B) :
  sends_at_most n1 m -> (forall a, sends_at_most n2 (k a)) ->
  sends_at_most (n1 + n2) (bind m k).
Proof.
  intros Hm Hk w. unfold bind. destruct (Hm w) as (s1 & Hs1 & Hl1).
  destruct (m w) as [[a | e] w1]; cbn [snd] in *.
  - destruct (Hk a w1) as (s2 & Hs2 & Hl2). exists (s1 ++ s2).
    rewrite Hs2, Hs1, app_assoc, length_app. split; [reflexivity | lia].
  - exists s1. split; [exact Hs1 | lia].
Qed.

Lemma sends_try {A} (n1 n2 : nat) (body : M A) (handler : exn -> M A) :
  sends_at_most n1 body -> (forall e, sends_at_most n2 (handler e)) ->
  sends_at_most (n1 + n2) (try_except body handler).
Proof.
  intros Hm Hk w. unfold try_except. destruct (Hm w) as (s1 & Hs1 & Hl1).
  destruct (body w) as [[a | e] w1]; cbn [snd] in *.
  - exists s1. split; [exact Hs1 | lia].
  - destruct (Hk e w1) as (s2 & Hs2 & Hl2). exists (s1 ++ s2).
    rewrite Hs2, Hs1, app_assoc, length_app. split; [reflexivity | lia].
Qed.

(** Bounds the calls of a composed computation by the sum over its parts. *)
Ltac count_calls :=
  repeat first
    [ apply sends_ret | apply sends_raise | apply sends_lift | apply sends_print
    | apply sends_ask
    | eapply sends_bind; [ | intros ? ]
    | eapply sends_try; [ | intros ? ] ].


(** ** chaining-prompting_langgraph.py: the whole workflow *)

(** The retrying node, one attempt at a time. *)
Lemma extraction_node_step
    (chat : endpoint string) (load : string -> exn + ChainingLangGraph.ClaimInformation)
    (prompt : string) (state : ChainingLangGraph.ClaimWorkflowState) (w : world) :
  ChainingLangGraph.extract_claim_node chat load prompt state w =
    match ChainingLangGraph.extraction_attempt chat load prompt state w with
    | (Ret info, w1) => (Ret (ChainingLangGraph.with_claim state info), w1)
    | (Raise e, w1) =>
        let failed :=
          ChainingLangGraph.record_failure state ("Extraction error: " +:+ exn_str e) in
        if Z_lt_dec (ChainingLangGraph.retry_count failed) 3
        then ChainingLangGraph.extract_claim_node chat load prompt failed w1
        else (Ret (ChainingLangGraph.with_status failed "failed"), w1)
    end.
Proof. exact (extract_claim_node_unfold chat load prompt state w). Qed.

Section LangGraphNodeFacts.
Import ChainingLangGraph RetryRun.

Variable chat : endpoint string.
Variable load : string -> exn + ClaimInformation.
Variable prompt : string.

Lemma extraction_node_ledger (n : nat) :
  forall (state : ClaimWorkflowState) (w : world),
    Z.to_nat (3 - retry_count state) = n ->
    exists final w' entries sent,
      extract_claim_node chat load prompt state w = (Ret final, w')
      /\ calls w' = calls w ++ replicate sent (ApiCall (extraction_request prompt state))
      /\ (1 <= sent)%nat /\ Z.of_nat sent <= Z.max 1 (3 - retry_count state)
      /\ errors final = errors state ++ entries
      /\ retry_count final = retry_count state + Z.of_nat (length entries)
      /\ fnol final = fnol state /\ model final = model state
      /\ state_severity final = state_severity state /\ routing final = routing state
      /\ stdout w' = stdout w
      /\ ((status final = "claim_extracted"
           /\ (exists text info,
                  load text = inr info /\ claim_info final = Some info)
           /\ sent = S (length entries)
           /\ (entries = [] \/ retry_count final < 3))
          \/ (status final = "failed"
              /\ claim_info final = claim_info state
              /\ sent = length entries
              /\ 3 <= retry_count final)).
Proof.
  induction n as [n IH] using lt_wf_ind. intros state w Hn.
  rewrite extraction_node_step, extraction_attempt_spec.
  assert (Hfail : forall msg,
    exists final w' entries sent,
      (let failed := record_failure state msg in
       if Z_lt_dec (retry_count failed) 3
       then extract_claim_node chat load prompt failed
              (called w [ApiCall (extraction_request prompt state)])
       else (Ret (with_status failed "failed"),
             called w [ApiCall (extraction_request prompt state)]))
      = (Ret final, w')
      /\ calls w' = calls w ++ replicate sent (ApiCall (extraction_request prompt state))
      /\ (1 <= sent)%nat /\ Z.of_nat sent <= Z.max 1 (3 - retry_count state)
      /\ errors final = errors state ++ entries
      /\ retry_count final = retry_count state + Z.of_nat (length entries)
      /\ fnol final = fnol state /\ model final = model state
      /\ state_severity final = state_severity state /\ routing final = routing state
      /\ stdout w' = stdout w
      /\ ((status final = "claim_extracted"
           /\ (exists text info,
                  load text = inr info /\ claim_info final = Some info)
           /\ sent = S (length entries)
           /\ (entries = [] \/ retry_count final < 3))
          \/ (status final = "failed"
              /\ claim_info final = claim_info state
              /\ sent = length entries
              /\ 3 <= retry_count final))).
  { intros msg. cbv zeta.
    destruct (Z_lt_dec (retry_count (record_failure state msg)) 3) as [Hlt | Hge].
    - cbn [record_failure retry_count] in Hlt.
      destruct (IH (Z.to_nat (3 - retry_count (record_failure state msg)))
                  ltac:(cbn [record_failure retry_count]; lia)
                  (record_failure state msg)
                  (called w [ApiCall (extraction_request prompt state)]) eq_refl)
        as (final & w' & entries & sent & Hrun & Hcalls & H1 & Hb & Herr & Hrc
            & Hf & Hm & Hsev & Hr & Hout & Hcase).
      change (extraction_request prompt (record_failure state msg))
        with (extraction_request prompt state) in Hcalls.
      cbn [record_failure retry_count errors fnol model state_severity routing
           claim_info] in *.
      exists final, w', (msg :: entries), (S sent).
      split; [exact Hrun | ].
      split; [rewrite Hcalls, calls_called, <- app_assoc; reflexivity | ].
      split; [lia | ]. split; [lia | ].
      split; [rewrite Herr, <- app_assoc; reflexivity | ].
      split; [rewrite Hrc; cbn [length]; lia | ].
      repeat (split; [assumption | ]).
      destruct Hcase as [(Hst & Hinfo & Hs & Hlast) | (Hst & Hinfo & Hs & Hlast)].
      + left. split; [exact Hst | ]. split; [exact Hinfo | ].
        split; [cbn [length]; lia | ]. right.
        destruct Hlast as [-> | Hlast]; [ | exact Hlast].
        rewrite Hrc. cbn [length]. lia.
      + right. split; [exact Hst | ]. split; [exact Hinfo | ].
        split; [cbn [length]; lia | exact Hlast].
    - cbn [record_failure retry_count] in Hge.
      exists (with_status (record_failure state msg) "failed"),
             (called w [ApiCall (extraction_request prompt state)]), [msg], 1%nat.
      cbn [with_status record_failure retry_count errors fnol model state_severity
           routing claim_info status length].
      split; [reflexivity | ]. split; [reflexivity | ].
      split; [lia | ]. split; [lia | ].
      do 6 (split; [reflexivity | ]). split; [reflexivity | ].
      right. repeat split; lia. }
  destruct (chat (length (calls w)) (extraction_request prompt state)) as [e | text];
    [apply Hfail | ].
  destruct (load text) as [e | info] eqn:Hload; [apply Hfail | ].
  exists (with_claim state info),
         (called w [ApiCall (extraction_request prompt state)]), [], 1%nat.
  cbn [with_claim retry_count errors fnol model state_severity routing claim_info
       status length].
  split; [reflexivity | ]. split; [reflexivity | ].
  split; [lia | ]. split; [lia | ].
  split; [rewrite app_nil_r; reflexivity | ]. split; [lia | ].
  do 5 (split; [reflexivity | ]).
  left. split; [reflexivity | ]. split; [eauto | ]. split; [reflexivity | left; reflexivity].
Qed.

End LangGraphNodeFacts.

(** Peels the binds of a computation that returned. *)
Ltac peel_binds H :=
  repeat (let a := fresh "a" in let w1 := fresh "w" in
          let H1 := fresh "H" in
          apply bind_ret_inv in H as (a & w1 & H1 & H)).

Lemma lift_ret_inv {A} (r : exn + A) (w w' : world) (a : A) :
  lift r w = (Ret a, w') -> r = inr a /\ w' = w.
Proof. destruct r; cbn; intros H; inversion H; auto. Qed.

Section LangGraphFlowFacts.
Import ChainingLangGraph.

Variable chat : endpoint string.
Variable load_ClaimInformation : string -> exn + ClaimInformation.
Variable load_SeverityAssessment : string -> exn + SeverityAssessment.
Variable load_ClaimRouting : string -> exn + ClaimRouting.
Variable model_dump_json : ClaimInformation -> string.
Variable dumps_routing_input : ClaimInformation -> SeverityAssessment -> string.
Variable format_float : pyfloat -> string.
Variable P1 P2 P3 : string.

Let gate2 := gate2_cost_range_ok load_SeverityAssessment format_float.

Lemma langgraph_gate2_accepts_iff (s : string) (v : SeverityAssessment) :
  gate2 s = inr v <->
  load_SeverityAssessment s = inr v /\ langgraph_interval (severity v) (est_cost v).
Proof.
  unfold gate2, gate2_cost_range_ok, gate2_body.
  destruct (load_SeverityAssessment s) as [e | r]; simpl.
  - split; [ | intros [? _]; discriminate].
    destruct (is_ValueError e); discriminate.
  - destruct r as [sev cost]; simpl.
    destruct sev; simpl;
      match goal with
      | |- context [negb ?t] =>
          destruct t eqn:Ht; simpl
      end;
      (split;
       [ intros H;
         first [ discriminate
               | inversion H; subst; simpl; split; [reflexivity | interval_test] ]
       | intros [H Hin]; inversion H; subst; simpl in *;
         first [ reflexivity | exfalso; interval_test ] ]).
Qed.

Lemma langgraph_gate2_rejects_with_ValueError (s : string) (e : exn) :
  gate2 s = inl e -> is_ValueError e = true.
Proof.
  unfold gate2, gate2_cost_range_ok, gate2_body.
  destruct (load_SeverityAssessment s) as [e0 | r]; simpl.
  - destruct (is_ValueError e0) eqn:He; intros H; inversion H; subst; auto.
  - destruct r as [sev cost]; simpl.
    destruct sev; simpl;
      match goal with |- context [negb ?t] => destruct t; simpl end;
      intros H; inversion H; reflexivity.
Qed.

Lemma langgraph_get_completion_sends messages system_prompt user_prompt model :
  sends_at_most 1 (get_completion chat messages system_prompt user_prompt model).
Proof.
  unfold get_completion.
  match goal with |- context [match ?l with [] => _ | _ => _ end] => destruct l end.
  - eapply sends_mono; [ | apply sends_raise]. lia.
  - change 1%nat with (1 + 0)%nat. apply sends_try; [apply sends_ask | ].
    intros e. apply sends_raise.
Qed.

Lemma langgraph_get_completion_ret messages system_prompt user_prompt model
    (w w' : world) (text : string) :
  get_completion chat messages system_prompt user_prompt model w = (Ret text, w') ->
  exists r, w' = called w [ApiCall r].
Proof.
  unfold get_completion.
  match goal with |- context [match ?l with [] => _ | _ => _ end] => destruct l end.
  - discriminate.
  - unfold try_except, call. rewrite run_ask.
    match goal with |- context [chat ?n ?r] => destruct (chat n r); cbn end.
    + discriminate.
    + intros H. inversion H. eauto.
Qed.

Lemma assess_severity_node_sends (s : ClaimWorkflowState) :
  sends_at_most 1
    (assess_severity_node chat load_SeverityAssessment model_dump_json format_float P2 s).
Proof.
  unfold assess_severity_node.
  change 1%nat with (0 + ((0 + (1 + (0 + 0))) + 0))%nat.
  apply sends_bind; [apply sends_lift | intros _].
  apply sends_try; [ | intros e; apply sends_ret].
  apply sends_bind; [apply sends_lift | intros info].
  apply sends_bind; [apply langgraph_get_completion_sends | intros response].
  apply sends_bind; [apply sends_lift | intros sev]. apply sends_ret.
Qed.

Lemma route_claim_node_sends (s : ClaimWorkflowState) :
  sends_at_most 1
    (route_claim_node chat load_ClaimRouting dumps_routing_input P3 s).
Proof.
  unfold route_claim_node.
  change 1%nat with (0 + ((0 + (0 + (1 + (0 + 0)))) + 0))%nat.
  apply sends_bind; [apply sends_lift | intros _].
  apply sends_try; [ | intros e; apply sends_ret].
  apply sends_bind; [apply sends_lift | intros info].
  apply sends_bind; [apply sends_lift | intros sev].
  apply sends_bind; [apply langgraph_get_completion_sends | intros response].
  apply sends_bind; [apply sends_lift | intros r]. apply sends_ret.
Qed.

(** The assessment node on a record that holds a claim: it returns, after at
    most one call, the record with an assessment that passed the gate, or
    the record with one more error and status "failed". *)
Lemma assess_severity_node_returns (s : ClaimWorkflowState) (w : world)
    (info : ClaimInformation) :
  claim_info s = Some info ->
  exists final w' sent,
    assess_severity_node chat load_SeverityAssessment model_dump_json format_float P2 s w
      = (Ret final, w')
    /\ calls w' = calls w ++ sent /\ (length sent <= 1)%nat
    /\ ((exists text sev,
            load_SeverityAssessment text = inr sev
            /\ langgraph_interval (severity sev) (est_cost sev)
            /\ final = with_severity s sev /\ length sent = 1%nat)
        \/ (exists msg, final = with_status (record_error s msg) "failed")).
Proof.
  intros Hci.
  destruct (assess_severity_node_sends s w) as (sent & Hsent & Hlen).
  revert Hsent. unfold assess_severity_node. rewrite Hci. cbn [attribute lift].
  rewrite run_ret.
  match goal with
  | |- context [try_except ?b (fun e => ret (@?h e))] =>
      destruct (try_except_returns b h w) as (u & w' & Hrun & Hcase)
  end.
  rewrite Hrun. cbn [snd]. intros Hsent.
  exists u, w', sent. split; [reflexivity | ]. split; [exact Hsent | ].
  split; [exact Hlen | ].
  destruct Hcase as [Hbody | (e & _ & ->)]; [left | right; eauto].
  rewrite run_ret in Hbody. peel_binds Hbody. inversion Hbody; subst.
  apply lift_ret_inv in H0 as (Hgate & ->).
  apply langgraph_gate2_accepts_iff in Hgate as (Hload & Hin).
  apply langgraph_get_completion_ret in H as (r & ->).
  rewrite calls_called in Hsent. apply app_inv_head in Hsent. subst sent.
  exists a, a0. repeat split; auto.
Qed.

(** The routing node on a record that holds a claim. *)
Lemma route_claim_node_returns (s : ClaimWorkflowState) (w : world)
    (info : ClaimInformation) :
  claim_info s = Some info ->
  exists final w' sent,
    route_claim_node chat load_ClaimRouting dumps_routing_input P3 s w = (Ret final, w')
    /\ calls w' = calls w ++ sent /\ (length sent <= 1)%nat
    /\ ((exists text r,
            load_ClaimRouting text = inr r
            /\ final = with_routing s r /\ length sent = 1%nat)
        \/ (exists msg, final = with_status (record_error s msg) "failed")).
Proof.
  intros Hci.
  destruct (route_claim_node_sends s w) as (sent & Hsent & Hlen).
  revert Hsent. unfold route_claim_node. rewrite Hci. cbn [attribute lift].
  rewrite run_ret.
  match goal with
  | |- context [try_except ?b (fun e => ret (@?h e))] =>
      destruct (try_except_returns b h w) as (u & w' & Hrun & Hcase)
  end.
  rewrite Hrun. cbn [snd]. intros Hsent.
  exists u, w', sent. split; [reflexivity | ]. split; [exact Hsent | ].
  split; [exact Hlen | ].
  destruct Hcase as [Hbody | (e & _ & ->)]; [left | right; eauto].
  rewrite run_ret in Hbody. peel_binds Hbody. inversion Hbody; subst.
  apply lift_ret_inv in H as (_ & ->).
  apply lift_ret_inv in H1 as (Hgate & ->).
  apply langgraph_get_completion_ret in H0 as (r & ->).
  rewrite calls_called in Hsent. apply app_inv_head in Hsent. subst sent.
  unfold gate3_validate_routing in Hgate.
  destruct (load_ClaimRouting a0) as [e | r'] eqn:Hload; inversion Hgate; subst.
  exists a0, a1. repeat split; auto.
Qed.

End LangGraphFlowFacts.

Section LangGraphRunFacts.
Import ChainingLangGraph.

Variable chat : endpoint string.
Variable load_ClaimInformation : string -> exn + ClaimInformation.
Variable load_SeverityAssessment : string -> exn + SeverityAssessment.
Variable load_ClaimRouting : string -> exn + ClaimRouting.
Variable model_dump_json : ClaimInformation -> string.
Variable dumps_routing_input : ClaimInformation -> SeverityAssessment -> string.
Variable format_float : pyfloat -> string.
Variable P1 P2 P3 : string.

Let run := run_from chat load_ClaimInformation load_SeverityAssessment load_ClaimRouting
             model_dump_json dumps_routing_input format_float P1 P2 P3.

Lemma langgraph_edge_failed (n : node) (s : ClaimWorkflowState) :
  status s = "failed" -> edge n s = inr END.
Proof. intros H. destruct n; unfold edge, should_continue; rewrite ?H; reflexivity. Qed.

Lemma langgraph_edge_continue (n : node) (s : ClaimWorkflowState) :
  status s <> "failed" ->
  edge n s = match n with
             | extract_claim => inr (Goto assess_severity)
             | assess_severity => inr (Goto route_claim)
             | route_claim => inr END
             end.
Proof.
  intros H. destruct n; unfold edge, should_continue; [ | | reflexivity];
    (destruct (String.eqb_spec (status s) "failed"); [contradiction | reflexivity]).
Qed.

Lemma process_claim_returns (notice : string) (chosen : option string) (w : world) :
  exists final w' sent,
    process_claim chat load_ClaimInformation load_SeverityAssessment load_ClaimRouting
      model_dump_json dumps_routing_input format_float P1 P2 P3 notice chosen w
      = (Ret final, w')
    /\ calls w' = calls w ++ sent
    /\ process_claim_outcome notice final (length sent).
Proof.
  unfold process_claim, invoke, recursion_limit. fold run.
  set (s0 := initial_state notice chosen).
  destruct (extraction_node_ledger chat load_ClaimInformation P1 _ s0 w eq_refl)
    as (s1 & w1 & entries & sent1 & Hrun1 & Hcalls1 & Hone & Hbound & Herr1 & Hrc1
        & Hf1 & Hm1 & Hsev1 & Hr1 & _ & Hcase1).
  cbn [s0 initial_state retry_count errors fnol model state_severity routing claim_info
       app] in *.
  unfold run. cbn [run_from node_function]. fold run.
  unfold bind at 1. rewrite Hrun1.
  destruct Hcase1 as [(Hst1 & (text1 & info & Hload1 & Hci1) & Hs1 & Hlast)
                     | (Hst1 & Hci1 & Hs1 & Hge)].
  2: { rewrite (langgraph_edge_failed extract_claim s1 Hst1). cbn [lift].
       rewrite run_ret.
       exists s1, w1, (replicate sent1 (ApiCall (RetryRun.extraction_request P1 s0))).
       split; [reflexivity | ]. split; [exact Hcalls1 | ].
       rewrite length_replicate. split; [exact Hf1 | ]. right. left.
       assert (sent1 = 3%nat) by lia. subst sent1.
       repeat split; auto; try lia. congruence. }
  assert (Hlen1 : Z.of_nat (length entries) <= 2).
  { destruct Hlast as [-> | Hlt]; [cbn; lia | lia]. }
  rewrite (langgraph_edge_continue extract_claim s1) by (rewrite Hst1; discriminate).
  cbn [lift]. rewrite run_ret.
  destruct (assess_severity_node_returns chat load_SeverityAssessment model_dump_json
              format_float P2 s1 w1 info Hci1)
    as (s2 & w2 & sent2 & Hrun2 & Hcalls2 & Hl2 & Hcase2).
  unfold run. cbn [run_from node_function]. fold run.
  unfold bind at 1. rewrite Hrun2.
  set (sentA := replicate sent1 (ApiCall (RetryRun.extraction_request P1 s0))) in *.
  assert (HlenA : length sentA = sent1) by apply length_replicate.
  destruct Hcase2 as [(text2 & sev & Hload2 & Hin & -> & Hone2) | (msg & ->)].
  2: { rewrite langgraph_edge_failed by reflexivity. cbn [lift]. rewrite run_ret.
       exists (with_status (record_error s1 msg) "failed"), w2, (sentA ++ sent2).
       split; [reflexivity | ].
       split; [rewrite Hcalls2, Hcalls1, app_assoc; reflexivity | ].
       cbn [with_status record_error fnol]. split; [exact Hf1 | ]. right. right.
       cbn [with_status record_error status claim_info routing errors retry_count].
       rewrite Herr1, !length_app, HlenA. cbn [length].
       repeat split; auto; try congruence; try lia. }
  rewrite langgraph_edge_continue by (cbn; discriminate).
  cbn [lift]. rewrite run_ret.
  destruct (route_claim_node_returns chat load_ClaimRouting dumps_routing_input P3
              (with_severity s1 sev) w2 info Hci1)
    as (s3 & w3 & sent3 & Hrun3 & Hcalls3 & Hl3 & Hcase3).
  unfold run. cbn [run_from node_function].
  unfold bind at 1. rewrite Hrun3. cbn [edge lift]. rewrite run_ret.
  exists s3, w3, (sentA ++ sent2 ++ sent3).
  split; [reflexivity | ].
  split; [rewrite Hcalls3, Hcalls2, Hcalls1, <- !app_assoc; reflexivity | ].
  destruct Hcase3 as [(text3 & r & Hload3 & -> & Hone3) | (msg & ->)].
  - cbn [with_routing with_severity fnol]. split; [exact Hf1 | ]. left.
    cbn [with_routing with_severity status claim_info state_severity routing errors
         retry_count].
    rewrite Herr1, !length_app, HlenA.
    split; [reflexivity | ]. split; [exists info, sev, r; auto | ].
    repeat split; lia.
  - cbn [with_status record_error with_severity fnol]. split; [exact Hf1 | ]. right. right.
    cbn [with_status record_error with_severity status claim_info routing errors
         retry_count].
    rewrite Herr1, !length_app, HlenA. cbn [length].
    repeat split; auto; try congruence; try lia.
Qed.

Lemma process_claim_outcome_bounds (notice : string) (final : ClaimWorkflowState)
    (sent : nat) :
  process_claim_outcome notice final sent -> (1 <= sent <= 5)%nat.
Proof.
  intros (_ & [(_ & _ & Hlen & Hrc & ->) | [(_ & _ & _ & _ & _ & _ & ->)
                                          | (_ & _ & _ & Hlen & Hrc & Hs)]]); lia.
Qed.

Lemma process_rest_returns (chosen : option string) (fnols : list string) :
  forall (results : list ClaimWorkflowState) (w : world),
  exists more w' sent,
    process_rest chat load_ClaimInformation load_SeverityAssessment load_ClaimRouting
      model_dump_json dumps_routing_input format_float P1 P2 P3 results fnols chosen w
      = (Ret (results ++ more), w')
    /\ calls w' = calls w ++ sent
    /\ Forall2 (fun notice final => exists n, process_claim_outcome notice final n)
         fnols more
    /\ (length fnols <= length sent <= 5 * length fnols)%nat.
Proof.
  induction fnols as [ | notice rest IH]; intros results w.
  - exists [], w, []. cbn [process_rest]. rewrite !app_nil_r.
    split; [reflexivity | ]. split; [reflexivity | ].
    split; [constructor | cbn; lia].
  - cbn [process_rest].
    destruct (process_claim_returns notice chosen w)
      as (final & w1 & sent1 & Hrun1 & Hcalls1 & Hout).
    unfold bind at 1. rewrite Hrun1.
    destruct (IH (results ++ [final]) w1) as (more & w' & sent & Hrun & Hcalls & Hall & Hb).
    exists (final :: more), w', (sent1 ++ sent).
    split; [rewrite Hrun, <- app_assoc; reflexivity | ].
    split; [rewrite Hcalls, Hcalls1, app_assoc; reflexivity | ].
    split; [constructor; [eauto | exact Hall] | ].
    apply process_claim_outcome_bounds in Hout.
    rewrite length_app. cbn [length]. lia.
Qed.

End LangGraphRunFacts.

Section LangGraphTheorems.
Import ChainingLangGraph RetryRun.

(** X1.  The Assessment Gate of the LangGraph script decides by the interval of
    the severity alone: a response is accepted exactly when it loads as a
    record whose estimate lies in the interval of its severity (Low closed
    at 100, Medium and High open at their lower bound), the record is
    returned as loaded, and whatever is rejected is rejected with a
    [ValueError]. *)
Theorem langgraph_assessment_gate_verdict
    (load : string -> exn + SeverityAssessment) (format_float : pyfloat -> string)
    (response : string) :
  match gate2_cost_range_ok load format_float response with
  | inr v =>
      load response = inr v /\ langgraph_interval (severity v) (est_cost v)
  | inl e =>
      is_ValueError e = true
      /\ (forall v, load response = inr v ->
                    ~ langgraph_interval (severity v) (est_cost v))
  end.
Proof.
  destruct (gate2_cost_range_ok load format_float response) as [e | v] eqn:Hg.
  - split; [exact (langgraph_gate2_rejects_with_ValueError load format_float _ _ Hg) | ].
    intros v Hload Hin.
    assert (Hacc : gate2_cost_range_ok load format_float response = inr v)
      by (apply langgraph_gate2_accepts_iff; auto).
    congruence.
  - exact (proj1 (langgraph_gate2_accepts_iff load format_float response v) Hg).
Qed.

(** X2.  Whatever the Completion Service and the loader answer, and whatever the
    retry counter is on entry, [extract_claim_node] returns a record and
    raises nothing.  It sends the same request each time, at least once and
    at most max(1, 3 - retry_count) times; every failed attempt appends one
    entry to [errors] and adds one to [retry_count]; no other field than
    [claim_info] and [status] changes.  It ends either with an accepted
    claim and status "claim_extracted" after one call more than it recorded
    failures, or with status "failed", the claim untouched, one call per
    recorded failure and the counter at 3 or more. *)
Theorem langgraph_extraction_settles
    (chat : endpoint string) (load : string -> exn + ClaimInformation)
    (prompt : string) (state : ClaimWorkflowState) (w : world) :
  exists final w' entries sent,
    extract_claim_node chat load prompt state w = (Ret final, w')
    /\ calls w' = calls w ++ replicate sent (ApiCall (extraction_request prompt state))
    /\ (1 <= sent)%nat /\ Z.of_nat sent <= Z.max 1 (3 - retry_count state)
    /\ errors final = errors state ++ entries
    /\ retry_count final = retry_count state + Z.of_nat (length entries)
    /\ fnol final = fnol state /\ model final = model state
    /\ state_severity final = state_severity state /\ routing final = routing state
    /\ stdout w' = stdout w
    /\ ((status final = "claim_extracted"
         /\ (exists text info, load text = inr info /\ claim_info final = Some info)
         /\ sent = S (length entries)
         /\ (entries = [] \/ retry_count final < 3))
        \/ (status final = "failed"
            /\ claim_info final = claim_info state
            /\ sent = length entries
            /\ 3 <= retry_count final)).
Proof.
  destruct (extraction_node_ledger chat load prompt _ state w eq_refl)
    as (final & w' & entries & sent & Hrun & Hcalls & Hone & Hbound & Herr & Hrc
        & Hfnol & Hmodel & Hsev & Hrouting & Hout & Hcase).
  exists final, w', entries, sent.
  split; [exact Hrun | ]. split; [exact Hcalls | ].
  split; [exact Hone | ]. split; [exact Hbound | ].
  split; [exact Herr | ]. split; [exact Hrc | ].
  split; [exact Hfnol | ]. split; [exact Hmodel | ].
  split; [exact Hsev | ]. split; [exact Hrouting | ].
  split; [exact Hout | exact Hcase].
Qed.

(** X3.  [process_claim] never raises and always returns a record of the notice
    it was given, in one of three conditions.  Completed: all three results
    are present, the estimate lies in the interval of its severity, and the
    run made three calls plus one per recorded extraction failure (at most
    two).  Extraction gave up: no result is present, three errors are
    recorded and three calls were made.  A later step failed: the claim is
    present, no routing is, and there is one error more than extraction
    retries.  In every case the run makes between one and five calls. *)
Theorem langgraph_process_claim_outcomes
    (chat : endpoint string)
    (load_ClaimInformation : string -> exn + ClaimInformation)
    (load_SeverityAssessment : string -> exn + SeverityAssessment)
    (load_ClaimRouting : string -> exn + ClaimRouting)
    (model_dump_json : ClaimInformation -> string)
    (dumps_routing_input : ClaimInformation -> SeverityAssessment -> string)
    (format_float : pyfloat -> string)
    (P1 P2 P3 : string)
    (notice : string) (chosen : option string) (w : world) :
  exists final w' sent,
    process_claim chat load_ClaimInformation load_SeverityAssessment load_ClaimRouting
      model_dump_json dumps_routing_input format_float P1 P2 P3 notice chosen w
      = (Ret final, w')
    /\ calls w' = calls w ++ sent
    /\ process_claim_outcome notice final (length sent)
    /\ (1 <= length sent <= 5)%nat.
Proof.
  destruct (process_claim_returns chat load_ClaimInformation load_SeverityAssessment
              load_ClaimRouting model_dump_json dumps_routing_input format_float
              P1 P2 P3 notice chosen w) as (final & w' & sent & Hrun & Hcalls & Hout).
  exists final, w', sent. split; [exact Hrun | ]. split; [exact Hcalls | ].
  split; [exact Hout | exact (process_claim_outcome_bounds notice final _ Hout)].
Qed.

(** X4.  [process_batch] never raises: a claim that fails does not stop the
    batch.  It returns one record per notice, in the order of the notices,
    each in one of the conditions [process_claim] can leave, and it makes
    between one and five calls per notice. *)
Theorem langgraph_process_batch_outcomes
    (chat : endpoint string)
    (load_ClaimInformation : string -> exn + ClaimInformation)
    (load_SeverityAssessment : string -> exn + SeverityAssessment)
    (load_ClaimRouting : string -> exn + ClaimRouting)
    (model_dump_json : ClaimInformation -> string)
    (dumps_routing_input : ClaimInformation -> SeverityAssessment -> string)
    (format_float : pyfloat -> string)
    (P1 P2 P3 : string)
    (fnols : list string) (chosen : option string) (w : world) :
  exists results w' sent,
    process_batch chat load_ClaimInformation load_SeverityAssessment load_ClaimRouting
      model_dump_json dumps_routing_input format_float P1 P2 P3 fnols chosen w
      = (Ret results, w')
    /\ calls w' = calls w ++ sent
    /\ length results = length fnols
    /\ map fnol results = fnols
    /\ Forall2 (fun notice final => exists n, process_claim_outcome notice final n)
         fnols results
    /\ (length fnols <= length sent <= 5 * length fnols)%nat.
Proof.
  unfold process_batch.
  destruct (process_rest_returns chat load_ClaimInformation load_SeverityAssessment
              load_ClaimRouting model_dump_json dumps_routing_input format_float
              P1 P2 P3 chosen fnols [] w) as (more & w' & sent & Hrun & Hcalls & Hall & Hb).
  exists more, w', sent. split; [exact Hrun | ]. split; [exact Hcalls | ].
  split; [symmetry; exact (Forall2_length _ _ _ Hall) | ].
  split; [ | split; [exact Hall | exact Hb]].
  clear Hrun Hcalls Hb. induction Hall as [ | notice final rest more' (n & Hf & _) _ IH].
  - reflexivity.
  - cbn [map]. rewrite IH, Hf. reflexivity.
Qed.

End LangGraphTheorems.

(** ** claims-workflow: what a run leaves behind *)

Section ClaimsLedgerFacts.
Import ClaimsWorkflow PipelineRun.

Variable chat : endpoint string.
Variable load_ClaimInformation : string -> exn + ClaimInformation.
Variable load_SeverityAssessment : string -> exn + SeverityAssessment.
Variable load_ClaimRouting : string -> exn + ClaimRouting.
Variable model_dump_json : ClaimInformation -> string.
Variable dumps_routing_input : ClaimInformation -> SeverityAssessment -> string.
Variable format_float : pyfloat -> string.
Variable P1 P2 P3 DEFAULT_MODEL : string.

Let step := node_function chat load_ClaimInformation load_SeverityAssessment
              load_ClaimRouting model_dump_json dumps_routing_input format_float
              P1 P2 P3 DEFAULT_MODEL.
Let run := run_from chat load_ClaimInformation load_SeverityAssessment
             load_ClaimRouting model_dump_json dumps_routing_input format_float
             P1 P2 P3 DEFAULT_MODEL.

Lemma utils_get_completion_sends messages system_prompt user_prompt model t mt :
  sends_at_most 1
    (get_completion chat DEFAULT_MODEL messages system_prompt user_prompt model t mt).
Proof.
  unfold get_completion.
  match goal with |- context [match ?l with [] => _ | _ => _ end] => destruct l end.
  - eapply sends_mono; [ | apply sends_raise]. lia.
  - change 1%nat with (1 + 0)%nat. apply sends_try; [apply sends_ask | ].
    intros e. apply sends_raise.
Qed.

Lemma utils_get_completion_ret messages system_prompt user_prompt model t mt
    (w w' : world) (text : string) :
  get_completion chat DEFAULT_MODEL messages system_prompt user_prompt model t mt w
    = (Ret text, w') ->
  exists r, w' = called w [ApiCall r].
Proof.
  unfold get_completion.
  match goal with |- context [match ?l with [] => _ | _ => _ end] => destruct l end.
  - discriminate.
  - unfold try_except, call. rewrite run_ask.
    match goal with |- context [chat ?n ?r] => destruct (chat n r); cbn end.
    + discriminate.
    + intros H. inversion H. eauto.
Qed.

Lemma claims_step_sends (n : node) (s : ClaimState) : sends_at_most 1 (step n s).
Proof.
  unfold step. destruct n; cbn [node_function].
  - unfold extract_claim_node.
    change 1%nat with ((0 + (0 + (1 + (0 + 0)))) + 0)%nat.
    apply sends_try; [ | intros e; apply sends_ret].
    apply sends_bind; [apply sends_lift | intros ?].
    apply sends_bind; [apply sends_lift | intros ?].
    apply sends_bind; [apply utils_get_completion_sends | intros ?].
    apply sends_bind; [apply sends_lift | intros ?]. apply sends_ret.
  - unfold assess_severity_node.
    change 1%nat with (0 + ((0 + (0 + (1 + (0 + 0)))) + 0))%nat.
    apply sends_bind; [apply sends_lift | intros ?].
    apply sends_try; [ | intros e; apply sends_ret].
    apply sends_bind; [apply sends_lift | intros ?].
    apply sends_bind; [apply sends_lift | intros ?].
    apply sends_bind; [apply utils_get_completion_sends | intros ?].
    apply sends_bind; [apply sends_lift | intros ?]. apply sends_ret.
  - unfold route_claim_node.
    change 1%nat with (0 + ((0 + (0 + (0 + (1 + (0 + 0))))) + 0))%nat.
    apply sends_bind; [apply sends_lift | intros ?].
    apply sends_try; [ | intros e; apply sends_ret].
    apply sends_bind; [apply sends_lift | intros ?].
    apply sends_bind; [apply sends_lift | intros ?].
    apply sends_bind; [apply sends_lift | intros ?].
    apply sends_bind; [apply utils_get_completion_sends | intros ?].
    apply sends_bind; [apply sends_lift | intros ?]. apply sends_ret.
Qed.

(** Resolves the pure steps of a peeled computation. *)
Ltac settle_lifts :=
  repeat match goal with
         | H : lift _ _ = (Ret _, _) |- _ =>
             let Hr := fresh "Hlift" in apply lift_ret_inv in H as (Hr & ->)
         end.

(** Every step returns after at most one call: with its own result and the
    status of its success after exactly one call, or with the failure
    update built from the exception it caught. *)
Lemma claims_step_report (n : node) (s : ClaimState) (w : world) :
  (n <> extract_claim -> claim_info s <> None) ->
  exists u w' sent,
    step n s w = (Ret u, w')
    /\ calls w' = calls w ++ sent /\ (length sent <= 1)%nat
    /\ ((length sent = 1%nat
         /\ match n with
            | extract_claim =>
                exists info,
                  u = {| upd_claim_info := Some info; upd_severity := None;
                         upd_routing := None; upd_errors := None;
                         upd_status := Some "claim_extracted" |}
            | assess_severity =>
                exists sev,
                  gates_interval (severity sev) (est_cost sev)
                  /\ u = {| upd_claim_info := None; upd_severity := Some sev;
                            upd_routing := None; upd_errors := None;
                            upd_status := Some "severity_assessed" |}
            | route_claim =>
                exists r,
                  u = {| upd_claim_info := None; upd_severity := None;
                         upd_routing := Some r; upd_errors := None;
                         upd_status := Some "completed" |}
            end)
        \/ exists e, u = failure_update s (failure_label n) e).
Proof.
  intros Hinfo. destruct (claims_step_sends n s w) as (sent & Hsent & Hlen).
  revert Hsent. unfold step. destruct n; cbn [node_function].
  - unfold extract_claim_node.
    match goal with
    | |- context [try_except ?b (fun e => ret (@?h e))] =>
        destruct (try_except_returns b h w) as (u & w' & Hrun & Hcase)
    end.
    rewrite Hrun. cbn [snd]. intros Hsent.
    exists u, w', sent. split; [reflexivity | ]. split; [exact Hsent | ].
    split; [exact Hlen | ].
    destruct Hcase as [Hbody | (e & _ & ->)]; [left | right; eauto].
    peel_binds Hbody. inversion Hbody; subst. settle_lifts.
    match goal with
    | H : get_completion _ _ _ _ _ _ _ _ _ = _ |- _ =>
        apply utils_get_completion_ret in H as (r & ->)
    end.
    rewrite calls_called in Hsent. apply app_inv_head in Hsent. subst sent.
    split; [reflexivity | eauto].
  - destruct (claim_info s) as [info | ] eqn:Hci; [ | exfalso; apply Hinfo; congruence].
    unfold assess_severity_node. rewrite Hci. cbn [subscript lift]. rewrite run_ret.
    match goal with
    | |- context [try_except ?b (fun e => ret (@?h e))] =>
        destruct (try_except_returns b h w) as (u & w' & Hrun & Hcase)
    end.
    rewrite Hrun. cbn [snd]. intros Hsent.
    exists u, w', sent. split; [reflexivity | ]. split; [exact Hsent | ].
    split; [exact Hlen | ].
    destruct Hcase as [Hbody | (e & _ & ->)]; [left | right; eauto].
    rewrite run_ret in Hbody. peel_binds Hbody. inversion Hbody; subst. settle_lifts.
    match goal with
    | H : get_completion _ _ _ _ _ _ _ _ _ = _ |- _ =>
        apply utils_get_completion_ret in H as (r & ->)
    end.
    rewrite calls_called in Hsent. apply app_inv_head in Hsent. subst sent.
    split; [reflexivity | ].
    match goal with
    | H : gate2_cost_range_ok _ _ _ = inr _ |- _ =>
        apply gates_gate2_accepts_iff in H as (_ & Hin)
    end. eauto.
  - destruct (claim_info s) as [info | ] eqn:Hci; [ | exfalso; apply Hinfo; congruence].
    unfold route_claim_node. rewrite Hci. cbn [subscript lift]. rewrite run_ret.
    match goal with
    | |- context [try_except ?b (fun e => ret (@?h e))] =>
        destruct (try_except_returns b h w) as (u & w' & Hrun & Hcase)
    end.
    rewrite Hrun. cbn [snd]. intros Hsent.
    exists u, w', sent. split; [reflexivity | ]. split; [exact Hsent | ].
    split; [exact Hlen | ].
    destruct Hcase as [Hbody | (e & _ & ->)]; [left | right; eauto].
    rewrite run_ret in Hbody. peel_binds Hbody. inversion Hbody; subst. settle_lifts.
    match goal with
    | H : get_completion _ _ _ _ _ _ _ _ _ = _ |- _ =>
        apply utils_get_completion_ret in H as (r & ->)
    end.
    rewrite calls_called in Hsent. apply app_inv_head in Hsent. subst sent.
    split; [reflexivity | eauto].
Qed.

Lemma claims_invoke_returns (input : ClaimState) (w : world) :
  exists visited final w' sent,
    invoke chat load_ClaimInformation load_SeverityAssessment load_ClaimRouting
      model_dump_json dumps_routing_input format_float P1 P2 P3 DEFAULT_MODEL
      input w = (Ret (visited, final), w')
    /\ calls w' = calls w ++ sent
    /\ claims_run_outcome input final (length visited) (length sent).
Proof.
  unfold invoke, recursion_limit, START. fold run.
  destruct (claims_step_report extract_claim input w) as
    (u1 & w1 & sent1 & Hrun1 & Hcalls1 & Hl1 & Hcase1); [congruence | ].
  unfold run. cbn [run_from]. fold step. fold run.
  unfold bind at 1. rewrite Hrun1.
  destruct Hcase1 as [(Hone1 & info & ->) | (e & ->)].
  2: { rewrite edge_of_failed by reflexivity. cbn [lift]. rewrite run_ret.
       eexists _, _, w1, sent1. split; [reflexivity | ]. split; [exact Hcalls1 | ].
       unfold claims_run_outcome. cbn.
       split; [reflexivity | ]. split; [reflexivity | ]. split; [lia | ]. right.
       split; [reflexivity | ]. split; [eauto | ]. split; [reflexivity | lia]. }
  set (s1 := merge input _).
  assert (Hedge1 : edge extract_claim s1 = inr (Goto assess_severity)) by reflexivity.
  rewrite Hedge1. cbn [lift]. rewrite run_ret.
  destruct (claims_step_report assess_severity s1 w1) as
    (u2 & w2 & sent2 & Hrun2 & Hcalls2 & Hl2 & Hcase2); [intros _; cbn; discriminate | ].
  unfold run. cbn [run_from]. fold step. fold run.
  unfold bind at 1. rewrite Hrun2.
  destruct Hcase2 as [(Hone2 & sev & Hin & ->) | (e & ->)].
  2: { rewrite edge_of_failed by reflexivity. cbn [lift]. rewrite run_ret.
       eexists _, _, w2, (sent1 ++ sent2). split; [reflexivity | ].
       split; [rewrite Hcalls2, Hcalls1, app_assoc; reflexivity | ].
       unfold claims_run_outcome. cbn. rewrite ?length_app.
       split; [reflexivity | ]. split; [reflexivity | ]. split; [lia | ]. right.
       split; [reflexivity | ]. split; [ | split; [reflexivity | lia]].
       eexists. unfold get_errors. cbn. reflexivity. }
  set (s2 := merge s1 _).
  assert (Hedge2 : edge assess_severity s2 = inr (Goto route_claim)) by reflexivity.
  rewrite Hedge2. cbn [lift]. rewrite run_ret.
  destruct (claims_step_report route_claim s2 w2) as
    (u3 & w3 & sent3 & Hrun3 & Hcalls3 & Hl3 & Hcase3); [intros _; cbn; discriminate | ].
  unfold run. cbn [run_from]. fold step.
  unfold bind at 1. rewrite Hrun3. cbn [edge lift]. rewrite run_ret.
  eexists _, _, w3, (sent1 ++ sent2 ++ sent3). split; [reflexivity | ].
  split; [rewrite Hcalls3, Hcalls2, Hcalls1, <- !app_assoc; reflexivity | ].
  unfold claims_run_outcome.
  destruct Hcase3 as [(Hone3 & r & ->) | (e & ->)]; cbn; rewrite ?length_app.
  - split; [reflexivity | ]. split; [reflexivity | ]. split; [lia | ]. left.
    split; [reflexivity | ]. split; [reflexivity | ]. split; [lia | ].
    split; [reflexivity | ]. split; [discriminate | ].
    split; [eauto | discriminate].
  - split; [reflexivity | ]. split; [reflexivity | ]. split; [lia | ]. right.
    split; [reflexivity | ]. split; [ | split; [reflexivity | lia]].
    eexists. unfold get_errors. cbn. reflexivity.
Qed.

End ClaimsLedgerFacts.

Section ClaimsLedgerTheorems.
Import ClaimsWorkflow PipelineRun.

(** X5.  The Assessment Gate of gates.py decides by the interval of the severity
    alone: a response is accepted exactly when it loads as a record whose
    estimate lies in the interval of its severity, the record is returned as
    loaded, and whatever is rejected is rejected with a [ValueError]. *)
Theorem gates_assessment_gate_verdict
    (load : string -> exn + SeverityAssessment) (format_float : pyfloat -> string)
    (response : string) :
  match gate2_cost_range_ok load format_float response with
  | inr v =>
      load response = inr v /\ gates_interval (severity v) (est_cost v)
  | inl e =>
      is_ValueError e = true
      /\ (forall v, load response = inr v ->
                    ~ gates_interval (severity v) (est_cost v))
  end.
Proof.
  destruct (gate2_cost_range_ok load format_float response) as [e | v] eqn:Hg.
  - split; [exact (gates_gate2_rejects_with_ValueError load format_float _ _ Hg) | ].
    intros v Hload Hin.
    assert (Hacc : gate2_cost_range_ok load format_float response = inr v)
      by (apply gates_gate2_accepts_iff; auto).
    congruence.
  - exact (proj1 (gates_gate2_accepts_iff load format_float response v) Hg).
Qed.

(** X6.  Every run of the claims-workflow graph returns, after one to three
    steps and at most one call per step, the record it was given with
    [fnol] and [model] unchanged, in one of two conditions.  Completed:
    all three steps ran with one call each, [errors] is as it was on entry,
    and the claim, an assessment whose estimate lies in the interval of its
    severity, and the routing are present.  Failed: exactly one entry was
    appended to the errors of the input, and the routing is as on entry. *)
Theorem claims_run_outcomes
    (chat : endpoint string)
    (load_ClaimInformation : string -> exn + ClaimInformation)
    (load_SeverityAssessment : string -> exn + SeverityAssessment)
    (load_ClaimRouting : string -> exn + ClaimRouting)
    (model_dump_json : ClaimInformation -> string)
    (dumps_routing_input : ClaimInformation -> SeverityAssessment -> string)
    (format_float : pyfloat -> string)
    (P1 P2 P3 DEFAULT_MODEL : string)
    (input : ClaimState) (w : world) :
  exists visited final w' sent,
    invoke chat load_ClaimInformation load_SeverityAssessment load_ClaimRouting
      model_dump_json dumps_routing_input format_float P1 P2 P3 DEFAULT_MODEL
      input w = (Ret (visited, final), w')
    /\ calls w' = calls w ++ sent
    /\ (length sent <= length visited <= 3)%nat
    /\ claims_run_outcome input final (length visited) (length sent).
Proof.
  destruct (claims_invoke_returns chat load_ClaimInformation load_SeverityAssessment
              load_ClaimRouting model_dump_json dumps_routing_input format_float
              P1 P2 P3 DEFAULT_MODEL input w)
    as (visited & final & w' & sent & Hrun & Hcalls & Hout).
  exists visited, final, w', sent. split; [exact Hrun | ]. split; [exact Hcalls | ].
  split; [ | exact Hout].
  destruct Hout as (_ & _ & Hsteps & [(_ & -> & -> & _) | (_ & _ & _ & Hs)]); lia.
Qed.

End ClaimsLedgerTheorems.

Section ClaimsMissingKeys.
Import ClaimsWorkflow PipelineRun.

(** X7.  A Case Record that lacks a key a step reads.  Extraction reads [fnol]
    inside its [try]: without it the step sends nothing and returns the
    failure update with the entry "Extraction error: 'fnol'", and so does
    the whole run, which stops there.  The later steps read [claim_info]
    before their [try]: without it they raise [KeyError] instead of
    returning a failure update.  Routing reads [severity] inside its
    [try]: without it the step sends nothing and returns the failure update
    with the entry "Routing error: 'severity'". *)
Theorem claims_steps_on_missing_keys
    (chat : endpoint string)
    (load_ClaimInformation : string -> exn + ClaimInformation)
    (load_SeverityAssessment : string -> exn + SeverityAssessment)
    (load_ClaimRouting : string -> exn + ClaimRouting)
    (model_dump_json : ClaimInformation -> string)
    (dumps_routing_input : ClaimInformation -> SeverityAssessment -> string)
    (format_float : pyfloat -> string)
    (P1 P2 P3 DEFAULT_MODEL : string)
    (s : ClaimState) (w : world) :
  (fnol s = None ->
     extract_claim_node chat load_ClaimInformation P1 DEFAULT_MODEL s w
       = (Ret (failure_update s "Extraction error: " (Exn KeyError "'fnol'")), w)
     /\ invoke chat load_ClaimInformation load_SeverityAssessment load_ClaimRouting
          model_dump_json dumps_routing_input format_float P1 P2 P3 DEFAULT_MODEL s w
        = (let failed :=
             merge s (failure_update s "Extraction error: " (Exn KeyError "'fnol'")) in
           (Ret ([(extract_claim, failed)], failed), w)))
  /\ (claim_info s = None ->
        assess_severity_node chat load_SeverityAssessment model_dump_json format_float
          P2 DEFAULT_MODEL s w = (Raise (Exn KeyError "'claim_info'"), w)
        /\ route_claim_node chat load_ClaimRouting dumps_routing_input P3 DEFAULT_MODEL
             s w = (Raise (Exn KeyError "'claim_info'"), w))
  /\ (claim_info s <> None -> state_severity s = None ->
        route_claim_node chat load_ClaimRouting dumps_routing_input P3 DEFAULT_MODEL s w
          = (Ret (failure_update s "Routing error: " (Exn KeyError "'severity'")), w)).
Proof.
  split; [ | split].
  - intros Hf.
    assert (Hstep : extract_claim_node chat load_ClaimInformation P1 DEFAULT_MODEL s w
              = (Ret (failure_update s "Extraction error: " (Exn KeyError "'fnol'")), w)).
    { unfold extract_claim_node. rewrite Hf. reflexivity. }
    split; [exact Hstep | ].
    unfold invoke, recursion_limit, START. cbn [run_from node_function].
    unfold bind at 1. rewrite Hstep. rewrite edge_of_failed by reflexivity.
    reflexivity.
  - intros Hci. unfold assess_severity_node, route_claim_node. rewrite Hci.
    split; reflexivity.
  - intros Hci Hsev. unfold route_claim_node.
    destruct (claim_info s) as [info | ]; [ | congruence]. rewrite Hsev. reflexivity.
Qed.

End ClaimsMissingKeys.

Lemma claims_steps_on_missing_keys_witness :
  ClaimsWorkflow.extract_claim_node Samples.chatty Samples.not_json "extract"
    "gpt-4.1-nano" MoreSamples.no_notice fresh
  = (Ret (ClaimsWorkflow.failure_update MoreSamples.no_notice "Extraction error: "
            (Exn KeyError "'fnol'")), fresh)
  /\ ClaimsWorkflow.assess_severity_node Samples.chatty Samples.not_json
       (fun _ => "{}") (fun _ => "0.0") "assess" "gpt-4.1-nano"
       MoreSamples.no_notice fresh
     = (Raise (Exn KeyError "'claim_info'"), fresh).
Proof.
  pose proof (claims_steps_on_missing_keys Samples.chatty Samples.not_json
                Samples.not_json Samples.not_json (fun _ => "{}") (fun _ _ => "{}")
                (fun _ => "0.0") "extract" "assess" "route" "gpt-4.1-nano"
                MoreSamples.no_notice fresh) as (Hfnol & Hinfo & _).
  split.
  - apply Hfnol. reflexivity.
  - apply Hinfo. reflexivity.
Defined.

(** ** chaining-prompting.py: the three steps and the script *)

Section ScriptStepFacts.
Import ChainingScript ScriptRun.

Variable chat : endpoint string.
Variable load_ClaimInformation : string -> exn + ClaimInformation.
Variable load_SeverityAssessment : string -> exn + SeverityAssessment.
Variable load_ClaimRouting : string -> exn + ClaimRouting.
Variable model_dump_json : ClaimInformation -> string.
Variable dumps_routing_input : ClaimInformation -> option SeverityAssessment -> string.
Variable P1 P2 P3 : string.

(** A request with both messages given: one call, and a failure of the
    service wrapped as [RuntimeError]. *)
Lemma script_get_completion_spec (system_prompt user_text : string) (w : world) :
  get_completion chat
    (Some [ {| role := "system"; content := system_prompt |};
            {| role := "user"; content := user_text |} ]) None None w =
    (match chat (length (calls w)) (step_request system_prompt user_text) with
     | inl e => Raise (api_failure e)
     | inr text => Ret text
     end,
     called w [ApiCall (step_request system_prompt user_text)]).
Proof.
  unfold get_completion. cbn [app]. unfold try_except, call. rewrite run_ask.
  fold (step_request system_prompt user_text).
  destruct (chat _ _); reflexivity.
Qed.

Lemma extract_claim_information_spec (fnol_report : string) (w : world) :
  extract_claim_information chat load_ClaimInformation P1 fnol_report w =
    (match chat (length (calls w)) (step_request P1 fnol_report) with
     | inl e => Raise (api_failure e)
     | inr text =>
         match load_ClaimInformation text with
         | inr c => Ret c
         | inl _ => Raise unbound_e
         end
     end,
     called w [ApiCall (step_request P1 fnol_report)]).
Proof.
  unfold extract_claim_information, bind. rewrite script_get_completion_spec.
  destruct (chat _ _) as [e | text]; [reflexivity | ].
  unfold try_except, gate1_validate_claims_info.
  destruct (load_ClaimInformation text); reflexivity.
Qed.

Lemma route_claim_spec (c : ClaimInformation) (v : option SeverityAssessment)
    (w : world) :
  route_claim chat load_ClaimRouting dumps_routing_input P3 c v w =
    (match chat (length (calls w)) (step_request P3 (dumps_routing_input c v)) with
     | inl e => Raise (api_failure e)
     | inr text =>
         match load_ClaimRouting text with
         | inr r => Ret r
         | inl _ => Raise unbound_e
         end
     end,
     called w [ApiCall (step_request P3 (dumps_routing_input c v))]).
Proof.
  unfold route_claim, bind. rewrite script_get_completion_spec.
  destruct (chat _ _) as [e | text]; [reflexivity | ].
  unfold try_except, gate3_validate_routing.
  destruct (load_ClaimRouting text); reflexivity.
Qed.

Lemma assess_severity_spec (c : ClaimInformation) (w : world) :
  assess_severity chat load_SeverityAssessment model_dump_json P2 c w =
    (match chat (length (calls w)) (step_request P2 (model_dump_json c)) with
     | inl e => Raise (api_failure e)
     | inr text =>
         match gate2_cost_range_ok load_SeverityAssessment text with
         | inr v => Ret v
         | inl ex =>
             if is_ValueError ex then Raise ex
             else Raise (Exn RuntimeError ("Error assessing severity: " +:+ exn_str ex))
         end
     end,
     called w [ApiCall (step_request P2 (model_dump_json c))]).
Proof.
  unfold assess_severity, bind. rewrite script_get_completion_spec.
  destruct (chat _ _) as [e | text]; [reflexivity | ].
  unfold try_except.
  destruct (gate2_cost_range_ok load_SeverityAssessment text) as [ex | v];
    [ | reflexivity].
  cbn [lift raise]. destruct (is_ValueError ex); reflexivity.
Qed.

Lemma script_gate2_loaded_rejection (text : string) (v : SeverityAssessment) (ex : exn) :
  load_SeverityAssessment text = inr v ->
  gate2_cost_range_ok load_SeverityAssessment text = inl ex ->
  ex = unbound_e /\ ~ script_interval (severity v) (est_cost v).
Proof.
  intros Hload Hg. split.
  - revert Hg. unfold gate2_cost_range_ok, gate2_body. rewrite Hload.
    destruct v as [sev cost]; simpl.
    destruct sev; simpl;
      match goal with |- context [negb ?t] => destruct t; simpl end;
      intros H; inversion H; reflexivity.
  - intros Hin.
    assert (Hacc : gate2_cost_range_ok load_SeverityAssessment text = inr v)
      by (apply script_gate2_accepts_iff; auto).
    congruence.
Qed.

(** What leaves the script's gate: the slip error for every [ValueError]
    of its body, a [ValueError] for anything else. *)
Lemma script_gate2_rejections (text : string) (ex : exn) :
  gate2_cost_range_ok load_SeverityAssessment text = inl ex ->
  (ex = unbound_e
   /\ ((exists e1, load_SeverityAssessment text = inl e1 /\ is_ValueError e1 = true)
       \/ (exists v, load_SeverityAssessment text = inr v
                     /\ ~ script_interval (severity v) (est_cost v))))
  \/ (exists e1,
         load_SeverityAssessment text = inl e1 /\ is_ValueError e1 = false
         /\ ex = Exn ValueError ("Invalid severity assessment format: " +:+ exn_str e1)).
Proof.
  intros Hg.
  destruct (load_SeverityAssessment text) as [e1 | v] eqn:Hload.
  - revert Hg. unfold gate2_cost_range_ok, gate2_body. rewrite Hload.
    destruct (is_ValueError e1) eqn:Hcls; intros H; inversion H; subst.
    + left. split; [reflexivity | left; eauto].
    + right. eauto.
  - left.
    destruct (script_gate2_loaded_rejection text v ex Hload Hg) as (-> & Hout).
    split; [reflexivity | right; eauto].
Qed.

End ScriptStepFacts.

Section ScriptPhaseFacts.
Import ChainingScript ScriptRun.

(** A comprehension over a step that makes one call per item: it returns
    one result per item after one call per item, or it stops at the first
    item whose step raises, having called for the items up to that one. *)
Lemma comprehension_runs {A B} (f : A -> M B) (req : A -> request) :
  (forall x w, exists out, f x w = (out, called w [ApiCall (req x)])) ->
  forall (xs : list A) (w : world),
    (exists ys,
        comprehension f xs w = (Ret ys, called w (map (fun x => ApiCall (req x)) xs))
        /\ length ys = length xs)
    \/ (exists e k,
           (k < length xs)%nat
           /\ comprehension f xs w
              = (Raise e, called w (map (fun x => ApiCall (req x)) (take (S k) xs)))).
Proof.
  intros Hf xs. induction xs as [ | x rest IH]; intros w.
  - left. exists []. cbn. rewrite called_nil. auto.
  - destruct (Hf x w) as (out & Hx).
    assert (Hstep : comprehension f (x :: rest) w =
              match out with
              | Ret y =>
                  match comprehension f rest (called w [ApiCall (req x)]) with
                  | (Ret ys, w') => (Ret (y :: ys), w')
                  | (Raise e, w') => (Raise e, w')
                  end
              | Raise e => (Raise e, called w [ApiCall (req x)])
              end).
    { cbn [comprehension]. unfold bind at 1. rewrite Hx. destruct out; reflexivity. }
    rewrite Hstep. destruct out as [y | e].
    + destruct (IH (called w [ApiCall (req x)]))
        as [(ys & Hrun & Hlen) | (e & k & Hk & Hrun)]; rewrite Hrun, called_called.
      * left. exists (y :: ys). cbn [map app length]. auto.
      * right. exists e, (S k). split; [cbn [length]; lia | reflexivity].
    + right. exists e, 0%nat. split; [cbn [length]; lia | reflexivity].
Qed.

Lemma print_each_runs {A} (show : A -> string) (xs : list A) (w : world) :
  print_each show xs w = (Ret tt, said w (map show xs)).
Proof.
  revert w. induction xs as [ | x rest IH]; intros w.
  - cbn. rewrite said_nil. reflexivity.
  - cbn [print_each]. rewrite run_print, IH, said_said. reflexivity.
Qed.

Lemma length_zip {A B} (xs : list A) (ys : list B) :
  length xs = length ys -> length (zip xs ys) = length xs.
Proof.
  revert ys. induction xs as [ | x xs IH]; intros [ | y ys] H; cbn in *; try lia.
  rewrite IH; lia.
Qed.

End ScriptPhaseFacts.

Section ScriptTheorems.
Import ChainingScript ScriptRun ScriptPhases.

(** X8.  [extract_claim_information] and [route_claim] always make exactly one
    call.  A failure of the service reaches the caller as the
    [RuntimeError] of [get_completion]; a response the gate rejects reaches
    the caller as the [UnboundLocalError] of the handler [raise ve from e]
    whatever the loader objected to, so the loader's message is lost and
    neither step ever raises the gate's [ValueError]. *)
Theorem script_extraction_and_routing_outcomes
    (chat : endpoint string)
    (load_ClaimInformation : string -> exn + ClaimInformation)
    (load_ClaimRouting : string -> exn + ClaimRouting)
    (dumps_routing_input : ClaimInformation -> option SeverityAssessment -> string)
    (P1 P3 : string) (w : world) :
  (forall fnol_report,
      extract_claim_information chat load_ClaimInformation P1 fnol_report w =
        (match chat (length (calls w)) (step_request P1 fnol_report) with
         | inl e => Raise (api_failure e)
         | inr text =>
             match load_ClaimInformation text with
             | inr c => Ret c
             | inl _ => Raise unbound_e
             end
         end,
         called w [ApiCall (step_request P1 fnol_report)])
      /\ forall e,
           fst (extract_claim_information chat load_ClaimInformation P1 fnol_report w)
             = Raise e -> is_ValueError e = false)
  /\ (forall c v,
         route_claim chat load_ClaimRouting dumps_routing_input P3 c v w =
           (match chat (length (calls w)) (step_request P3 (dumps_routing_input c v)) with
            | inl e => Raise (api_failure e)
            | inr text =>
                match load_ClaimRouting text with
                | inr r => Ret r
                | inl _ => Raise unbound_e
                end
            end,
            called w [ApiCall (step_request P3 (dumps_routing_input c v))])
         /\ forall e,
              fst (route_claim chat load_ClaimRouting dumps_routing_input P3 c v w)
                = Raise e -> is_ValueError e = false).
Proof.
  split.
  - intros fnol_report. rewrite extract_claim_information_spec.
    split; [reflexivity | ]. cbn [fst]. intros e.
    destruct (chat _ _) as [e0 | text]; [intros H; inversion H; reflexivity | ].
    destruct (load_ClaimInformation text); intros H; inversion H; reflexivity.
  - intros c v. rewrite route_claim_spec.
    split; [reflexivity | ]. cbn [fst]. intros e.
    destruct (chat _ _) as [e0 | text]; [intros H; inversion H; reflexivity | ].
    destruct (load_ClaimRouting text); intros H; inversion H; reflexivity.
Qed.

(** X9.  [assess_severity] always makes exactly one call.  It returns the
    assessment exactly when the response loads as a record whose estimate
    lies in the interval of its severity.  An estimate outside the interval
    reaches the caller as a [RuntimeError] that carries the text of the
    slip error of the gate, not the range message; so does a response the
    loader rejects with a [ValueError]; only a loader failure of another
    class reaches the caller as a [ValueError]. *)
Theorem script_assessment_outcomes
    (chat : endpoint string)
    (load_SeverityAssessment : string -> exn + SeverityAssessment)
    (model_dump_json : ClaimInformation -> string)
    (P2 : string) (c : ClaimInformation) (w : world) :
  exists outcome,
    assess_severity chat load_SeverityAssessment model_dump_json P2 c w
      = (outcome, called w [ApiCall (step_request P2 (model_dump_json c))])
    /\ match chat (length (calls w)) (step_request P2 (model_dump_json c)) with
       | inl e => outcome = Raise (api_failure e)
       | inr text =>
           match load_SeverityAssessment text with
           | inr v =>
               (script_interval (severity v) (est_cost v) /\ outcome = Ret v)
               \/ (~ script_interval (severity v) (est_cost v)
                   /\ outcome = Raise (Exn RuntimeError
                                         ("Error assessing severity: "
                                          +:+ exn_str unbound_e)))
           | inl e1 =>
               outcome =
                 Raise (if is_ValueError e1
                        then Exn RuntimeError
                               ("Error assessing severity: " +:+ exn_str unbound_e)
                        else Exn ValueError
                               ("Invalid severity assessment format: " +:+ exn_str e1))
           end
       end.
Proof.
  rewrite assess_severity_spec. eexists. split; [reflexivity | ].
  destruct (chat _ _) as [e0 | text]; [reflexivity | ].
  destruct (gate2_cost_range_ok load_SeverityAssessment text) as [ex | v] eqn:Hg.
  - destruct (script_gate2_rejections load_SeverityAssessment text ex Hg)
      as [(-> & [(e1 & Hload & Hcls) | (v & Hload & Hout)]) | (e1 & Hload & Hcls & ->)];
      rewrite Hload.
    + rewrite Hcls. reflexivity.
    + right. split; [exact Hout | reflexivity].
    + rewrite Hcls. reflexivity.
  - apply script_gate2_accepts_iff in Hg as (Hload & Hin). rewrite Hload.
    left. split; [exact Hin | reflexivity].
Qed.

End ScriptTheorems.

Section ScriptRunTheorem.
Import ChainingScript ScriptRun ScriptPhases.

Lemma run_print_each {A B} (show : A -> string) (xs : list A) (k : unit -> M B)
    (w : world) :
  bind (print_each show xs) k w = k tt (said w (map show xs)).
Proof. unfold bind. rewrite print_each_runs. reflexivity. Qed.

(** X10.  The script works phase by phase over the whole list of notices: every
    extraction, then the extracted claims are printed, then every
    assessment, then the assessments are printed, then every routing.  One
    call is made per item, in the order of the notices.  The first step
    that raises ends the script: the results of the unfinished phase are
    not printed (a single rejected extraction leaves nothing printed at
    all), and no request of a later phase is sent.  When no step raises,
    the three lists returned have one entry per notice. *)
Theorem script_runs_phase_by_phase
    (chat : endpoint string)
    (load_ClaimInformation : string -> exn + ClaimInformation)
    (load_SeverityAssessment : string -> exn + SeverityAssessment)
    (load_ClaimRouting : string -> exn + ClaimRouting)
    (model_dump_json : ClaimInformation -> string)
    (dumps_routing_input : ClaimInformation -> option SeverityAssessment -> string)
    (show_claim : ClaimInformation -> string)
    (show_severity : SeverityAssessment -> string)
    (show_routing : ClaimRouting -> string)
    (P1 P2 P3 : string) (sample_fnols : list string) (w : world) :
  exists outcome w',
    script chat load_ClaimInformation load_SeverityAssessment load_ClaimRouting
      model_dump_json dumps_routing_input show_claim show_severity show_routing
      P1 P2 P3 sample_fnols w = (outcome, w')
    /\ ((exists e k,
            outcome = Raise e /\ (k < length sample_fnols)%nat
            /\ w' = called w (extraction_calls P1 (take (S k) sample_fnols)))
        \/ (exists e claims k,
               outcome = Raise e
               /\ length claims = length sample_fnols /\ (k < length claims)%nat
               /\ w' = called
                         (said (called w (extraction_calls P1 sample_fnols))
                            (map show_claim claims))
                         (assessment_calls P2 model_dump_json (take (S k) claims)))
        \/ (exists e claims assessments k,
               outcome = Raise e
               /\ length claims = length sample_fnols
               /\ length assessments = length sample_fnols
               /\ (k < length sample_fnols)%nat
               /\ w' = called
                         (said
                            (called
                               (said (called w (extraction_calls P1 sample_fnols))
                                  (map show_claim claims))
                               (assessment_calls P2 model_dump_json claims))
                            (map show_severity assessments))
                         (routing_calls P3 dumps_routing_input
                            (take (S k) (zip claims assessments))))
        \/ (exists claims assessments routings,
               outcome = Ret (claims, assessments, routings)
               /\ length claims = length sample_fnols
               /\ length assessments = length sample_fnols
               /\ length routings = length sample_fnols
               /\ w' = said
                         (called
                            (said
                               (called
                                  (said (called w (extraction_calls P1 sample_fnols))
                                     (map show_claim claims))
                                  (assessment_calls P2 model_dump_json claims))
                               (map show_severity assessments))
                            (routing_calls P3 dumps_routing_input
                               (zip claims assessments)))
                         (map show_routing routings))).
Proof.
  unfold script.
  destruct (comprehension_runs
              (extract_claim_information chat load_ClaimInformation P1)
              (step_request P1)
              ltac:(intros x w0; rewrite extract_claim_information_spec; eauto)
              sample_fnols w) as [(claims & Hrun1 & Hlen1) | (e & k & Hk & Hrun1)];
    unfold bind at 1; rewrite Hrun1.
  2: { eexists _, _. split; [reflexivity | ]. left. exists e, k. auto. }
  rewrite run_print_each.
  destruct (comprehension_runs
              (assess_severity chat load_SeverityAssessment model_dump_json P2)
              (fun c => step_request P2 (model_dump_json c))
              ltac:(intros x w0; rewrite assess_severity_spec; eauto)
              claims (said (called w (extraction_calls P1 sample_fnols))
                        (map show_claim claims)))
    as [(assessments & Hrun2 & Hlen2) | (e & k & Hk & Hrun2)];
    unfold bind at 1; unfold extraction_calls in *; rewrite Hrun2.
  2: { eexists _, _. split; [reflexivity | ]. right. left. exists e, claims, k. auto. }
  rewrite run_print_each.
  destruct (comprehension_runs
              (fun '(claim_info, severity_assessment) =>
                 route_claim chat load_ClaimRouting dumps_routing_input P3 claim_info
                   (Some severity_assessment))
              (fun '(c, v) => step_request P3 (dumps_routing_input c (Some v)))
              ltac:(intros [c v] w0; rewrite route_claim_spec; eauto)
              (zip claims assessments)
              (said (called (said (called w (extraction_calls P1 sample_fnols))
                               (map show_claim claims))
                       (assessment_calls P2 model_dump_json claims))
                 (map show_severity assessments)))
    as [(routings & Hrun3 & Hlen3) | (e & k & Hk & Hrun3)];
    unfold bind at 1; unfold extraction_calls, assessment_calls in *; rewrite Hrun3.
  2: { eexists _, _. split; [reflexivity | ]. right. right. left.
       exists e, claims, assessments, k.
       rewrite length_zip in Hk by lia.
       split; [reflexivity | ]. split; [lia | ]. split; [lia | ]. split; [lia | ].
       unfold routing_calls. f_equal. apply map_ext. intros [c v]. reflexivity. }
  rewrite run_print_each.
  eexists _, _. split; [reflexivity | ]. right. right. right.
  exists claims, assessments, routings.
  rewrite length_zip in Hlen3 by lia.
  split; [reflexivity | ]. split; [lia | ]. split; [lia | ]. split; [lia | ].
  unfold routing_calls. do 2 f_equal. apply map_ext. intros [c v]. reflexivity.
Qed.

End ScriptRunTheorem.

(** ** base_agents.py: [RAGKnowledgePromptAgent.chunk_text] *)

Section ChunkFacts.
Import BaseAgents.

Lemma chars_String (c : ascii) (s : string) : chars (String c s) = c :: chars s.
Proof. reflexivity. Qed.

Lemma chars_lstrip (c : ascii) (s : string) :
  In c (chars (PyStr.lstrip s)) -> In c (chars s).
Proof.
  induction s as [ | a s IH]; cbn [PyStr.lstrip]; [auto | ].
  destruct (PyStr.is_space a); [ | auto].
  intros H. rewrite chars_String. right. auto.
Qed.

Lemma chars_rstrip (c : ascii) (s : string) :
  In c (chars (PyStr.rstrip s)) -> In c (chars s).
Proof.
  induction s as [ | a s IH]; cbn [PyStr.rstrip]; [auto | ].
  rewrite chars_String.
  destruct (PyStr.rstrip s) as [ | b r] eqn:Hr.
  - destruct (PyStr.is_space a); [intros [] | ].
    rewrite chars_String. intros [H | []]. left. exact H.
  - rewrite chars_String. intros [H | H]; [left; exact H | right; apply IH; exact H].
Qed.

Lemma chars_strip (c : ascii) (s : string) :
  In c (chars (PyStr.strip s)) -> In c (chars s).
Proof. unfold PyStr.strip. intros H. apply chars_lstrip, chars_rstrip, H. Qed.

(** After the collapse the only whitespace left is the space. *)
Lemma collapse_whitespace_spaces (b : bool) (s : string) (c : ascii) :
  In c (chars (collapse_whitespace b s)) -> PyStr.is_space c = true -> c = " "%char.
Proof.
  revert b. induction s as [ | a s IH]; intros b; cbn [collapse_whitespace]; [intros [] | ].
  destruct (PyStr.is_space a) eqn:Ha.
  - destruct b; [apply IH | ].
    rewrite chars_String. intros [<- | H] Hc; [reflexivity | eapply IH; eauto].
  - rewrite chars_String. intros [<- | H] Hc; [congruence | eapply IH; eauto].
Qed.

Lemma chars_substring (c : ascii) (s : string) :
  forall n m, In c (chars (String.substring n m s)) -> In c (chars s).
Proof.
  induction s as [ | a s IH]; intros n m.
  - destruct n, m; cbn; auto.
  - destruct n as [ | n].
    + destruct m as [ | m]; cbn [String.substring]; [intros [] | ].
      rewrite !chars_String. intros [H | H]; [left; exact H | right; eapply IH; eauto].
    + cbn [String.substring]. rewrite chars_String. intros H. right. eapply IH; eauto.
Qed.

Lemma chars_slice (c : ascii) (s : string) (a b : Z) :
  In c (chars (slice s a b)) -> In c (chars s).
Proof. unfold slice. apply chars_substring. Qed.

Lemma rindex_char_found (c : ascii) (s : string) (i : nat) :
  rindex (String c EmptyString) s = Some i -> In c (chars s).
Proof.
  revert i. induction s as [ | a s IH]; intros i; cbn [rindex].
  - cbn. discriminate.
  - rewrite chars_String. destruct (rindex (String c EmptyString) s) as [j | ].
    + intros _. right. eapply IH; eauto.
    + cbn [String.prefix]. destruct (ascii_dec c a) as [-> | Hne]; [intros _; left; reflexivity | ].
      discriminate.
Qed.

Lemma contains_char_found (c : ascii) (s : string) :
  contains (String c EmptyString) s = true -> In c (chars s).
Proof.
  unfold contains. destruct (rindex _ s) as [i | ] eqn:Hr; [ | discriminate].
  intros _. eapply rindex_char_found; eauto.
Qed.

(** The text [chunk_text] works on holds no line break. *)
Lemma normalised_has_no_line_break (raw : string) :
  ~ In "010"%char (chars (PyStr.strip (collapse_whitespace false raw))).
Proof.
  intros H. apply chars_strip in H.
  apply collapse_whitespace_spaces in H; [discriminate | reflexivity].
Qed.

End ChunkFacts.

Section ChunkLoopFacts.
Import BaseAgents ChunkRun.

Variable chunk_size : Z.
Variable chunk_overlap : Z.
Variable body : string.
Hypothesis no_line_break : ~ In "010"%char (chars body).

(** On a text without line break the separator branch is dead: an
    iteration cuts at [min(start + chunk_size, len(text))]. *)
Lemma chunk_loop_step (fuel : nat) (acc : list chunk) (start id : Z) :
  start < len body ->
  chunk_loop chunk_size chunk_overlap (S fuel) body acc start id =
    let e := Z.min (start + chunk_size) (len body) in
    chunk_loop chunk_size chunk_overlap fuel body
      (acc ++ [ {| chunk_id := id; text := slice body start e; size := e - start;
                   start_char := Some start; end_char := Some e |} ])
      (e - chunk_overlap) (id + 1).
Proof.
  intros Hlt. cbn [chunk_loop].
  destruct (Z.ltb_spec start (len body)) as [_ | Hge]; [ | lia].
  destruct (contains separator (slice body start (Z.min (start + chunk_size) (len body))))
    eqn:Hc; [ | reflexivity].
  exfalso. apply no_line_break.
  apply contains_char_found in Hc. eapply chars_slice; eauto.
Qed.

Lemma chunk_loop_done (fuel : nat) (acc : list chunk) (start id : Z) :
  len body <= start ->
  chunk_loop chunk_size chunk_overlap (S fuel) body acc start id = Some acc.
Proof.
  intros Hge. cbn [chunk_loop].
  destruct (Z.ltb_spec start (len body)) as [Hlt | _]; [lia | reflexivity].
Qed.

(** With a positive overlap the next start stays below the end of the
    text, so no number of iterations ends the loop. *)
Lemma chunk_loop_never_ends (fuel : nat) :
  0 < chunk_overlap ->
  forall (acc : list chunk) (start id : Z),
    start < len body ->
    chunk_loop chunk_size chunk_overlap fuel body acc start id = None.
Proof.
  intros Hov. induction fuel as [ | fuel IH]; intros acc start id Hlt; [reflexivity | ].
  rewrite chunk_loop_step by exact Hlt. cbv zeta. apply IH. lia.
Qed.

End ChunkLoopFacts.

Lemma substring_all (s : string) : String.substring 0 (String.length s) s = s.
Proof. induction s as [ | a s IH]; cbn; [reflexivity | rewrite IH; reflexivity]. Qed.

Lemma substring_empty (n m : nat) : String.substring n m "" = "".
Proof. destruct n, m; reflexivity. Qed.

Lemma substring_split (s : string) :
  forall n m1 m2 : nat,
    String.substring n (m1 + m2) s
    = String.substring n m1 s +:+ String.substring (n + m1) m2 s.
Proof.
  induction s as [ | a s IH]; intros n m1 m2.
  - rewrite !substring_empty. reflexivity.
  - destruct n as [ | n].
    + destruct m1 as [ | m1]; cbn [Nat.add String.substring].
      * rewrite append_empty. reflexivity.
      * rewrite append_String. f_equal. apply (IH 0%nat).
    + cbn [Nat.add String.substring]. apply IH.
Qed.

Lemma length_substring (s : string) :
  forall n m : nat,
    (n + m <= String.length s)%nat -> String.length (String.substring n m s) = m.
Proof.
  induction s as [ | a s IH]; intros n m H; cbn [String.length] in H.
  - assert (n = 0%nat) by lia. assert (m = 0%nat) by lia. subst. reflexivity.
  - destruct n as [ | n].
    + destruct m as [ | m]; cbn [String.substring String.length]; [reflexivity | ].
      rewrite IH; [reflexivity | lia].
    + cbn [String.substring]. apply IH. lia.
Qed.

Section SliceFacts.
Import BaseAgents.

Lemma slice_inside (s : string) (a b : Z) :
  0 <= a <= b -> b <= len s ->
  slice s a b = String.substring (Z.to_nat a) (Z.to_nat (b - a)) s.
Proof.
  intros Hab Hb. unfold slice.
  destruct (Z.ltb_spec a 0); [lia | ]. destruct (Z.ltb_spec b 0); [lia | ].
  rewrite !Z.min_l by lia. reflexivity.
Qed.

Lemma slice_app (s : string) (a e b : Z) :
  0 <= a <= e -> e <= b -> b <= len s ->
  slice s a e +:+ slice s e b = slice s a b.
Proof.
  intros Hae Heb Hb. rewrite !slice_inside by lia.
  replace (Z.to_nat (b - a)) with (Z.to_nat (e - a) + Z.to_nat (b - e))%nat by lia.
  rewrite substring_split. do 2 f_equal. lia.
Qed.

Lemma slice_whole (s : string) : slice s 0 (len s) = s.
Proof.
  rewrite slice_inside by (unfold len; lia).
  unfold len. rewrite Z.sub_0_r, Nat2Z.id. apply substring_all.
Qed.

Lemma slice_empty (s : string) (a : Z) : 0 <= a <= len s -> slice s a a = "".
Proof.
  intros H. rewrite slice_inside by lia. rewrite Z.sub_diag.
  generalize (Z.to_nat a). clear. induction s as [ | c s IH]; intros [ | n]; cbn; auto.
Qed.

Lemma len_slice (s : string) (a b : Z) :
  0 <= a <= b -> b <= len s -> len (slice s a b) = b - a.
Proof.
  intros Hab Hb. rewrite slice_inside by lia. unfold len in *.
  rewrite length_substring by lia. lia.
Qed.

End SliceFacts.

Section ChunkTilingFacts.
Import BaseAgents ChunkRun.

Variable chunk_size : Z.
Variable body : string.
Hypothesis no_line_break : ~ In "010"%char (chars body).
Hypothesis positive_size : 0 < chunk_size.

(** Without overlap the loop tiles what is left of the text and ends. *)
Lemma chunk_loop_tiles (n : nat) :
  forall (acc : list chunk) (start id : Z),
    0 <= start <= len body ->
    (Z.to_nat (len body - start) <= n)%nat ->
    exists pieces,
      tiles body chunk_size start id pieces (len body)
      /\ forall fuel,
           (length pieces < fuel)%nat ->
           chunk_loop chunk_size 0 fuel body acc start id = Some (acc ++ pieces).
Proof.
  induction n as [ | n IH]; intros acc start id Hstart Hn.
  - exists []. split; [cbn; lia | ].
    intros [ | fuel] Hfuel; [cbn in Hfuel; lia | ].
    rewrite chunk_loop_done by lia. rewrite app_nil_r. reflexivity.
  - destruct (Z.eq_dec start (len body)) as [-> | Hne].
    + exists []. split; [reflexivity | ].
      intros [ | fuel] Hfuel; [cbn in Hfuel; lia | ].
      rewrite chunk_loop_done by lia. rewrite app_nil_r. reflexivity.
    + set (e := Z.min (start + chunk_size) (len body)).
      set (c := {| chunk_id := id; text := slice body start e; size := e - start;
                   start_char := Some start; end_char := Some e |}).
      destruct (IH (acc ++ [c]) e (id + 1)) as (pieces & Htiles & Hrun);
        [unfold e; lia | unfold e; lia | ].
      exists (c :: pieces). split.
      * cbn [tiles]. fold e. cbn [c chunk_id start_char end_char size text].
        repeat split; auto. unfold e. lia.
      * intros [ | fuel] Hfuel; [cbn in Hfuel; lia | ].
        rewrite (chunk_loop_step chunk_size 0 body no_line_break) by lia.
        cbv zeta. fold e. fold c. rewrite Z.sub_0_r.
        rewrite Hrun by (cbn [length] in Hfuel; lia).
        rewrite <- app_assoc. reflexivity.
Qed.

Lemma tiles_joined (pieces : list chunk) :
  forall start id,
    0 <= start <= len body ->
    tiles body chunk_size start id pieces (len body) ->
    joined pieces = slice body start (len body)
    /\ Forall (fun c => size c = len (text c) /\ 0 < size c <= chunk_size) pieces.
Proof.
  induction pieces as [ | c rest IH]; intros start id Hstart Htiles.
  - cbn in Htiles. subst start. cbn [joined fold_right].
    rewrite slice_empty by lia. split; [reflexivity | constructor].
  - cbn [tiles] in Htiles.
    destruct Htiles as (_ & _ & _ & Hlt & Hsize & Htext & Hrest).
    set (e := Z.min (start + chunk_size) (len body)) in *.
    destruct (IH e (id + 1)) as (Hjoin & Hall); [unfold e; lia | exact Hrest | ].
    split.
    + cbn [joined fold_right]. fold (joined rest). rewrite Hjoin, Htext.
      apply slice_app; unfold e; lia.
    + constructor; [ | exact Hall]. rewrite Hsize, Htext.
      rewrite len_slice by (unfold e; lia). unfold e. lia.
Qed.

End ChunkTilingFacts.

Section ChunkTheorems.
Import BaseAgents ChunkRun.

Lemma chunk_loop_chars (chunk_size chunk_overlap : Z) (body : string) (fuel : nat) :
  forall (acc out : list chunk) (start id : Z),
    chunk_loop chunk_size chunk_overlap fuel body acc start id = Some out ->
    Forall (fun c => forall ch, In ch (chars (text c)) -> In ch (chars body)) acc ->
    Forall (fun c => forall ch, In ch (chars (text c)) -> In ch (chars body)) out.
Proof.
  induction fuel as [ | fuel IH]; intros acc out start id; cbn [chunk_loop];
    [discriminate | ].
  destruct (start <? len body); [ | intros H; inversion H; auto].
  intros Hrun Hacc. eapply IH; [exact Hrun | ].
  apply Forall_app. split; [exact Hacc | ].
  constructor; [ | constructor]. cbn [text]. intros ch. apply chars_slice.
Qed.

(** Every chunk the loop adds is the slice between the offsets it
    records. *)
Lemma chunk_loop_slices (chunk_size chunk_overlap : Z) (body : string) (fuel : nat) :
  forall (acc out : list chunk) (start id : Z),
    chunk_loop chunk_size chunk_overlap fuel body acc start id = Some out ->
    Forall (cut_from body) acc ->
    Forall (cut_from body) out.
Proof.
  induction fuel as [ | fuel IH]; intros acc out start id; cbn [chunk_loop];
    [discriminate | ].
  destruct (start <? len body); [ | intros H; inversion H; auto].
  intros Hrun Hacc. eapply IH; [exact Hrun | ].
  apply Forall_app. split; [exact Hacc | ].
  constructor; [ | constructor]. right. eexists _, _.
  cbn [start_char end_char text size]. repeat split; reflexivity.
Qed.

(** With a positive chunk size and no positive overlap every iteration moves
    the start forward, so the loop ends. *)
Lemma chunk_loop_ends (chunk_size chunk_overlap : Z) (body : string) :
  ~ In "010"%char (chars body) ->
  0 < chunk_size -> chunk_overlap <= 0 ->
  forall (n : nat) (acc : list chunk) (start id : Z),
    (Z.to_nat (len body - start) <= n)%nat ->
    exists out,
      forall fuel, (n < fuel)%nat ->
        chunk_loop chunk_size chunk_overlap fuel body acc start id = Some out.
Proof.
  intros Hnl Hpos Hov. induction n as [ | n IH]; intros acc start id Hn.
  - exists acc. intros [ | fuel] Hfuel; [lia | ].
    apply chunk_loop_done. lia.
  - destruct (Z_lt_le_dec start (len body)) as [Hlt | Hge].
    + set (e := Z.min (start + chunk_size) (len body)).
      destruct (IH (acc ++ [ {| chunk_id := id; text := slice body start e;
                                size := e - start; start_char := Some start;
                                end_char := Some e |} ])
                  (e - chunk_overlap) (id + 1)) as (out & Hout);
        [unfold e; lia | ].
      exists out. intros [ | fuel] Hfuel; [lia | ].
      rewrite (chunk_loop_step chunk_size chunk_overlap body Hnl) by exact Hlt.
      cbv zeta. fold e. apply Hout. lia.
    + exists acc. intros [ | fuel] Hfuel; [lia | ].
      apply chunk_loop_done. exact Hge.
Qed.

(** X11.  [chunk_text] returns on every text that fits in one chunk after
    normalisation: the text whole, as chunk 0 without offsets, and no chunk
    file.  With a positive chunk size and an overlap of zero or less it
    returns on every longer text as well, the same chunks whenever the loop
    is given enough iterations.  Whatever it returns is cut from the
    normalised text: each chunk is the whole text or the slice between the
    offsets it records, so no chunk holds a whitespace character other than
    the space.  Among the calls that return, the chunk file is left unwritten
    exactly when the text fits in one chunk; otherwise it holds the text and
    the size of each chunk, in order. *)
Theorem chunk_text_returns_normalised_text
    (chunk_size chunk_overlap : Z) (raw : string) :
  (len (normalised raw) <= chunk_size ->
   forall fuel,
     chunk_text chunk_size chunk_overlap fuel raw =
       Some {| chunks := [ {| chunk_id := 0; text := normalised raw;
                              size := len (normalised raw);
                              start_char := None; end_char := None |} ];
               written := None |})
  /\ (0 < chunk_size < len (normalised raw) -> chunk_overlap <= 0 ->
      exists result enough,
        forall fuel, (enough <= fuel)%nat ->
          chunk_text chunk_size chunk_overlap fuel raw = Some result)
  /\ (forall fuel result,
        chunk_text chunk_size chunk_overlap fuel raw = Some result ->
        Forall (cut_from (normalised raw)) (chunks result)
        /\ Forall (fun c => forall ch,
                     In ch (chars (text c)) -> PyStr.is_space ch = true ->
                     ch = " "%char)
             (chunks result)
        /\ (written result = None <-> len (normalised raw) <= chunk_size)
        /\ (chunk_size < len (normalised raw) ->
            written result = Some (map (fun c => (text c, size c)) (chunks result)))).
Proof.
  split; [ | split].
  - intros Hle fuel. unfold chunk_text. fold (normalised raw).
    destruct (Z.leb_spec (len (normalised raw)) chunk_size) as [_ | Hgt]; [reflexivity | lia].
  - intros [Hpos Hlong] Hov.
    destruct (chunk_loop_ends chunk_size chunk_overlap (normalised raw)
                (normalised_has_no_line_break raw) Hpos Hov
                (Z.to_nat (len (normalised raw))) [] 0 0) as (out & Hout); [lia | ].
    exists {| chunks := out; written := Some (map (fun c => (text c, size c)) out) |},
           (S (Z.to_nat (len (normalised raw)))).
    intros fuel Hfuel. unfold chunk_text. fold (normalised raw).
    destruct (Z.leb_spec (len (normalised raw)) chunk_size) as [Hle | _]; [lia | ].
    rewrite Hout by lia. reflexivity.
  - intros fuel result. unfold chunk_text. fold (normalised raw).
    assert (Hclean : forall ch, In ch (chars (normalised raw)) ->
                                PyStr.is_space ch = true -> ch = " "%char).
    { intros ch Hin. apply chars_strip in Hin.
      exact (collapse_whitespace_spaces false raw ch Hin). }
    destruct (Z.leb_spec (len (normalised raw)) chunk_size) as [Hle | Hgt].
    + intros H. inversion H; subst. cbn [chunks written].
      split; [repeat constructor | ].
      split; [repeat constructor; exact Hclean | ].
      split; [tauto | lia].
    + destruct (chunk_loop chunk_size chunk_overlap fuel (normalised raw) [] 0 0)
        as [out | ] eqn:Hloop; [ | discriminate].
      intros H. inversion H; subst. cbn [chunks written].
      pose proof (chunk_loop_slices _ _ _ _ _ _ _ _ Hloop (List.Forall_nil _)) as Hcut.
      split; [exact Hcut | ].
      split; [ | split; [split; [discriminate | lia] | reflexivity]].
      pose proof (chunk_loop_chars _ _ _ _ _ _ _ _ Hloop (List.Forall_nil _)) as Hall.
      eapply Forall_impl; [exact Hall | ]. cbv beta. intros c Hc ch Hin. auto.
Qed.

(** X12.  With a positive overlap, a text that is not blank and longer than one
    chunk is never returned: after each chunk the next start lies [chunk_overlap] before
    the end of the chunk just cut, hence before the end of the text, and
    the loop's test never fails.  This is so for the defaults
    ([chunk_size = 2000], [chunk_overlap = 100]). *)
Theorem chunk_text_never_returns_with_overlap
    (chunk_size chunk_overlap : Z) (raw : string) :
  chunk_size < len (normalised raw) ->
  0 < len (normalised raw) ->
  0 < chunk_overlap ->
  forall fuel, chunk_text chunk_size chunk_overlap fuel raw = None.
Proof.
  intros Hlong Hsome Hov fuel. unfold chunk_text. fold (normalised raw).
  destruct (Z.leb_spec (len (normalised raw)) chunk_size) as [Hle | _]; [lia | ].
  rewrite (chunk_loop_never_ends chunk_size chunk_overlap (normalised raw)
             (normalised_has_no_line_break raw) fuel Hov); [reflexivity | exact Hsome].
Qed.

(** X13.  Without overlap and with a positive chunk size, a text longer than one
    chunk is returned after finitely many iterations, cut into consecutive
    chunks numbered from 0: each begins where the one before ended, is
    [chunk_size] long except possibly the last, records its own length as
    its size, and the chunk texts put end to end give back the normalised
    text.  The chunk file holds the text and the size of each chunk, in
    order. *)
Theorem chunk_text_tiles_without_overlap
    (chunk_size : Z) (raw : string) :
  0 < chunk_size ->
  chunk_size < len (normalised raw) ->
  exists result enough,
    (forall fuel, (enough <= fuel)%nat -> chunk_text chunk_size 0 fuel raw = Some result)
    /\ tiles (normalised raw) chunk_size 0 0 (chunks result) (len (normalised raw))
    /\ joined (chunks result) = normalised raw
    /\ Forall (fun c => size c = len (text c) /\ 0 < size c <= chunk_size)
         (chunks result)
    /\ written result = Some (map (fun c => (text c, size c)) (chunks result)).
Proof.
  intros Hpos Hlong.
  destruct (chunk_loop_tiles chunk_size (normalised raw)
              (normalised_has_no_line_break raw) Hpos
              (Z.to_nat (len (normalised raw))) [] 0 0)
    as (pieces & Htiles & Hrun); [unfold len; lia | lia | ].
  destruct (tiles_joined chunk_size (normalised raw) Hpos pieces 0 0) as (Hjoin & Hall);
    [unfold len; lia | exact Htiles | ].
  exists {| chunks := pieces;
            written := Some (map (fun c => (text c, size c)) pieces) |},
         (S (length pieces)).
  cbn [chunks written]. split; [ | split; [exact Htiles | split; [ | split; auto]]].
  - intros fuel Hfuel. unfold chunk_text. fold (normalised raw).
    destruct (Z.leb_spec (len (normalised raw)) chunk_size) as [Hle | _]; [lia | ].
    rewrite Hrun by lia. reflexivity.
  - rewrite Hjoin. apply slice_whole.
Qed.

End ChunkTheorems.

Lemma chunk_text_returns_normalised_text_witness :
  (forall fuel,
      BaseAgents.chunk_text 2000 100 fuel (" a" +:+ new_line +:+ " b ") =
        Some {| BaseAgents.chunks :=
                  [ {| BaseAgents.chunk_id := 0; BaseAgents.text := "a b";
                       BaseAgents.size := 3; BaseAgents.start_char := None;
                       BaseAgents.end_char := None |} ];
                BaseAgents.written := None |})
  /\ (exists result enough,
         forall fuel, (enough <= fuel)%nat ->
           BaseAgents.chunk_text 5 (-2) fuel "hello wide world" = Some result).
Proof.
  split.
  - pose proof (chunk_text_returns_normalised_text 2000 100 (" a" +:+ new_line +:+ " b "))
      as (Hshort & _).
    apply Hshort. vm_compute. discriminate.
  - pose proof (chunk_text_returns_normalised_text 5 (-2) "hello wide world")
      as (_ & Hlong & _).
    apply Hlong; [ | lia]. split; [lia | vm_compute; reflexivity].
Defined.

Lemma chunk_text_never_returns_with_overlap_witness :
  BaseAgents.chunk_text 5 2 1000 "hello wide world" = None.
Proof.
  apply (chunk_text_never_returns_with_overlap 5 2 "hello wide world").
  - vm_compute. reflexivity.
  - vm_compute. reflexivity.
  - lia.
Defined.

Lemma chunk_text_tiles_without_overlap_witness :
  exists result enough,
    (forall fuel, (enough <= fuel)%nat ->
                  BaseAgents.chunk_text 5 0 fuel "hello wide world" = Some result)
    /\ ChunkRun.tiles (ChunkRun.normalised "hello wide world") 5 0 0
         (BaseAgents.chunks result) (BaseAgents.len (ChunkRun.normalised "hello wide world"))
    /\ ChunkRun.joined (BaseAgents.chunks result) = ChunkRun.normalised "hello wide world"
    /\ Forall (fun c => BaseAgents.size c = BaseAgents.len (BaseAgents.text c)
                        /\ 0 < BaseAgents.size c <= 5)
         (BaseAgents.chunks result)
    /\ BaseAgents.written result
       = Some (map (fun c => (BaseAgents.text c, BaseAgents.size c))
                 (BaseAgents.chunks result)).
Proof.
  apply (chunk_text_tiles_without_overlap 5 "hello wide world").
  - lia.
  - vm_compute. reflexivity.
Defined.

(** ** base_agents.py: [ActionPlanningAgent.extract_steps_from_prompt] *)

Section PlanFacts.
Import BaseAgents PlanRun.

Lemma for_raw_steps_acc (raw : list string) :
  forall acc, for_raw_steps raw acc = acc ++ omap cleaned raw.
Proof.
  induction raw as [ | line rest IH]; intros acc; cbn [for_raw_steps].
  - cbn. rewrite app_nil_r. reflexivity.
  - change (omap cleaned (line :: rest))
      with (match cleaned line with
            | Some step => step :: omap cleaned rest
            | None => omap cleaned rest
            end).
    unfold cleaned at 1. destruct (PyStr.truthy (PyStr.strip line)); cbn [negb].
    + destruct (PyStr.truthy (drop_list_marks (PyStr.strip line))).
      * rewrite IH, <- app_assoc. reflexivity.
      * apply IH.
    + apply IH.
Qed.

Lemma truthy_spec (s : string) : PyStr.truthy s = true <-> s <> "".
Proof. destruct s; cbn; split; congruence. Qed.

Lemma rstrip_tail (c : ascii) (s : string) :
  PyStr.rstrip (String c s) = String c s -> s <> "" -> PyStr.rstrip s = s.
Proof.
  cbn [PyStr.rstrip]. destruct (PyStr.rstrip s) as [ | b r] eqn:Hr.
  - destruct (PyStr.is_space c); intros H Hne; inversion H; congruence.
  - intros H _. inversion H. reflexivity.
Qed.

Lemma rstrip_idempotent (s : string) : PyStr.rstrip (PyStr.rstrip s) = PyStr.rstrip s.
Proof.
  induction s as [ | c s IH]; [reflexivity | ].
  cbn [PyStr.rstrip]. destruct (PyStr.rstrip s) as [ | b r] eqn:Hr.
  - destruct (PyStr.is_space c) eqn:Hc; [reflexivity | ].
    cbn [PyStr.rstrip]. rewrite Hc. reflexivity.
  - change (PyStr.rstrip (String c (String b r))) with
      (match PyStr.rstrip (String b r) with
       | "" => if PyStr.is_space c then "" else String c ""
       | r' => String c r'
       end).
    rewrite IH. reflexivity.
Qed.

Lemma rstrip_drop_list_marks (s : string) :
  PyStr.rstrip s = s -> PyStr.rstrip (drop_list_marks s) = drop_list_marks s.
Proof.
  induction s as [ | c s IH]; intros H; [reflexivity | ].
  cbn [drop_list_marks]. destruct (is_list_mark c); [ | exact H].
  destruct s as [ | b s']; [reflexivity | ].
  apply IH. eapply rstrip_tail; [exact H | discriminate].
Qed.

Lemma is_space_is_list_mark (c : ascii) : PyStr.is_space c = true -> is_list_mark c = true.
Proof. intros H. unfold is_list_mark. rewrite H. apply orb_true_r. Qed.

Lemma drop_list_marks_idempotent (s : string) :
  drop_list_marks (drop_list_marks s) = drop_list_marks s.
Proof.
  induction s as [ | c s IH]; [reflexivity | ].
  cbn [drop_list_marks]. destruct (is_list_mark c) eqn:Hc; [exact IH | ].
  cbn [drop_list_marks]. rewrite Hc. reflexivity.
Qed.

Lemma lstrip_drop_list_marks (s : string) :
  PyStr.lstrip (drop_list_marks s) = drop_list_marks s.
Proof.
  induction s as [ | c s IH]; [reflexivity | ].
  cbn [drop_list_marks]. destruct (is_list_mark c) eqn:Hc; [exact IH | ].
  cbn [PyStr.lstrip]. destruct (PyStr.is_space c) eqn:Hs; [ | reflexivity].
  apply is_space_is_list_mark in Hs. congruence.
Qed.

Lemma chars_drop_list_marks (c : ascii) (s : string) :
  In c (chars (drop_list_marks s)) -> In c (chars s).
Proof.
  induction s as [ | a s IH]; cbn [drop_list_marks]; [auto | ].
  destruct (is_list_mark a); [ | auto].
  intros H. rewrite chars_String. right. auto.
Qed.

(** What the cleaning keeps of a line is a clean step. *)
Lemma cleaned_is_clean (line step : string) :
  ~ In "010"%char (chars line) ->
  cleaned line = Some step -> clean_step step.
Proof.
  unfold cleaned. intros Hnl.
  destruct (PyStr.truthy (PyStr.strip line)); [ | discriminate].
  destruct (PyStr.truthy (drop_list_marks (PyStr.strip line))) eqn:Ht; [ | discriminate].
  intros H. inversion H; subst. clear H.
  split; [apply truthy_spec; exact Ht | ].
  split; [ | split].
  - unfold PyStr.strip at 1. rewrite lstrip_drop_list_marks.
    apply rstrip_drop_list_marks. unfold PyStr.strip. apply rstrip_idempotent.
  - apply drop_list_marks_idempotent.
  - intros Hin. apply Hnl. apply chars_strip. eapply chars_drop_list_marks; eauto.
Qed.

(** A clean step is kept as it is. *)
Lemma clean_is_kept (step : string) : clean_step step -> cleaned step = Some step.
Proof.
  intros (Hne & Hstrip & Hdrop & _). unfold cleaned. rewrite Hstrip, Hdrop.
  destruct step; [congruence | reflexivity].
Qed.

End PlanFacts.

Section SplitFacts.
Import BaseAgents PlanRun.

Lemma split_not_nil (sep : ascii) (s : string) : split sep s <> [].
Proof.
  induction s as [ | c s IH]; cbn [split]; [discriminate | ].
  destruct (Ascii.eqb c sep); [discriminate | ].
  destruct (split sep s); [contradiction | discriminate].
Qed.

Lemma split_pieces (sep : ascii) (s : string) (piece : string) :
  In piece (split sep s) -> ~ In sep (chars piece).
Proof.
  revert piece. induction s as [ | c s IH]; intros piece; cbn [split].
  - intros [<- | []]. intros [].
  - destruct (Ascii.eqb_spec c sep) as [-> | Hne].
    + intros [<- | H]; [intros [] | apply IH; exact H].
    + destruct (split sep s) as [ | first others] eqn:Hs;
        [exfalso; eapply split_not_nil; eauto | ].
      intros [<- | H].
      * rewrite chars_String. intros [Heq | Hin]; [congruence | ].
        apply (IH first); [left; reflexivity | exact Hin].
      * apply IH. right. exact H.
Qed.

Lemma split_one_piece (sep : ascii) (s : string) :
  ~ In sep (chars s) -> split sep s = [s].
Proof.
  induction s as [ | c s IH]; intros H; [reflexivity | ].
  rewrite chars_String in H. cbn [split].
  destruct (Ascii.eqb_spec c sep) as [-> | Hne]; [exfalso; apply H; left; reflexivity | ].
  rewrite IH by (intros Hin; apply H; right; exact Hin). reflexivity.
Qed.

Lemma split_first_piece (sep : ascii) (s rest : string) :
  ~ In sep (chars s) ->
  split sep (s +:+ String sep rest) = s :: split sep rest.
Proof.
  induction s as [ | c s IH]; intros H.
  - rewrite append_empty. cbn [split]. rewrite Ascii.eqb_refl. reflexivity.
  - rewrite chars_String in H. rewrite append_String. cbn [split].
    destruct (Ascii.eqb_spec c sep) as [-> | Hne]; [exfalso; apply H; left; reflexivity | ].
    rewrite IH by (intros Hin; apply H; right; exact Hin). reflexivity.
Qed.

(** Splitting the lines joined gives the lines back. *)
Lemma split_join_lines (steps : list string) :
  steps <> [] ->
  Forall (fun step => ~ In "010"%char (chars step)) steps ->
  split "010" (join_lines steps) = steps.
Proof.
  induction steps as [ | step rest IH]; intros Hne Hall; [congruence | ].
  inversion Hall as [ | ? ? Hstep Hrest]; subst.
  destruct rest as [ | next rest].
  - cbn [join_lines]. apply split_one_piece. exact Hstep.
  - change (join_lines (step :: next :: rest))
      with (step +:+ new_line +:+ join_lines (next :: rest)).
    unfold new_line. rewrite append_String, append_empty.
    rewrite split_first_piece by exact Hstep.
    rewrite IH; [reflexivity | discriminate | exact Hrest].
Qed.

Lemma cleaned_lines_are_clean (lines : list string) :
  Forall (fun line => ~ In "010"%char (chars line)) lines ->
  Forall clean_step (omap cleaned lines).
Proof.
  induction lines as [ | line rest IH]; intros Hall; [constructor | ].
  inversion Hall as [ | ? ? Hline Hrest]; subst.
  change (omap cleaned (line :: rest))
    with (match cleaned line with
          | Some step => step :: omap cleaned rest
          | None => omap cleaned rest
          end).
  destruct (cleaned line) as [step | ] eqn:Hc; [ | auto].
  constructor; [eapply cleaned_is_clean; eauto | auto].
Qed.

Lemma clean_steps_are_kept (steps : list string) :
  Forall clean_step steps -> omap cleaned steps = steps.
Proof.
  induction 1 as [ | step rest Hstep _ IH]; [reflexivity | ].
  change (omap cleaned (step :: rest))
    with (match cleaned step with
          | Some s => s :: omap cleaned rest
          | None => omap cleaned rest
          end).
  rewrite (clean_is_kept step Hstep), IH. reflexivity.
Qed.

Lemma length_omap_le {A B} (f : A -> option B) (l : list A) :
  (length (omap f l) <= length l)%nat.
Proof.
  induction l as [ | x l IH]; [reflexivity | ].
  change (omap f (x :: l))
    with (match f x with Some y => y :: omap f l | None => omap f l end).
  destruct (f x); cbn [length]; lia.
Qed.

End SplitFacts.

Section PlanTheorems.
Import BaseAgents PlanRun.

Lemma drop_list_marks_app (marks rest : string) :
  Forall (fun c => is_list_mark c = true) (chars marks) ->
  drop_list_marks (marks +:+ rest) = drop_list_marks rest.
Proof.
  induction marks as [ | c marks IH]; intros H; [reflexivity | ].
  rewrite chars_String in H. inversion H as [ | ? ? Hc Hrest]; subst.
  rewrite append_String. cbn [drop_list_marks]. rewrite Hc. apply IH. exact Hrest.
Qed.

Lemma lstrip_app_marks (marks rest : string) :
  Forall (fun c => is_list_mark c = true) (chars marks) ->
  PyStr.lstrip rest = rest ->
  exists marks',
    PyStr.lstrip (marks +:+ rest) = marks' +:+ rest
    /\ Forall (fun c => is_list_mark c = true) (chars marks').
Proof.
  induction marks as [ | c marks IH]; intros H Hrest.
  - exists "". rewrite append_empty. split; [exact Hrest | constructor].
  - rewrite chars_String in H. inversion H as [ | ? ? Hc Hmarks]; subst.
    rewrite append_String. cbn [PyStr.lstrip]. destruct (PyStr.is_space c).
    + apply IH; assumption.
    + exists (String c marks). rewrite append_String. split; [reflexivity | ].
      rewrite chars_String. constructor; assumption.
Qed.

Lemma rstrip_app_clean (front rest : string) :
  rest <> "" -> PyStr.rstrip rest = rest ->
  PyStr.rstrip (front +:+ rest) = front +:+ rest.
Proof.
  intros Hne Hrest. induction front as [ | c front IH].
  - rewrite append_empty. exact Hrest.
  - rewrite append_String. cbn [PyStr.rstrip]. rewrite IH.
    destruct (front +:+ rest) eqn:Happ; [ | reflexivity].
    destruct front; [rewrite append_empty in Happ; congruence | ].
    rewrite append_String in Happ. discriminate.
Qed.

Lemma strip_parts (s : string) :
  s <> "" -> PyStr.strip s = s -> PyStr.lstrip s = s /\ PyStr.rstrip s = s.
Proof.
  intros Hne Hs. unfold PyStr.strip in Hs.
  assert (Hl : PyStr.lstrip s = s).
  { destruct s as [ | c s]; [congruence | ].
    cbn [PyStr.lstrip] in *. destruct (PyStr.is_space c) eqn:Hc; [ | reflexivity].
    exfalso.
    assert (Hlen : forall t, (String.length (PyStr.lstrip t) <= String.length t)%nat).
    { induction t as [ | a t IHt]; cbn [PyStr.lstrip]; [lia | ].
      destruct (PyStr.is_space a); cbn [String.length]; lia. }
    assert (Hlen' : forall t, (String.length (PyStr.rstrip t) <= String.length t)%nat).
    { induction t as [ | a t IHt]; cbn [PyStr.rstrip]; [lia | ].
      destruct (PyStr.rstrip t); [destruct (PyStr.is_space a) | ];
        cbn [String.length] in *; lia. }
    pose proof (Hlen' (PyStr.lstrip s)) as H1. pose proof (Hlen s) as H2.
    rewrite Hs in H1. cbn [String.length] in H1. lia. }
  split; [exact Hl | ]. rewrite Hl in Hs. exact Hs.
Qed.

(** X14.  [extract_steps_from_prompt] makes exactly one call and lets a failure
    of the service through.  From a reply it returns what the cleaning
    keeps of each line, in the order of the lines and at most one step per
    line; every step returned is clean: not empty, free of whitespace at
    both ends, not beginning with a digit, a dot, a closing bracket, a
    dash, a star or whitespace, and on one line. *)
Theorem planned_steps_are_clean
    (client : endpoint string) (knowledge prompt : string) (w : world) :
  exists outcome,
    extract_steps_from_prompt client knowledge prompt w
      = (outcome, called w [ApiCall (planning_request knowledge prompt)])
    /\ match client (length (calls w)) (planning_request knowledge prompt) with
       | inl e => outcome = Raise e
       | inr reply =>
           exists steps,
             outcome = Ret steps
             /\ steps = omap cleaned (split "010" reply)
             /\ Forall clean_step steps
             /\ (length steps <= length (split "010" reply))%nat
       end.
Proof.
  unfold extract_steps_from_prompt, call, bind. rewrite run_ask.
  destruct (client _ _) as [e | reply]; eexists; (split; [reflexivity | ]);
    [reflexivity | ].
  exists (omap cleaned (split "010" reply)). rewrite for_raw_steps_acc.
  split; [reflexivity | ]. split; [reflexivity | ].
  split; [ | apply length_omap_le].
  apply cleaned_lines_are_clean. apply List.Forall_forall. intros line.
  apply split_pieces.
Qed.

(** X15.  The cleaning is stable: the steps obtained from a reply, written one
    per line and cleaned again, come back unchanged. *)
Theorem planned_steps_are_stable (reply : string) :
  let steps := for_raw_steps (split "010" reply) [] in
  for_raw_steps (split "010" (join_lines steps)) [] = steps.
Proof.
  cbv zeta. rewrite !for_raw_steps_acc. cbn [app].
  assert (Hclean : Forall clean_step (omap cleaned (split "010" reply))).
  { apply cleaned_lines_are_clean. apply List.Forall_forall. intros line. apply split_pieces. }
  destruct (omap cleaned (split "010" reply)) as [ | step rest] eqn:Hsteps;
    [reflexivity | ].
  rewrite split_join_lines; [ | discriminate | ].
  - apply clean_steps_are_kept. exact Hclean.
  - eapply Forall_impl; [exact Hclean | ]. intros s (_ & _ & _ & H). exact H.
Qed.

(** X16.  The cleaning cannot tell a list marker from the beginning of a step:
    whatever run of digits, dots, closing brackets, dashes, stars and
    whitespace a line begins with is removed, so a step such as
    "3D model" is returned as "D model". *)
Theorem leading_list_marks_are_dropped (marks step : string) :
  Forall (fun c => is_list_mark c = true) (chars marks) ->
  clean_step step ->
  for_raw_steps [marks +:+ step] [] = [step].
Proof.
  intros Hmarks (Hne & Hstrip & Hdrop & _).
  destruct (strip_parts step Hne Hstrip) as (Hl & Hr).
  rewrite for_raw_steps_acc. cbn [app].
  change (omap cleaned [marks +:+ step])
    with (match cleaned (marks +:+ step) with Some s => [s] | None => [] end).
  unfold cleaned, PyStr.strip.
  destruct (lstrip_app_marks marks step Hmarks Hl) as (marks' & -> & Hmarks').
  rewrite (rstrip_app_clean marks' step Hne Hr).
  rewrite (drop_list_marks_app marks' step Hmarks'), Hdrop.
  assert (Htruthy : PyStr.truthy (marks' +:+ step) = true).
  { apply truthy_spec. destruct marks'; [rewrite append_empty; exact Hne | ].
    rewrite append_String. discriminate. }
  rewrite Htruthy. destruct step; [congruence | reflexivity].
Qed.

End PlanTheorems.

Lemma leading_list_marks_are_dropped_witness :
  BaseAgents.for_raw_steps ["3" +:+ "D model"] [] = ["D model"].
Proof.
  apply (leading_list_marks_are_dropped "3" "D model").
  - repeat constructor.
  - repeat split; try reflexivity; try discriminate.
    vm_compute. intuition discriminate.
Defined.

(** ** base_agents.py: [RoutingAgent.route] *)

Section FloatOrder.
Import BaseAgents.

Lemma Qgt_bool_iff (p q : Q) : negb (Qle_bool p q) = true <-> (q < p)%Q.
Proof.
  rewrite negb_true_iff, <- not_true_iff_false, Qle_bool_iff.
  split; [apply Qnot_le_lt | apply Qlt_not_le].
Qed.

Lemma Qgt_bool_false_iff (p q : Q) : negb (Qle_bool p q) = false <-> (p <= q)%Q.
Proof. rewrite negb_false_iff. apply Qle_bool_iff. Qed.

Lemma float_gt_trans (a b c : pyfloat) :
  float_gt a b = true -> float_gt b c = true -> float_gt a c = true.
Proof.
  destruct a as [p | [] | ], b as [q | [] | ], c as [r | [] | ]; cbn; try congruence.
  rewrite !Qgt_bool_iff. intros H1 H2. eapply Qlt_trans; eauto.
Qed.

(** A score that does not beat the best is beaten by whatever beats the
    best, unless it is not a number. *)
Lemma float_gt_passed (a s x : pyfloat) :
  float_gt a s = true -> float_gt x s = false -> x <> NaN -> float_gt a x = true.
Proof.
  destruct a as [p | [] | ], s as [q | [] | ], x as [r | [] | ]; cbn;
    try congruence; try reflexivity.
  rewrite Qgt_bool_iff, Qgt_bool_false_iff, Qgt_bool_iff. intros H1 H2 _.
  eapply Qle_lt_trans; eauto.
Qed.

(** A score that does not beat the best does not beat what beats it. *)
Lemma float_gt_kept (a s x : pyfloat) :
  float_gt a s = true -> float_gt x s = false -> float_gt x a = false.
Proof.
  destruct a as [p | [] | ], s as [q | [] | ], x as [r | [] | ]; cbn;
    try congruence; try reflexivity.
  rewrite Qgt_bool_iff, !Qgt_bool_false_iff. intros H1 H2.
  apply Qlt_le_weak. eapply Qle_lt_trans; eauto.
Qed.

End FloatOrder.

Section RouteFacts.
Import BaseAgents RouteRun.

Variable score : agent -> pyfloat.

(** The loop ends with the best it began with, when no remaining agent
    beats it, or with the first of the best among the remaining agents. *)
Lemma pick_spec (remaining : list agent) :
  forall (b : option agent) (s : pyfloat),
    (pick score remaining (b, s) = (b, s)
     /\ Forall (fun x => float_gt (score x) s = false) remaining)
    \/ (exists before a after,
           remaining = before ++ a :: after
           /\ pick score remaining (b, s) = (Some a, score a)
           /\ float_gt (score a) s = true
           /\ Forall (fun x => float_gt (score a) (score x) = true \/ score x = NaN) before
           /\ Forall (fun x => float_gt (score x) (score a) = false) after).
Proof.
  induction remaining as [ | x rest IH]; intros b s.
  - left. split; [reflexivity | constructor].
  - cbn [pick snd]. destruct (float_gt (score x) s) eqn:Hx.
    + right. destruct (IH (Some x) (score x))
        as [(Hpick & Hall) | (before & a & after & -> & Hpick & Hgt & Hbef & Haft)].
      * exists [], x, rest. repeat split; auto.
      * exists (x :: before), a, after. split; [reflexivity | ].
        split; [exact Hpick | ].
        split; [eapply float_gt_trans; eauto | ].
        split; [constructor; [left; exact Hgt | exact Hbef] | exact Haft].
    + destruct (IH b s)
        as [(Hpick & Hall) | (before & a & after & -> & Hpick & Hgt & Hbef & Haft)].
      * left. split; [exact Hpick | constructor; assumption].
      * right. exists (x :: before), a, after. split; [reflexivity | ].
        split; [exact Hpick | ]. split; [exact Hgt | ].
        split; [ | exact Haft]. constructor; [ | exact Hbef].
        destruct (score x) eqn:Hsx; try (left; eapply float_gt_passed; eauto;
                                         rewrite ?Hsx; discriminate).
        right. reflexivity.
Qed.

Lemma pick_first_best (agents : list agent) :
  first_best score agents (fst (pick score agents (None, Finite (-1))))
  /\ (forall a, fst (pick score agents (None, Finite (-1))) = Some a ->
                snd (pick score agents (None, Finite (-1))) = score a).
Proof.
  destruct (pick_spec agents None (Finite (-1)))
    as [(-> & Hall) | (before & a & after & -> & -> & Hgt & Hbef & Haft)]; cbn [fst snd].
  - split; [exact Hall | discriminate].
  - split; [ | intros a' H; inversion H; reflexivity].
    exists before, after. auto.
Qed.

End RouteFacts.

Section RouteRunFacts.
Import BaseAgents RouteRun.

Variable vector : Type.
Variable embeddings : endpoint (option vector).
Variable cosine : option vector -> vector -> exn + pyfloat.
Variable format_3f : pyfloat -> string.

(** The service answers every request with a vector, and every two vectors
    can be compared. *)
Variable embed : request -> vector.
Variable similarity : vector -> vector -> pyfloat.
Hypothesis service_up : forall n q, embeddings n q = inr (Some (embed q)).
Hypothesis comparable : forall a b, cosine (Some a) b = inr (similarity a b).

Variable user_input : string.

Let score (a : agent) : pyfloat :=
  similarity (embed (embedding_request user_input))
    (embed (embedding_request (description a))).

Lemma for_agents_run (remaining : list agent) :
  forall (best : option agent * pyfloat) (w : world),
    for_agents vector embeddings cosine format_3f
      (Some (embed (embedding_request user_input))) remaining best w
    = (Ret (pick score remaining best),
       said (called w (map (fun a => ApiCall (embedding_request (description a)))
                         remaining))
         (map (score_line format_3f score) remaining)).
Proof.
  induction remaining as [ | a rest IH]; intros best w.
  - cbn. rewrite called_nil, said_nil. reflexivity.
  - cbn [for_agents pick map]. unfold get_embedding, call.
    rewrite (run_ask_ok _ _ _ (Some (embed (embedding_request (description a)))))
      by apply service_up.
    rewrite comparable. cbn [lift]. rewrite run_ret, run_print.
    fold (score a). fold (score_line format_3f score a).
    destruct (float_gt (score a) (snd best)); rewrite IH; tidy_world; reflexivity.
Qed.

End RouteRunFacts.

Section RouteTheorem.
Import BaseAgents RouteRun.

(** X17.  When the embeddings service answers every request and the vectors can
    be compared, [route] asks for the embedding of the input and of every
    agent's description, in the order of the agents and without stopping at
    a good match, prints one score line per agent, and hands the input to
    the first of the best: the agent whose similarity is above -1, above
    that of every earlier agent with a comparable score and not below that
    of any later agent.  Of two agents with the same best score the earlier
    one is chosen; an agent whose similarity is not a number is never
    chosen.  When no similarity is above -1 no agent is called and the
    apology is returned. *)
Theorem route_selects_first_best
    (vector : Type) (embeddings : endpoint (option vector))
    (cosine : option vector -> vector -> exn + pyfloat)
    (format_3f : pyfloat -> string) (agents : list agent)
    (embed : request -> vector) (similarity : vector -> vector -> pyfloat)
    (user_input : string) (w : world) :
  (forall n q, embeddings n q = inr (Some (embed q))) ->
  (forall a b, cosine (Some a) b = inr (similarity a b)) ->
  let score (a : agent) :=
    similarity (embed (embedding_request user_input))
      (embed (embedding_request (description a))) in
  let w1 :=
    said (called w (ApiCall (embedding_request user_input)
                    :: map (fun a => ApiCall (embedding_request (description a))) agents))
      ((new_line +:+ "[Routing Agent] Evaluating agent matches...")
       :: map (score_line format_3f score) agents) in
  exists choice,
    first_best score agents choice
    /\ route vector embeddings cosine format_3f agents user_input w =
       match choice with
       | None => (Ret "Sorry, no suitable agent could be selected.", w1)
       | Some a =>
           ask AgentCall (func a) user_input (said w1 [selected_line format_3f score a])
       end.
Proof.
  intros Hup Hcos score w1.
  destruct (pick_first_best score agents) as (Hbest & Hscore).
  exists (fst (pick score agents (None, Finite (-1)))).
  split; [exact Hbest | ].
  unfold route, get_embedding, call.
  rewrite (run_ask_ok _ _ _ (Some (embed (embedding_request user_input)))) by apply Hup.
  rewrite run_print. unfold bind at 1.
  rewrite (for_agents_run vector embeddings cosine format_3f embed similarity Hup Hcos
             user_input agents).
  fold score. tidy_world. cbn [app]. fold w1.
  destruct (fst (pick score agents (None, Finite (-1)))) as [a | ] eqn:Hchoice;
    [ | reflexivity].
  rewrite run_print. rewrite (Hscore a eq_refl). reflexivity.
Qed.

End RouteTheorem.

Lemma route_selects_first_best_witness :
  let score (a : BaseAgents.agent) :=
    RouteSamples.closeness
      (RouteSamples.embed_length (BaseAgents.embedding_request "tests"))
      (RouteSamples.embed_length
         (BaseAgents.embedding_request (BaseAgents.description a))) in
  let w1 :=
    said (called fresh
            (ApiCall (BaseAgents.embedding_request "tests")
             :: map (fun a => ApiCall (BaseAgents.embedding_request
                                         (BaseAgents.description a)))
                  [RouteSamples.writer; RouteSamples.tester]))
      ((new_line +:+ "[Routing Agent] Evaluating agent matches...")
       :: map (RouteRun.score_line (fun _ => "0.000") score)
            [RouteSamples.writer; RouteSamples.tester]) in
  exists choice,
    RouteRun.first_best score [RouteSamples.writer; RouteSamples.tester] choice
    /\ BaseAgents.route Z RouteSamples.by_length RouteSamples.compare_lengths
         (fun _ => "0.000") [RouteSamples.writer; RouteSamples.tester] "tests" fresh
       = match choice with
         | None => (Ret "Sorry, no suitable agent could be selected.", w1)
         | Some a =>
             ask AgentCall (BaseAgents.func a) "tests"
               (said w1 [RouteRun.selected_line (fun _ => "0.000") score a])
         end.
Proof.
  apply (route_selects_first_best Z RouteSamples.by_length RouteSamples.compare_lengths
           (fun _ => "0.000") [RouteSamples.writer; RouteSamples.tester]
           RouteSamples.embed_length RouteSamples.closeness "tests" fresh).
  - intros n q. reflexivity.
  - intros a b. reflexivity.
Defined.

(** ** The refinement loops at their limits *)

Lemma range_nonpos (n : Z) : n <= 0 -> range n = [].
Proof. intros H. unfold range. replace (Z.to_nat n) with 0%nat by lia. reflexivity. Qed.

(** X18.  With a ceiling of zero or less no loop makes a call, and the three
    loops end in three different ways: [EvaluationAgent.evaluate] prints
    its notice and then raises [UnboundLocalError], because the response it
    is about to return was never assigned; [run_optimization_loop] returns
    [None]; [main] of demo.py prints the failure banner and an empty
    report. *)
Theorem loops_without_budget (N : Z) :
  N <= 0 ->
  (forall (client : endpoint string) (worker : oracle string string)
          (persona criteria p : string) (w : world),
      BaseAgents.evaluate client worker persona criteria N p w =
        (Raise (BaseAgents.unbound "response_from_worker"),
         said w [ new_line +:+ "⚠️ Max iterations (" +:+ pretty N
                  +:+ ") reached without full approval." ]))
  /\ (forall (create : endpoint string)
             (parse : endpoint (option EvaluatorOptimizerPro.EvaluationResult))
             (p : string) (w : world),
         EvaluatorOptimizerPro.run_optimization_loop create parse p N w = (Ret None, w))
  /\ (forall (client : endpoint string) (w : world),
         EvaluatorOptimizerDemo.main_with client N w =
           (Ret tt, said w (DemoRun.failure_prints ""))).
Proof.
  intros HN. split; [ | split].
  - intros. unfold BaseAgents.evaluate. rewrite (range_nonpos N HN).
    cbn [BaseAgents.for_interactions]. rewrite run_ret, run_print. reflexivity.
  - intros. unfold EvaluatorOptimizerPro.run_optimization_loop.
    rewrite (range_nonpos N HN). reflexivity.
  - intros. unfold EvaluatorOptimizerDemo.main_with. rewrite (range_nonpos N HN).
    cbn [EvaluatorOptimizerDemo.for_attempts]. rewrite run_ret. cbn [fst snd].
    rewrite !run_print. unfold print. cbn [EvaluatorOptimizerDemo.report_text].
    unfold DemoRun.failure_prints, said. cbn [calls stdout].
    rewrite <- !app_assoc. reflexivity.
Qed.

Lemma loops_without_budget_witness :
  EvaluatorOptimizerPro.run_optimization_loop
    (Samples.drafts "draft A") (Samples.verdicts Samples.objection_A)
    "Write a summary." 0 fresh = (Ret None, fresh).
Proof.
  pose proof (loops_without_budget 0 ltac:(lia)) as (_ & Hpro & _).
  apply Hpro.
Defined.

Lemma range_at (n : Z) (k : nat) :
  (k < Z.to_nat n)%nat ->
  exists rest,
    range n = map Z.of_nat (seq 0 k) ++ Z.of_nat k :: rest
    /\ length (map Z.of_nat (seq 0 k)) = k.
Proof.
  intros H. unfold range.
  replace (Z.to_nat n) with (k + S (Z.to_nat n - S k))%nat by lia.
  rewrite seq_app, map_app. cbn [seq map Nat.add].
  eexists. split; [reflexivity | ]. rewrite length_map, length_seq. reflexivity.
Qed.

(** X19.  When the evaluator first accepts at interaction [k] (after [k - 1]
    rejected interactions, within the ceiling), [EvaluationAgent.evaluate]
    returns the response of that interaction, its evaluation and
    [iterations = k], after three calls per rejected interaction and two
    for the accepted one: no instructions are requested for a response
    that was accepted. *)
Theorem agent_accepts_at_interaction
    (client : endpoint string) (worker : oracle string string)
    (persona criteria : string) (N : Z) (p : string)
    (before : list (string * string * string)) (response reply : string) (w : world) :
  (length before < Z.to_nat N)%nat ->
  AgentRun.answers worker client (length (calls w)) before ->
  Forall AgentRun.rejected before ->
  (forall q, worker (length (calls w) + 3 * length before)%nat q = inr response) ->
  (forall q, client (S (length (calls w) + 3 * length before)) q = inr reply) ->
  BaseAgents.accepted (PyStr.strip reply) = true ->
  exists w',
    BaseAgents.evaluate client worker persona criteria N p w =
      (Ret {| BaseAgents.final_response := response;
              BaseAgents.evaluation := PyStr.strip reply;
              BaseAgents.iterations := Z.of_nat (length before) + 1 |}, w')
    /\ length (calls w') = (length (calls w) + 3 * length before + 2)%nat.
Proof.
  intros Hlt Hans Hrej Hw Hc Hacc.
  destruct (range_at N (length before) Hlt) as (rest & Hsplit & Hl1).
  unfold BaseAgents.evaluate. unfold bind at 1. rewrite Hsplit.
  destruct (agent_rejected_run client worker persona criteria p before
              (map Z.of_nat (seq 0 (length before))) (Z.of_nat (length before) :: rest)
              {| BaseAgents.prompt_to_evaluate := p;
                 BaseAgents.response_from_worker := None;
                 BaseAgents.last_evaluation := None |} w Hl1 Hans Hrej)
    as (w1 & Hrun & Hcalls1).
  rewrite Hrun.
  destruct (agent_accepting_interaction client worker persona criteria p
              (Z.of_nat (length before)) rest
              (AgentRun.locals_after p
                 {| BaseAgents.prompt_to_evaluate := p;
                    BaseAgents.response_from_worker := None;
                    BaseAgents.last_evaluation := None |} before)
              w1 response reply)
    as (w2 & Hstep & Hcalls2).
  - rewrite Hcalls1. exact Hw.
  - rewrite Hcalls1. exact Hc.
  - exact Hacc.
  - rewrite Hstep. exists w2. split; [reflexivity | lia].
Qed.

Lemma agent_accepts_at_interaction_witness :
  exists w',
    BaseAgents.evaluate MoreSamples.second_time_yes MoreSamples.one_answer
      "You are an evaluator." "One sentence." 3 "What is the capital of France?" fresh =
      (Ret {| BaseAgents.final_response := "The capital of France is Paris.";
              BaseAgents.evaluation := PyStr.strip "Yes, it is one sentence.";
              BaseAgents.iterations := 1 + 1 |}, w')
    /\ length (calls w') = (0 + 3 * 1 + 2)%nat.
Proof.
  apply (agent_accepts_at_interaction MoreSamples.second_time_yes MoreSamples.one_answer
           "You are an evaluator." "One sentence." 3 "What is the capital of France?"
           [("The capital of France is Paris.", "No. Shorten it.", "No. Shorten it.")]
           "The capital of France is Paris." "Yes, it is one sentence." fresh).
  - cbn. lia.
  - cbn. repeat split; intros; reflexivity.
  - repeat constructor.
  - intros q. reflexivity.
  - intros q. reflexivity.
  - reflexivity.
Defined.

Section ProFailures.
Import EvaluatorOptimizerPro.

Variable create : endpoint string.
Variable parse : endpoint (option EvaluationResult).

Lemma range_first (N : Z) : 0 < N -> exists rest, range N = 0 :: rest.
Proof.
  intros H. destruct (range_at N 0) as (rest & Hr & _); [lia | ]. exists rest. exact Hr.
Qed.

(** A retried call that fails twice and is then answered. *)
Lemma run_retry_third {A B} (api : endpoint A) (q : request) (a : A) (e1 e2 : exn)
    (k : A -> M B) (w : world) :
  api (length (calls w)) q = inl e1 ->
  api (S (length (calls w))) q = inl e2 ->
  api (S (S (length (calls w)))) q = inr a ->
  bind (retry 3 (call api q)) k w = k a (called w [ApiCall q; ApiCall q; ApiCall q]).
Proof.
  intros H1 H2 H3. unfold bind. rewrite retry_again. unfold call at 1.
  rewrite run_ask, H1. rewrite retry_again. unfold call at 1.
  rewrite run_ask, length_calls_called_1, H2. rewrite retry_last. unfold call.
  rewrite run_ask, !length_calls_called_1, H3. tidy_world. reflexivity.
Qed.

(** A retried call that fails three times. *)
Lemma run_retry_exhausted {A B} (api : endpoint A) (q : request) (e1 e2 e3 : exn)
    (k : A -> M B) (w : world) :
  api (length (calls w)) q = inl e1 ->
  api (S (length (calls w))) q = inl e2 ->
  api (S (S (length (calls w)))) q = inl e3 ->
  bind (retry 3 (call api q)) k w =
    (Raise (Exn RetryError ("RetryError: " +:+ exn_str e3)),
     called w [ApiCall q; ApiCall q; ApiCall q]).
Proof.
  intros H1 H2 H3. unfold bind. rewrite retry_again. unfold call at 1.
  rewrite run_ask, H1. rewrite retry_again. unfold call at 1.
  rewrite run_ask, length_calls_called_1, H2. rewrite retry_last. unfold call.
  rewrite run_ask, !length_calls_called_1, H3. tidy_world. reflexivity.
Qed.

End ProFailures.

Section ProFailureTheorem.
Import EvaluatorOptimizerPro.

(** X20.  What failures do to the loop of demo_professional.py (with a ceiling of
    at least one cycle).  A generator that fails twice and then answers
    costs no cycle: its draft is judged as if it had come at once.  A
    generator that fails three times in a row ends the loop with
    [RetryError]: the loop does not return [None], and no judge is asked.
    A judge whose answer carries no parsed verdict ends the loop with
    [AttributeError].  And the [__main__] block announces an approved but
    empty report as a failure to converge. *)
Theorem professional_loop_failures
    (create : endpoint string) (parse : endpoint (option EvaluationResult))
    (p : string) (N : Z) (w : world) :
  0 < N ->
  let first := generator_request (final_prompt p None) in
  (forall e1 e2 d r,
      create (length (calls w)) first = inl e1 ->
      create (S (length (calls w))) first = inl e2 ->
      create (S (S (length (calls w)))) first = inr d ->
      parse (S (S (S (length (calls w))))) (evaluator_request d) = inr (Some r) ->
      is_compliant r = true ->
      run_optimization_loop create parse p N w =
        (Ret (Some d),
         called w [ApiCall first; ApiCall first; ApiCall first;
                   ApiCall (evaluator_request d)]))
  /\ (forall e1 e2 e3,
         create (length (calls w)) first = inl e1 ->
         create (S (length (calls w))) first = inl e2 ->
         create (S (S (length (calls w)))) first = inl e3 ->
         run_optimization_loop create parse p N w =
           (Raise (Exn RetryError ("RetryError: " +:+ exn_str e3)),
            called w [ApiCall first; ApiCall first; ApiCall first]))
  /\ (forall d,
         create (length (calls w)) first = inr d ->
         parse (S (length (calls w))) (evaluator_request d) = inr None ->
         run_optimization_loop create parse p N w =
           (Raise (Exn AttributeError "'NoneType' object has no attribute 'is_compliant'"),
            called w [ApiCall first; ApiCall (evaluator_request d)]))
  /\ (forall r,
         create (length (calls w)) (generator_request (final_prompt prompt None)) = inr "" ->
         parse (S (length (calls w))) (evaluator_request "") = inr (Some r) ->
         is_compliant r = true ->
         main create parse w =
           (Ret tt,
            said (called w [ApiCall (generator_request (final_prompt prompt None));
                            ApiCall (evaluator_request "")])
              [failed_banner])).
Proof.
  intros HN first. destruct (range_first N HN) as (rest & Hrange).
  repeat match goal with |- _ /\ _ => split end.
  - intros e1 e2 d r H1 H2 H3 Hp Hok. unfold run_optimization_loop. rewrite Hrange.
    cbn [for_iterations]. unfold generate, evaluate. fold first.
    rewrite (run_retry_third create first d e1 e2) by assumption.
    rewrite (run_retry_ok _ _ _ (Some r))
      by (rewrite calls_called, length_app; cbn [length];
          replace (length (calls w) + 3)%nat with (S (S (S (length (calls w))))) by lia;
          exact Hp).
    rewrite Hok. unfold ret. tidy_world. reflexivity.
  - intros e1 e2 e3 H1 H2 H3. unfold run_optimization_loop. rewrite Hrange.
    cbn [for_iterations]. unfold generate. fold first.
    rewrite (run_retry_exhausted create first e1 e2 e3) by assumption. reflexivity.
  - intros d H1 Hp. unfold run_optimization_loop. rewrite Hrange.
    cbn [for_iterations]. unfold generate, evaluate. fold first.
    rewrite (run_retry_ok _ _ _ d) by exact H1.
    rewrite (run_retry_ok _ _ _ None) by (rewrite length_calls_called_1; exact Hp).
    unfold raise. tidy_world. reflexivity.
  - intros r H1 Hp Hok. unfold main, run_optimization_loop, default_max_retries.
    destruct (range_first 6 ltac:(lia)) as (rest6 & ->).
    cbn [for_iterations]. unfold generate, evaluate.
    rewrite bind_assoc. rewrite (run_retry_ok _ _ _ "") by exact H1.
    rewrite bind_assoc.
    rewrite (run_retry_ok _ _ _ (Some r)) by (rewrite length_calls_called_1; exact Hp).
    rewrite Hok. rewrite run_ret. cbn [PyStr.truthy]. unfold print.
    tidy_world. reflexivity.
Qed.

End ProFailureTheorem.

Lemma professional_loop_failures_witness :
  EvaluatorOptimizerPro.run_optimization_loop (Samples.drafts "draft A")
    ProSamples.refusing "Write a summary." 6 fresh =
    (Raise (Exn AttributeError "'NoneType' object has no attribute 'is_compliant'"),
     called fresh
       [ApiCall (EvaluatorOptimizerPro.generator_request
                   (EvaluatorOptimizerPro.final_prompt "Write a summary." None));
        ApiCall (EvaluatorOptimizerPro.evaluator_request "draft A")]).
Proof.
  pose proof (professional_loop_failures (Samples.drafts "draft A") ProSamples.refusing
                "Write a summary." 6 fresh ltac:(lia)) as (_ & _ & Hrefusal & _).
  apply (Hrefusal "draft A"); reflexivity.
Defined.

(** ** challenge.py: what the summary request reads *)

Lemma substring_head (head rest : string) :
  String.substring 0 (String.length head) (head +:+ rest) = head.
Proof.
  induction head as [ | c head IH]; cbn [String.length].
  - rewrite append_empty. destruct rest; reflexivity.
  - rewrite append_String. cbn [String.substring]. rewrite IH. reflexivity.
Qed.

(** X21.  The request of the challenge's [SummaryAgent] reads the contract only
    through its first 300 characters, and the shared dict only through the
    keys "legal", "compliance" and "financial": two contracts that begin
    with the same 300 characters and two dicts that agree on these keys
    give the same request, whatever else they hold. *)
Theorem challenge_summary_request_reads_little
    (head rest rest' : string) (inputs inputs' : gmap string string) :
  String.length head = 300%nat ->
  inputs !! "legal" = inputs' !! "legal" ->
  inputs !! "compliance" = inputs' !! "compliance" ->
  inputs !! "financial" = inputs' !! "financial" ->
  ParallelChallenge.summary_request (head +:+ rest) inputs
  = ParallelChallenge.summary_request (head +:+ rest') inputs'.
Proof.
  intros Hlen Hl Hc Hf. unfold ParallelChallenge.summary_request.
  unfold ParallelChallenge.legal_findings, ParallelChallenge.compliance_findings,
    ParallelChallenge.financial_findings, ParallelChallenge.get.
  rewrite Hl, Hc, Hf. unfold ParallelChallenge.summary_user_prompt, PyStr.slice_to.
  rewrite <- Hlen, !substring_head. reflexivity.
Qed.

Lemma challenge_summary_request_reads_little_witness :
  ParallelChallenge.summary_request
    (SummarySamples.filler 300 +:+ " and a late clause about penalties")
    (<["legal" := "one-sided"]> (<["draft" := "v1"]> ∅))
  = ParallelChallenge.summary_request
      (SummarySamples.filler 300 +:+ "")
      (<["legal" := "one-sided"]> ∅).
Proof.
  apply (challenge_summary_request_reads_little (SummarySamples.filler 300)
           " and a late clause about penalties" ""
           (<["legal" := "one-sided"]> (<["draft" := "v1"]> ∅))
           (<["legal" := "one-sided"]> ∅)).
  - vm_compute. reflexivity.
  - vm_compute. reflexivity.
  - vm_compute. reflexivity.
  - vm_compute. reflexivity.
Defined.
